(** * DGM / VELMOD sampler: a shallow embedding and its properties

    The development follows the two Python modules of the repository:

    - [scripts/convert.py]: assembly of the two canonical models (the unit
      axis, the canonical ordering, the terminal entry of the DGM and the
      gap-filled intercept of VELMOD);
    - [dgm_velmod_sampler/sample_dgm_velmod.py]: interpolation of both models
      at a query point and composition of the instantaneous velocity.

    Arrays hold IEEE-754 binary64 numbers.  They are modelled by the
    [spec_float] type of the standard library at precision 53, so that
    no-data (NaN), the infinities and the signed zeros behave as they do in
    numpy.  Labelled arrays are lists of rows, one row per label of the
    [unit] axis, in the order of that axis. *)

From Stdlib Require Import ZArith List String Bool Lia Permutation Sorted.
From Stdlib Require Import SpecFloat.
Import ListNotations.

Local Open Scope Z_scope.

(** ** Binary64 numbers *)

Module F64.

Definition float := spec_float.

Definition prec : Z := 53.
Definition emax : Z := 1024.

Definition nan : float := S754_nan.
Definition zero : float := S754_zero false.
Definition neg_inf : float := S754_infinity true.

Definition add : float -> float -> float := SFadd prec emax.
Definition sub : float -> float -> float := SFsub prec emax.
Definition mul : float -> float -> float := SFmul prec emax.
Definition div : float -> float -> float := SFdiv prec emax.

(** [ltb] and [eqb] are the comparisons [<] and [==] of Python floats: both
    are false as soon as one side is NaN. *)
Definition ltb : float -> float -> bool := SFltb.
Definition leb : float -> float -> bool := SFleb.
Definition eqb : float -> float -> bool := SFeqb.

(** Integers and dyadic numbers [m * 2^e] as floats (used for literals and
    for the count of valid cells in a mean). *)
Definition of_Z (n : Z) : float := binary_normalize prec emax n 0 false.
Definition dyadic (m e : Z) : float := binary_normalize prec emax m e false.

Definition is_nan (f : float) : bool :=
  match f with S754_nan => true | _ => false end.

Definition is_finite (f : float) : bool :=
  match f with S754_zero _ | S754_finite _ _ _ => true | _ => false end.

(** [numpy.nan_to_num]-like replacement used by the NaN-skipping
    reductions: NaN counts as 0. *)
Definition nan_to_zero (f : float) : float := if is_nan f then zero else f.

End F64.

Import F64.

(** ** Exceptions *)

Inductive exn : Type :=
| AssertionError
| KeyError
| ValueError
| IndexError.

Inductive result (A : Type) : Type :=
| Ok (a : A)
| Raise (e : exn).

Arguments Ok {A} a.
Arguments Raise {A} e.

Definition bind {A B : Type} (c : result A) (k : A -> result B) : result B :=
  match c with
  | Ok a => k a
  | Raise e => Raise e
  end.

Notation "x <- c ;; k" := (bind c (fun x => k))
  (at level 61, c at next level, right associativity).

Fixpoint mapM {A B : Type} (f : A -> result B) (l : list A) : result (list B) :=
  match l with
  | [] => Ok []
  | a :: l' => b <- f a ;; bs <- mapM f l' ;; Ok (b :: bs)
  end.

(** ** The array operations of numpy and xarray that the code calls *)

Module Xr.

(** [list.index] of Python. *)
Fixpoint index_of (s : string) (l : list string) : option nat :=
  match l with
  | [] => None
  | x :: l' => if String.eqb x s then Some O
               else option_map S (index_of s l')
  end.

Definition mem (s : string) (l : list string) : bool :=
  existsb (String.eqb s) l.

(** Stable sort by an integer key ([sortby], which argsorts stably). *)
Fixpoint insert_by {A : Type} (key : A -> Z) (a : A) (l : list A) : list A :=
  match l with
  | [] => [a]
  | b :: l' => if key a <=? key b then a :: b :: l'
               else b :: insert_by key a l'
  end.

Definition sortby {A : Type} (key : A -> Z) (l : list A) : list A :=
  fold_right (insert_by key) [] l.

(** [numpy.unique] on labels: the sorted list of the distinct values. *)
Fixpoint insert_str (a : string) (l : list string) : list string :=
  match l with
  | [] => [a]
  | b :: l' => if String.leb a b then a :: b :: l'
               else b :: insert_str a l'
  end.

Definition unique (l : list string) : list string :=
  fold_right insert_str [] (nodup string_dec l).

(** [numpy.intersect1d]: the sorted distinct values found in both. *)
Definition intersect1d (a b : list string) : list string :=
  filter (fun u => mem u b) (unique a).

(** Selection of rows by a list of labels ([sel] on the [unit] axis). *)
Definition sel {R : Type} (label : R -> string) (rows : list R)
    (labels : list string) : result (list R) :=
  mapM (fun l => match find (fun r => String.eqb (label r) l) rows with
                 | Some r => Ok r
                 | None => Raise KeyError
                 end) labels.

(** Selection of one label on an axis that is then dropped: the position
    of the label, or [KeyError]. *)
Definition sel_index (axis : list string) (l : string) : result nat :=
  match index_of l axis with
  | Some i => Ok i
  | None => Raise KeyError
  end.

(** [idxmax] of a boolean array along [unit]: the label of the first
    [True], and of the first entry when there is none; an empty axis
    raises. *)
Fixpoint first_true (l : list (string * bool)) : option string :=
  match l with
  | [] => None
  | (u, b) :: l' => if b then Some u else first_true l'
  end.

Definition idxmax (l : list (string * bool)) : result string :=
  match l with
  | [] => Raise ValueError
  | (u0, _) :: _ =>
      match first_true l with
      | Some u => Ok u
      | None => Ok u0
      end
  end.

(** NaN-skipping sum: the default reduction of xarray on float data.  NaN
    is replaced by 0 and the entries are added from left to right. *)
Definition nansum (l : list float) : float :=
  fold_left add (map nan_to_zero l) zero.

(** NaN-skipping mean: the sum of the valid cells over their number; 0/0
    is NaN when there is none. *)
Definition count_valid (l : list float) : Z :=
  Z.of_nat (List.length (filter (fun f => negb (is_nan f)) l)).

Definition nanmean (l : list float) : float :=
  div (nansum l) (of_Z (count_valid l)).

(** [fillna]: NaN cells take the replacement value. *)
Definition fillna (v : float) (f : float) : float :=
  if is_nan f then v else f.

End Xr.

Import Xr.

(** ** Data model *)

(** A 2-D field over the spatial axes: [da_val] has one row per [y] and
    one column per [x].  The coordinates of the nodes are labels: the code
    sorts them and matches them for equality, and only the interpolation
    computes with them.  They are integers here (node positions in metres). *)
Definition matrix := list (list float).

Record DataArray : Type := {
  da_x : list Z;
  da_y : list Z;
  da_val : matrix
}.

(** A VELMOD variable has the extra axes [kriging_type] and
    [summary_statistic], in that order. *)
Abbreviation table A := (list (list A)) (only parsing).

Definition table_get {A : Type} (d : A) (t : table A) (i j : nat) : A :=
  nth j (nth i t []) d.

Record dgm_row : Type := {
  d_unit : string;
  d_vars : list (string * matrix);
  d_ordering : Z
}.

Record Dgm : Type := {
  dgm_crs : option string;
  dgm_x : list Z;
  dgm_y : list Z;
  dgm_rows : list dgm_row
}.

Record velmod_row : Type := {
  v_unit : string;
  v_vars : list (string * table matrix);
  v_k : float;
  v_ordering : Z
}.

Record Velmod : Type := {
  velmod_crs : option string;
  velmod_x : list Z;
  velmod_y : list Z;
  velmod_kriging_type : list string;
  velmod_summary_statistic : list string;
  velmod_rows : list velmod_row
}.

Definition dgm_units (dgm : Dgm) : list string := map d_unit (dgm_rows dgm).
Definition velmod_units (velmod : Velmod) : list string :=
  map v_unit (velmod_rows velmod).

(** Lookup of a variable by name. *)
Fixpoint get_var {A : Type} (name : string) (vars : list (string * A))
    : result A :=
  match vars with
  | [] => Raise KeyError
  | (n, a) :: vars' => if String.eqb n name then Ok a else get_var name vars'
  end.

Definition crs_eqb (a b : option string) : bool :=
  match a, b with
  | None, None => true
  | Some x, Some y => String.eqb x y
  | _, _ => false
  end.

(** ** Sampling ([sample_dgm_velmod.py]) *)

(** The query [x], [y] enters the code through [interp] only.  One query
    element is therefore given by [xy], the value that the interpolation at
    that element returns for a 2-D field; the elements of a query and the
    values of [z] are treated independently of each other by every array
    operation of the function, so one element and one depth are modelled. *)

Record velmod_itp_row : Type := {
  vi_unit : string;
  vi_vars : list (string * table float);
  vi_k : float;
  vi_ordering : Z
}.

Record dgm_itp_row : Type := {
  di_unit : string;
  di_vars : list (string * float);
  di_ordering : Z
}.

Definition map_vars {A B : Type} (f : A -> B) (vars : list (string * A))
    : list (string * B) :=
  map (fun nv => (fst nv, f (snd nv))) vars.

(** [interp({"x": x, "y": y})]: every variable with spatial axes is
    interpolated, slice by slice; [k] and [ordering] have none. *)
Definition interp_velmod (xy : DataArray -> float) (velmod : Velmod)
    (r : velmod_row) : velmod_itp_row :=
  {| vi_unit := v_unit r;
     vi_vars :=
       map_vars (map (map (fun m =>
         xy {| da_x := velmod_x velmod; da_y := velmod_y velmod;
               da_val := m |}))) (v_vars r);
     vi_k := v_k r;
     vi_ordering := v_ordering r |}.

Definition interp_dgm (xy : DataArray -> float) (dgm : Dgm)
    (r : dgm_row) : dgm_itp_row :=
  {| di_unit := d_unit r;
     di_vars :=
       map_vars (fun m =>
         xy {| da_x := dgm_x dgm; da_y := dgm_y dgm; da_val := m |})
         (d_vars r);
     di_ordering := d_ordering r |}.

(** [velmod_itp[name].sel({"summary_statistic": stat, "kriging_type": "sk"},
    drop=True)]. *)
Definition sel_sk (velmod : Velmod) (velmod_itp : list velmod_itp_row)
    (name stat : string) : result (list (string * float)) :=
  arr <- mapM (fun r => t <- get_var name (vi_vars r) ;; Ok (vi_unit r, t))
              velmod_itp ;;
  j <- sel_index (velmod_summary_statistic velmod) stat ;;
  i <- sel_index (velmod_kriging_type velmod) "sk" ;;
  Ok (map (fun ut => (fst ut, table_get nan (snd ut) i j)) arr).

(** The dataset that the function returns.  Each field is listed along the
    unit axis of the array it is taken from. *)
Record Samples : Type := {
  V0 : list (string * float);
  V0_sd : list (string * float);
  k : list (string * float);
  depth : list (string * float);
  ordering : list (string * Z);
  unit_samples : option string;
  unit_mask : option (list (string * bool));
  Vinst : option float;
  crs_out : option string
}.

(** Truth value of a CRS designation in [if not crs] and [if crs]: [None]
    and the empty designation are false. *)
Definition truthy (c : option string) : bool :=
  match c with
  | Some EmptyString => false
  | Some _ => true
  | None => false
  end.

(** The CRS of the returned dataset.  Its variables keep the [spatial_ref]
    coordinate of the models through [sel] and [interp], so the dataset
    carries the CRS [carried] of the models unless [write_crs] replaces it:
    with the argument [crs], or else with the CRS of [x], when there is
    one. *)
Definition output_crs (crs x_crs carried : option string) : option string :=
  let crs := if truthy crs then crs else x_crs in
  if truthy crs then crs else carried.

Definition sample_dgm_velmod (xy : DataArray -> float) (x_crs : option string)
    (z : option float) (dgm : Dgm) (velmod : Velmod) (crs : option string)
    : result Samples :=
  (* assert the coordinate reference system of dgm and velmod is equal *)
  if negb (crs_eqb (dgm_crs dgm) (velmod_crs velmod)) then Raise AssertionError
  else
  (* determine which units are common to both datasets *)
  let sel_units := intersect1d (dgm_units dgm) (velmod_units velmod) in
  (* interpolate VELMOD *)
  vs <- sel v_unit (velmod_rows velmod) sel_units ;;
  let velmod_itp := sortby vi_ordering (map (interp_velmod xy velmod) vs) in
  (* interpolate DGM *)
  ds <- sel d_unit (dgm_rows dgm) sel_units ;;
  let dgm_itp := sortby di_ordering (map (interp_dgm xy dgm) ds) in
  V0_ <- sel_sk velmod velmod_itp "V0_filled" "mean" ;;
  SD <- sel_sk velmod velmod_itp "V0_filled" "sd" ;;
  let k_ := map (fun r => (vi_unit r, vi_k r)) velmod_itp in
  tvd <- mapM (fun r => t <- get_var "tvd" (di_vars r) ;; Ok (di_unit r, t))
              dgm_itp ;;
  let crs' := output_crs crs x_crs (velmod_crs velmod) in
  let samples unit_ mask vinst :=
    {| V0 := V0_; V0_sd := SD; k := k_; depth := tvd;
       ordering := map (fun r => (di_unit r, di_ordering r)) dgm_itp;
       unit_samples := unit_; unit_mask := mask; Vinst := vinst;
       crs_out := crs' |} in
  match z with
  | None => Ok (samples None None None)
  | Some z =>
      (* create depth profiles for each unit *)
      let unit_vinst :=
        map (fun vk => (fst (fst vk), sub (snd (fst vk)) (mul (snd (snd vk)) z)))
            (combine V0_ k_) in
      (* determine which unit is present at which depth *)
      unit_ <- idxmax (map (fun ut => (fst ut, ltb (snd ut) z)) tvd) ;;
      (* create corresponding mask *)
      let mask := map (fun uv => (fst uv, String.eqb (fst uv) unit_)) unit_vinst in
      (* and combine both *)
      let vinst :=
        nansum (map (fun uv => if String.eqb (fst uv) unit_ then snd uv else zero)
                    unit_vinst) in
      Ok (samples (Some unit_) (Some mask) (Some vinst))
  end.

(** ** Model assembly ([convert.py]) *)

Definition crs_UTM31 : string := "epsg:23031".

(** hard code ordering of units *)
Definition unit_canonical_order : list string :=
  [ "N"; "NU"; "NLNM"; "NM"; "NL"; "CK"; "KN"; "KNG"; "KNGL"; "KNN"; "S"; "SL";
    "SG"; "SK"; "ATPO"; "AT"; "TR"; "RN"; "RB"; "ZE"; "RO"; "DCC"; "DC"; "CL" ]%string.

(** What [velmod_zmap_to_xarray] and [dgm_zmap_to_xarray] return for one
    grid file: the dense field of the file and the labels read from the
    file name. *)
Record velmod_da : Type := {
  vd_unit : string;
  vd_variable : string;
  vd_kriging_type : string;
  vd_summary_statistic : string;
  vd_grid : DataArray
}.

Record dgm_da : Type := {
  dd_unit : string;
  dd_var : string;
  dd_grid : DataArray
}.

Module Stack.

(** Position of a coordinate on an axis. *)
Fixpoint coord_pos (x : Z) (xs : list Z) : option nat :=
  match xs with
  | [] => None
  | x0 :: xs' => if x0 =? x then Some O else option_map S (coord_pos x xs')
  end.

Definition cell (m : matrix) (row col : nat) : float :=
  nth col (nth row m []) nan.

(** Value of a field at a pair of coordinates; no-data off its axes. *)
Definition value_at (g : DataArray) (x y : Z) : float :=
  match coord_pos x (da_x g), coord_pos y (da_y g) with
  | Some i, Some j => cell (da_val g) j i
  | _, _ => nan
  end.

(** Outer join of coordinate axes: sorted, without repetition. *)
Fixpoint insert_coord (x : Z) (l : list Z) : list Z :=
  match l with
  | [] => [x]
  | y :: l' => if x <? y then x :: l
               else if x =? y then l
               else y :: insert_coord x l'
  end.

Definition union_coords (axes : list (list Z)) : list Z :=
  fold_right insert_coord [] (List.concat axes).

Definition reindex (g : DataArray) (xs ys : list Z) : matrix :=
  map (fun y => map (fun x => value_at g x y) xs) ys.

Definition full_like (g : DataArray) (v : float) : DataArray :=
  {| da_x := da_x g; da_y := da_y g;
     da_val := map (map (fun _ => v)) (da_val g) |}.

Definition key := list string.

Fixpoint key_eqb (a b : key) : bool :=
  match a, b with
  | [], [] => true
  | x :: a', y :: b' => String.eqb x y && key_eqb a' b'
  | _, _ => false
  end.

Fixpoint has_dup (keys : list key) : bool :=
  match keys with
  | [] => false
  | q :: keys' => existsb (key_eqb q) keys' || has_dup keys'
  end.

(** [concat], [set_index] and [unstack], then [dropna] along [x] and
    along [y]: the spatial axes that remain and the stacked fields. *)
Record stacked : Type := {
  st_x : list Z;
  st_y : list Z;
  st_arrays : list (key * DataArray)
}.

Definition some_valid (arrays : list (key * DataArray)) (xs ys : list Z)
    : bool :=
  existsb (fun a =>
    existsb (fun y =>
      existsb (fun x => negb (is_nan (value_at (snd a) x y))) xs) ys) arrays.

(** An empty list cannot be concatenated.  Two arrays with the same labels
    make the stacked index non-unique; [unstack] refuses such an index in
    xarray 2024.2 and later, the releases that are modelled here (earlier
    ones keep one of the two arrays instead). *)
Definition unstack (arrays : list (key * DataArray)) : result stacked :=
  match arrays with
  | [] => Raise ValueError
  | _ :: _ =>
      if has_dup (map fst arrays) then Raise ValueError
      else
        let xs := union_coords (map (fun a => da_x (snd a)) arrays) in
        let ys := union_coords (map (fun a => da_y (snd a)) arrays) in
        let xs' := filter (fun x => some_valid arrays [x] ys) xs in
        let ys' := filter (fun y => some_valid arrays xs' [y]) ys in
        Ok {| st_x := xs'; st_y := ys'; st_arrays := arrays |}
  end.

(** The field stored under a combination of labels; no-data everywhere
    for a combination that no file gives. *)
Definition slice (s : stacked) (q : key) : matrix :=
  match find (fun a => key_eqb (fst a) q) (st_arrays s) with
  | Some a => reindex (snd a) (st_x s) (st_y s)
  | None => map (fun _ => map (fun _ => nan) (st_x s)) (st_y s)
  end.

End Stack.

Import Stack.

Fixpoint set_var {A : Type} (name : string) (a : A) (vars : list (string * A))
    : list (string * A) :=
  match vars with
  | [] => [(name, a)]
  | (n, b) :: vars' => if String.eqb n name then (n, a) :: vars'
                       else (n, b) :: set_var name a vars'
  end.

(** add canonical ordering (top to bottom) *)
Definition canonical_index (u : string) : result Z :=
  match index_of u unit_canonical_order with
  | Some i => Ok (Z.of_nat i)
  | None => Raise ValueError
  end.

(** [V0.fillna(V0.mean(["x", "y"]))] on one spatial slice. *)
Definition fill_by_mean (m : matrix) : matrix :=
  let mean := nanmean (List.concat m) in
  map (map (fillna mean)) m.

Definition lookup_k (u : string) (velmoddata : list (string * float)) : float :=
  match find (fun r => String.eqb (fst r) u) velmoddata with
  | Some r => snd r
  | None => nan
  end.

Definition convert_velmod (velmoddata : list (string * float))
    (velmodds : list velmod_da) : result Velmod :=
  (* concatenate individual files *)
  velmodxrc <- unstack (map (fun d =>
      ([vd_unit d; vd_variable d; vd_kriging_type d; vd_summary_statistic d],
       vd_grid d)) velmodds) ;;
  let variables := unique (map vd_variable velmodds) in
  let kriging_types := unique (map vd_kriging_type velmodds) in
  let statistics := unique (map vd_summary_statistic velmodds) in
  (* partition "variable" dimension into separate datasets, and merge the
     table of k values on the unit axis *)
  let units := unique (map vd_unit velmodds ++ map fst velmoddata) in
  let vars_of u :=
    map (fun v => (v, map (fun kt => map (fun s =>
           slice velmodxrc [u; v; kt; s]) statistics) kriging_types))
        variables in
  (* add canonical ordering (top to bottom) and sort accordingly *)
  rows <- mapM (fun u => o <- canonical_index u ;;
                  Ok {| v_unit := u; v_vars := vars_of u;
                        v_k := lookup_k u velmoddata; v_ordering := o |})
               units ;;
  let velmod_UTM := sortby v_ordering rows in
  (* integrate ZE in the Vinst=V0+k*z template by setting V0=Vint *)
  if negb (mem "Vint" variables && mem "ZE" units && mem "V0" variables)
  then Raise KeyError
  else
  let velmod_UTM :=
    map (fun r =>
      if String.eqb (v_unit r) "ZE" then
        match get_var "Vint" (v_vars r) with
        | Ok vint =>
            {| v_unit := v_unit r; v_vars := set_var "V0" vint (v_vars r);
               v_k := v_k r; v_ordering := v_ordering r |}
        | Raise _ => r
        end
      else r) velmod_UTM in
  (* also create grids with the missing parts filled in by the unit mean *)
  rows' <- mapM (fun r =>
      v0 <- get_var "V0" (v_vars r) ;;
      Ok {| v_unit := v_unit r;
            v_vars := set_var "V0_filled" (map (map fill_by_mean) v0) (v_vars r);
            v_k := v_k r; v_ordering := v_ordering r |}) velmod_UTM ;;
  Ok {| velmod_crs := Some crs_UTM31;
        velmod_x := st_x velmodxrc; velmod_y := st_y velmodxrc;
        velmod_kriging_type := kriging_types;
        velmod_summary_statistic := statistics;
        velmod_rows := rows' |}.

Definition convert_dgm (dgmds : list dgm_da) : result Dgm :=
  match dgmds with
  | [] => Raise IndexError
  | first :: _ =>
      (* add bottom to DC at -infinity for convenience *)
      let last := {| dd_unit := "DC"; dd_var := dd_var first;
                     dd_grid := full_like (dd_grid first) neg_inf |} in
      let dgmds := dgmds ++ [last] in
      (* concatenate individual files *)
      dgmxrc <- unstack (map (fun d => ([dd_unit d; dd_var d], dd_grid d))
                             dgmds) ;;
      (* partition "var" dimension into separate datasets *)
      let vars := unique (map dd_var dgmds) in
      let units := unique (map dd_unit dgmds) in
      (* add canonical ordering (top to bottom) and sort accordingly *)
      rows <- mapM (fun u => o <- canonical_index u ;;
                      Ok {| d_unit := u;
                            d_vars := map (fun v => (v, slice dgmxrc [u; v])) vars;
                            d_ordering := o |}) units ;;
      Ok {| dgm_crs := Some crs_UTM31;
            dgm_x := st_x dgmxrc; dgm_y := st_y dgmxrc;
            dgm_rows := sortby d_ordering rows |}
  end.

(** The two models that [convert] writes, VELMOD first. *)
Definition convert (velmoddata : list (string * float))
    (velmodds : list velmod_da) (dgmds : list dgm_da)
    : result (Velmod * Dgm) :=
  velmod_UTM <- convert_velmod velmoddata velmodds ;;
  dgm_UTM <- convert_dgm dgmds ;;
  Ok (velmod_UTM, dgm_UTM).

(** ** Linear interpolation at a point

    [interp] is a library routine.  The theorems on the sampler hold for
    whatever value it returns; the concrete inputs below use this model of
    it: bilinear weights on the cell that holds the point, and no-data
    outside the axes (no extrapolation). *)

Module Interp.

Definition one : float := of_Z 1.

(** The interval of the axis that holds [x], and the normalised distance
    of [x] from its lower end. *)
Fixpoint bracket (xs : list Z) (x : float) (i : nat)
    : option (nat * float) :=
  match xs with
  | x0 :: xs' =>
      match xs' with
      | x1 :: rest =>
          if leb (of_Z x0) x
             && (ltb x (of_Z x1)
                 || (match rest with [] => leb x (of_Z x1) | _ => false end))
          then Some (i, div (sub x (of_Z x0)) (sub (of_Z x1) (of_Z x0)))
          else bracket xs' x (S i)
      | [] => None
      end
  | [] => None
  end.

Definition interp_linear (x y : float) (g : DataArray) : float :=
  match bracket (da_x g) x O, bracket (da_y g) y O with
  | Some (i, tx), Some (j, ty) =>
      let m := da_val g in
      let w00 := mul (sub one ty) (sub one tx) in
      let w01 := mul (sub one ty) tx in
      let w10 := mul ty (sub one tx) in
      let w11 := mul ty tx in
      add (add (add (mul (cell m j i) w00) (mul (cell m j (S i)) w01))
               (mul (cell m (S j) i) w10))
          (mul (cell m (S j) (S i)) w11)
  | _, _ => nan
  end.

End Interp.

Import Interp.

(** ** A small model used for the concrete inputs

    Two DGM grids (N at -100, NU at -200) and VELMOD grids for N, NU, ZE
    and DC on the lattice x, y in {0, 1}. *)

Module Fixture.

Definition f (n : Z) : float := of_Z n.

Definition lattice (v : float) : DataArray :=
  {| da_x := [0; 1]; da_y := [0; 1]; da_val := [[v; v]; [v; v]] |}.

Definition dgm_N : dgm_da :=
  {| dd_unit := "N"; dd_var := "tvd"; dd_grid := lattice (f (-100)) |}.

Definition dgm_NU : dgm_da :=
  {| dd_unit := "NU"; dd_var := "tvd"; dd_grid := lattice (f (-200)) |}.

Definition dgmds : list dgm_da := [dgm_N; dgm_NU].

Definition vfile (u v s : string) (g : DataArray) : velmod_da :=
  {| vd_unit := u; vd_variable := v; vd_kriging_type := "sk";
     vd_summary_statistic := s; vd_grid := g |}.

(** The intercept of N has one no-data node, at x = 1, y = 1. *)
Definition N_V0 : DataArray :=
  {| da_x := [0; 1]; da_y := [0; 1];
     da_val := [[f 1500; f 1500]; [f 1500; nan]] |}.

Definition velmodds : list velmod_da :=
  [ vfile "N" "V0" "mean" N_V0;
    vfile "N" "V0" "sd" (lattice (f 10));
    vfile "NU" "V0" "mean" (lattice (f 1800));
    vfile "NU" "V0" "sd" (lattice (f 20));
    vfile "DC" "V0" "mean" (lattice (f 4000));
    vfile "DC" "V0" "sd" (lattice (f 40));
    vfile "ZE" "Vint" "mean" (lattice (f 1600));
    vfile "ZE" "Vint" "sd" (lattice (f 16)) ].

Definition half : float := dyadic 1 (-1).

Definition velmoddata : list (string * float) :=
  [ ("N", half); ("NU", half); ("ZE", f 0); ("DC", half) ]%string.

Definition velmod : Velmod :=
  match convert_velmod velmoddata velmodds with
  | Ok m => m
  | Raise _ =>
      {| velmod_crs := None; velmod_x := []; velmod_y := [];
         velmod_kriging_type := []; velmod_summary_statistic := [];
         velmod_rows := [] |}
  end.

Definition dgm : Dgm :=
  match convert_dgm dgmds with
  | Ok m => m
  | Raise _ => {| dgm_crs := None; dgm_x := []; dgm_y := []; dgm_rows := [] |}
  end.

(** Query points: the centre of the cell, the node x = 1, y = 1, and a
    point off the lattice. *)
Definition centre : DataArray -> float := interp_linear half half.
Definition node11 : DataArray -> float := interp_linear (f 1) (f 1).
Definition outside : DataArray -> float := interp_linear (f 5) half.

(** The DGM under another CRS tag. *)
Definition dgm_RD : Dgm :=
  {| dgm_crs := Some "epsg:28992"%string; dgm_x := dgm_x dgm;
     dgm_y := dgm_y dgm; dgm_rows := dgm_rows dgm |}.

End Fixture.

(** ** Well-formed sampler inputs

    The datasets that the sampler can run on: the same CRS tag, the labels
    [sk], [mean] and [sd] on their axes, a [V0_filled] variable of the
    shape of these axes for every unit of VELMOD and a [tvd] variable for
    every unit of the DGM. *)

Definition var_or {A : Type} (d : A) (name : string) (vars : list (string * A))
    : A :=
  match get_var name vars with
  | Ok a => a
  | Raise _ => d
  end.

Definition has_var {A : Type} (name : string) (vars : list (string * A))
    : bool :=
  match get_var name vars with
  | Ok _ => true
  | Raise _ => false
  end.

Definition table_shaped {A : Type} (n m : nat) (t : table A) : bool :=
  Nat.eqb (List.length t) n
  && forallb (fun r => Nat.eqb (List.length r) m) t.

Definition velmod_row_ready (velmod : Velmod) (r : velmod_row) : bool :=
  match get_var "V0_filled" (v_vars r) with
  | Ok t => table_shaped (List.length (velmod_kriging_type velmod))
                         (List.length (velmod_summary_statistic velmod)) t
  | Raise _ => false
  end.

Definition sampler_ready (dgm : Dgm) (velmod : Velmod) : bool :=
  crs_eqb (dgm_crs dgm) (velmod_crs velmod)
  && mem "sk" (velmod_kriging_type velmod)
  && mem "mean" (velmod_summary_statistic velmod)
  && mem "sd" (velmod_summary_statistic velmod)
  && forallb (velmod_row_ready velmod) (velmod_rows velmod)
  && forallb (fun r => has_var "tvd" (d_vars r)) (dgm_rows dgm).

(** The units that both models have. *)
Definition common_units (dgm : Dgm) (velmod : Velmod) : list string :=
  intersect1d (dgm_units dgm) (velmod_units velmod).

(** Lookup in an array listed along the unit axis. *)
Fixpoint at_unit {A : Type} (u : string) (arr : list (string * A)) : option A :=
  match arr with
  | [] => None
  | (u', a) :: arr' => if String.eqb u' u then Some a else at_unit u arr'
  end.

(** The spatial slice of a VELMOD variable at positions [i], [j] of the
    [kriging_type] and [summary_statistic] axes. *)
Definition slice_at (t : table matrix) (i j : nat) : option matrix :=
  match nth_error t i with
  | Some row => nth_error row j
  | None => None
  end.

(** The field of a VELMOD slice as the interpolation receives it. *)
Definition velmod_field (velmod : Velmod) (m : matrix) : DataArray :=
  {| da_x := velmod_x velmod; da_y := velmod_y velmod; da_val := m |}.

Definition dgm_field (dgm : Dgm) (m : matrix) : DataArray :=
  {| da_x := dgm_x dgm; da_y := dgm_y dgm; da_val := m |}.



(** ** Auxiliary definitions of the statements *)

Definition key_le {A : Type} (key : A -> Z) (a b : A) : Prop :=
  key a <= key b.

(** The interpolated rows of the selected units, sorted by ordering
    ([velmod_itp] and [dgm_itp] in the code). *)
Definition velmod_itp_of (xy : DataArray -> float) (velmod : Velmod)
    (vs : list velmod_row) : list velmod_itp_row :=
  sortby vi_ordering (map (interp_velmod xy velmod) vs).

Definition dgm_itp_of (xy : DataArray -> float) (dgm : Dgm)
    (ds : list dgm_row) : list dgm_itp_row :=
  sortby di_ordering (map (interp_dgm xy dgm) ds).

Definition filled_at (i j : nat) (r : velmod_itp_row) : float :=
  table_get nan (var_or [] "V0_filled" (vi_vars r)) i j.

Definition tvd_of (r : dgm_itp_row) : float := var_or nan "tvd" (di_vars r).

(** [where(unit_mask, 0.0)] on an array along the unit axis. *)
Definition masked (u : string) (l : list (string * float)) : list float :=
  map (fun uv => if String.eqb (fst uv) u then snd uv else zero) l.

(** The canonical ordering of the rows that [convert] builds. *)
Definition canonically_ordered {R : Type} (unit_ : R -> string)
    (ord : R -> Z) (rows : list R) : Prop :=
  (forall r, In r rows -> canonical_index (unit_ r) = Ok (ord r))
  /\ StronglySorted Z.le (map ord rows).

Ltac by_evaluation := vm_compute; first [reflexivity | discriminate].

Ltac dec_chars :=
  repeat match goal with
         | |- context [Ascii.ascii_dec ?x ?y] =>
             destruct (Ascii.ascii_dec x y); try discriminate
         end.

(** ** File names ([velmod_zmap_to_xarray], [dgm_zmap_to_xarray]) *)

Module Str.

(** The character [_]. *)
Definition underscore : Ascii.ascii := Ascii.ascii_of_nat 95.

(** [str.split(sep)] for a separator of one character. *)
Fixpoint split (sep : Ascii.ascii) (s : string) : list string :=
  match s with
  | EmptyString => [EmptyString]
  | String c s' =>
      if Ascii.eqb c sep then EmptyString :: split sep s'
      else match split sep s' with
           | t :: ts => String c t :: ts
           | [] => [String c EmptyString]
           end
  end.

(** [str.replace(old, new)] for a non-empty [old]: the occurrences of
    [old] are replaced from left to right, without overlap.  [skip] counts
    the characters of a replaced occurrence that are still to be passed. *)
Fixpoint replace_from (old new : string) (skip : nat) (s : string) : string :=
  match s with
  | EmptyString => EmptyString
  | String c s' =>
      match skip with
      | S n => replace_from old new n s'
      | O =>
          if String.prefix old s
          then String.append new
                 (replace_from old new (Nat.pred (String.length old)) s')
          else String c (replace_from old new O s')
      end
  end.

Definition replace (old new s : string) : string := replace_from old new O s.

(** [str.strip(chars)] for one character. *)
Fixpoint lstrip (c : Ascii.ascii) (s : string) : string :=
  match s with
  | EmptyString => EmptyString
  | String a s' => if Ascii.eqb a c then lstrip c s' else s
  end.

Fixpoint rstrip (c : Ascii.ascii) (s : string) : string :=
  match s with
  | EmptyString => EmptyString
  | String a s' =>
      match rstrip c s' with
      | EmptyString => if Ascii.eqb a c then EmptyString
                       else String a EmptyString
      | r => String a r
      end
  end.

Definition strip (c : Ascii.ascii) (s : string) : string :=
  rstrip c (lstrip c s).

(** [old in s]. *)
Fixpoint contains (old s : string) : bool :=
  String.prefix old s
  || match s with
     | EmptyString => false
     | String _ s' => contains old s'
     end.

Fixpoint has_char (c : Ascii.ascii) (s : string) : bool :=
  match s with
  | EmptyString => false
  | String a s' => Ascii.eqb a c || has_char c s'
  end.

End Str.

(** [name_list[n]]. *)
Definition token (name_list : list string) (n : nat) : result string :=
  match nth_error name_list n with
  | Some t => Ok t
  | None => Raise IndexError
  end.

(** The labels are read from the stem of the file name; [grid] is the
    dense field that the grid parser returns for the file. *)
Definition velmod_zmap_to_xarray (stem : string) (grid : DataArray)
    : result velmod_da :=
  let name := Str.replace "NLM" "NLNM" stem in  (* tidying up *)
  (* add suffix for mean, to distinguish from sd *)
  let name := String.append name "_mean" in
  let name_list := Str.split Str.underscore name in
  unit_ <- token name_list 0 ;;
  var <- token name_list 2 ;;
  kriging_type <- token name_list 3 ;;
  summary_statistic <- token name_list 4 ;;
  Ok {| vd_unit := unit_; vd_variable := var;
        vd_kriging_type := kriging_type;
        vd_summary_statistic := summary_statistic;
        vd_grid := grid |}.

Definition dgm_zmap_to_xarray (stem : string) (grid : DataArray)
    : result dgm_da :=
  let name_list := Str.split Str.underscore stem in
  unit_ <- token name_list 0 ;;
  var <- token name_list 1 ;;
  Ok {| dd_unit := unit_; dd_var := Str.strip Str.underscore var; dd_grid := grid |}.

(** [convert] from the files on: the VELMOD files are read and the model
    is written, then the DGM files are read and the model is written.  The
    log lists the files written, in order. *)
Inductive written : Type :=
| VELMOD31_UTM31 (m : Velmod)
| DGM5_UTM31 (m : Dgm).

Definition convert_files (velmoddata : list (string * float))
    (velmod_zmap_list dgm_zmap_list : list (string * DataArray))
    : list written * result unit :=
  match mapM (fun zm => velmod_zmap_to_xarray (fst zm) (snd zm))
             velmod_zmap_list with
  | Raise e => ([], Raise e)
  | Ok velmodds =>
      match convert_velmod velmoddata velmodds with
      | Raise e => ([], Raise e)
      | Ok velmod_UTM =>
          match mapM (fun zm => dgm_zmap_to_xarray (fst zm) (snd zm))
                     dgm_zmap_list with
          | Raise e => ([VELMOD31_UTM31 velmod_UTM], Raise e)
          | Ok dgmds =>
              match convert_dgm dgmds with
              | Raise e => ([VELMOD31_UTM31 velmod_UTM], Raise e)
              | Ok dgm_UTM =>
                  ([VELMOD31_UTM31 velmod_UTM; DGM5_UTM31 dgm_UTM], Ok tt)
              end
          end
      end
  end.

(** The key under which a file is stacked, and the table of the stacked
    slices of one unit and variable. *)
Definition velmod_key (d : velmod_da) : key :=
  [vd_unit d; vd_variable d; vd_kriging_type d; vd_summary_statistic d].

Definition dgm_key (d : dgm_da) : key := [dd_unit d; dd_var d].

Definition stacked_table (st : stacked) (u v : string)
    (kriging_types statistics : list string) : list (list matrix) :=
  map (fun kt => map (fun s => slice st [u; v; kt; s]) statistics)
      kriging_types.

(** The terminal entry that [convert] appends to the DGM files, and the
    variables of a VELMOD row after the ZE substitution. *)
Definition dgm_last (first : dgm_da) : dgm_da :=
  {| dd_unit := "DC"; dd_var := dd_var first;
     dd_grid := full_like (dd_grid first) neg_inf |}.

Definition ze_vars (r : velmod_row) : list (string * list (list matrix)) :=
  if String.eqb (v_unit r) "ZE" then
    match get_var "Vint" (v_vars r) with
    | Ok vint => set_var "V0" vint (v_vars r)
    | Raise _ => v_vars r
    end
  else v_vars r.

(** ** The rows that the sampler reads *)

(** The row that [sel] takes for a label: the first row that carries it. *)
Definition row_of {R : Type} (label : R -> string) (rows : list R)
    (u : string) : option R :=
  find (fun r => String.eqb (label r) u) rows.

(** The rows taken for a list of labels, one per label. *)
Definition rows_of {R : Type} (label : R -> string) (rows : list R)
    (labels : list string) (rs : list R) : Prop :=
  Forall2 (fun u r => row_of label rows u = Some r) labels rs.

(** The stored base depth of a DGM row. *)
Definition tvd_field (d : dgm_row) : matrix := var_or [] "tvd" (d_vars d).

(** The slice of the gap-filled intercept of a VELMOD row at positions
    [i], [j] of the [kriging_type] and [summary_statistic] axes. *)
Definition filled_slice (i j : nat) (r : velmod_row) : matrix :=
  table_get [] (var_or [] "V0_filled" (v_vars r)) i j.

(** ** The mean of the valid cells *)

Definition is_zero (x : float) : bool :=
  match x with
  | S754_zero _ => true
  | _ => false
  end.

(** Two floats that hold the same number: the same float, or the two
    zeros (which compare equal). *)
Definition same_number (a b : float) : Prop :=
  a = b \/ (is_zero a = true /\ is_zero b = true).

Definition valid_cells (l : list float) : list float :=
  filter (fun c => negb (is_nan c)) l.

(** The mean as the specification words it: the sum of the valid cells,
    taken in the order of the array, over their number. *)
Definition mean_of_valid (l : list float) : float :=
  div (fold_left add (valid_cells l) zero)
      (of_Z (Z.of_nat (List.length (valid_cells l)))).


(** ** Files that [convert] assembles *)



(** Further concrete inputs: a VELMOD model without the statistic sd,
    VELMOD files without the unit ZE, models without a unit in common, a
    unit without a valid intercept, VELMOD files without DC and a DGM grid
    on a wider lattice. *)
Module Cases.

Definition velmod_no_sd : Velmod :=
  {| velmod_crs := velmod_crs Fixture.velmod;
     velmod_x := velmod_x Fixture.velmod;
     velmod_y := velmod_y Fixture.velmod;
     velmod_kriging_type := velmod_kriging_type Fixture.velmod;
     velmod_summary_statistic := ["mean"%string];
     velmod_rows := velmod_rows Fixture.velmod |}.

Definition velmodds_N : list velmod_da :=
  [ Fixture.vfile "N" "V0" "mean" Fixture.N_V0 ].

Definition velmoddata_N : list (string * float) :=
  [ ("N"%string, Fixture.half) ].





(** The table of k values with a unit, RO, that no VELMOD file gives:
    its intercept has no valid cell. *)
Definition velmoddata_RO : list (string * float) :=
  ("RO"%string, Fixture.half) :: Fixture.velmoddata.

Definition velmod_RO : Velmod :=
  match convert_velmod velmoddata_RO Fixture.velmodds with
  | Ok m => m
  | Raise _ => Fixture.velmod
  end.

(** VELMOD files without the terminal unit DC. *)
Definition velmodds_no_DC : list velmod_da :=
  filter (fun d => negb (String.eqb (vd_unit d) "DC")) Fixture.velmodds.

Definition velmoddata_no_DC : list (string * float) :=
  [ ("N", Fixture.half); ("NU", Fixture.half); ("ZE", Fixture.f 0) ]%string.

Definition velmod_no_DC : Velmod :=
  match convert_velmod velmoddata_no_DC velmodds_no_DC with
  | Ok m => m
  | Raise _ => Fixture.velmod
  end.

(** A second DGM grid on a wider lattice than the first one, and a query
    point between its nodes x = 1 and x = 2. *)
Definition dgm_NU_wide : dgm_da :=
  {| dd_unit := "NU"; dd_var := "tvd";
     dd_grid := {| da_x := [0; 1; 2]; da_y := [0; 1];
                   da_val := [[Fixture.f (-200); Fixture.f (-200);
                               Fixture.f (-200)];
                              [Fixture.f (-200); Fixture.f (-200);
                               Fixture.f (-200)]] |} |}.

Definition dgm_wide : Dgm :=
  match convert_dgm [Fixture.dgm_N; dgm_NU_wide] with
  | Ok m => m
  | Raise _ => Fixture.dgm
  end.

Definition east : DataArray -> float :=
  interp_linear (dyadic 3 (-1)) Fixture.half.

End Cases.

(** * Properties *)

(** ** Binary64 facts *)

Section FloatFacts.


Lemma eqb_refl (x : float) : is_nan x = false -> eqb x x = true.
Proof.
  destruct x as [s|s| |s m e]; simpl; intros H; try discriminate.
  - reflexivity.
  - destruct s; reflexivity.
  - unfold eqb, SFeqb, SFcompare.
    destruct s; rewrite Z.compare_refl;
      change (Pos.compare_cont Eq m m) with (Pos.compare m m);
      rewrite Pos.compare_refl; reflexivity.
Qed.

(** The right shifts of the rounding step keep a mantissa non-negative,
    so rounding never yields NaN. *)
Lemma shr_1_nonneg (mrs : shr_record) :
  0 <= shr_m mrs -> 0 <= shr_m (shr_1 mrs).
Proof.
  destruct mrs as [m r s]; simpl.
  destruct m as [|p|p]; simpl; intros H; try lia.
  - destruct p; simpl; lia.
Qed.

Lemma iter_pos_shr_1_nonneg (p : positive) (mrs : shr_record) :
  0 <= shr_m mrs -> 0 <= shr_m (iter_pos shr_1 p mrs).
Proof.
  revert mrs; induction p as [p IH|p IH|]; simpl; intros mrs H.
  - apply IH, IH, shr_1_nonneg, H.
  - apply IH, IH, H.
  - apply shr_1_nonneg, H.
Qed.

Lemma shr_fexp_nonneg (m e : Z) (l : location) :
  0 <= m -> 0 <= shr_m (fst (shr_fexp prec emax m e l)).
Proof.
  intros H. unfold shr_fexp, shr.
  assert (H0 : 0 <= shr_m (shr_record_of_loc m l)).
  { destruct l as [|c]; [|destruct c]; simpl; exact H. }
  destruct (fexp prec emax (Zdigits2 m + e) - e) as [|p|p]; simpl; auto.
  apply iter_pos_shr_1_nonneg, H0.
Qed.

Lemma round_nearest_even_nonneg (m : Z) (l : location) :
  0 <= m -> 0 <= round_nearest_even m l.
Proof.
  intros H. destruct l as [|c]; [|destruct c]; simpl; try lia.
  destruct (Z.even m); lia.
Qed.

Lemma binary_round_aux_not_nan (s : bool) (m e : Z) (l : location) :
  0 <= m -> is_nan (binary_round_aux prec emax s m e l) = false.
Proof.
  intros H. unfold binary_round_aux.
  pose proof (shr_fexp_nonneg m e l H) as H1.
  destruct (shr_fexp prec emax m e l) as [mrs' e'] eqn:E1. simpl in H1.
  pose proof (shr_fexp_nonneg _ e' loc_Exact
                (round_nearest_even_nonneg _ (loc_of_shr_record mrs') H1)) as H2.
  destruct (shr_fexp prec emax (round_nearest_even (shr_m mrs')
              (loc_of_shr_record mrs')) e' loc_Exact) as [mrs'' e''] eqn:E2.
  simpl in H2.
  destruct (shr_m mrs'') as [|p|p]; try reflexivity.
  - destruct (e'' <=? emax - prec); reflexivity.
  - lia.
Qed.

Lemma binary_normalize_not_nan (m e : Z) (sz : bool) :
  is_nan (binary_normalize prec emax m e sz) = false.
Proof.
  destruct m as [|p|p]; simpl; try reflexivity;
    unfold binary_round;
    destruct (shl_align p e (fexp prec emax (Z.pos (digits2_pos p) + e)));
    apply binary_round_aux_not_nan; lia.
Qed.

Lemma mul_finite (a b : float) :
  is_finite a = true -> is_finite b = true ->
  is_nan (mul a b) = false.
Proof.
  destruct a as [sa|sa| |sa ma ea], b as [sb|sb| |sb mb eb]; simpl;
    intros Ha Hb; try discriminate; try reflexivity.
  apply binary_round_aux_not_nan; lia.
Qed.

Lemma sub_finite_l (a b : float) :
  is_finite a = true -> is_nan b = false -> is_nan (sub a b) = false.
Proof.
  destruct a as [sa|sa| |sa ma ea], b as [sb|sb| |sb mb eb]; simpl;
    intros Ha Hb; try discriminate; try reflexivity.
  - destruct sa, sb; reflexivity.
  - apply binary_normalize_not_nan.
Qed.

(** The linear law of one unit is a number whenever its inputs are. *)
Lemma linear_law_not_nan (v0 kk z : float) :
  is_finite v0 = true -> is_finite kk = true -> is_finite z = true ->
  is_nan (sub v0 (mul kk z)) = false.
Proof.
  intros H0 Hk Hz. apply sub_finite_l; [exact H0|].
  apply mul_finite; assumption.
Qed.

(** Adding the zero of the mask. *)
Lemma add_zero_l_not_nan (x : float) :
  is_nan x = false -> is_nan (add zero x) = false.
Proof. destruct x as [s|s| |s m e]; simpl; auto; destruct s; auto. Qed.

Lemma add_zero_l_eqb (x : float) :
  is_nan x = false -> eqb (add zero x) x = true.
Proof.
  intros H. destruct x as [s|s| |s m e]; simpl in *; try discriminate.
  - destruct s; reflexivity.
  - destruct s; reflexivity.
  - apply (eqb_refl (S754_finite s m e)). reflexivity.
Qed.

Lemma add_zero_l_exact (x : float) :
  x <> S754_zero true -> add zero x = x.
Proof.
  destruct x as [s|s| |s m e]; simpl; intros H; try reflexivity.
  destruct s; [congruence|reflexivity].
Qed.

Lemma add_zero_zero : add zero zero = zero.
Proof. reflexivity. Qed.

Lemma add_zero_l_zero_r (x : float) :
  add (add zero x) zero = add zero x.
Proof.
  destruct x as [s|s| |s m e]; simpl; try reflexivity;
    destruct s; reflexivity.
Qed.

End FloatFacts.

(** ** Sorting, label sets and selection *)

Section ListFacts.

Context {A : Type}.
Variable key : A -> Z.

Lemma insert_by_perm (a : A) (l : list A) :
  Permutation (insert_by key a l) (a :: l).
Proof.
  induction l as [|b l IH]; simpl.
  - apply Permutation_refl.
  - destruct (key a <=? key b).
    + apply Permutation_refl.
    + eapply perm_trans; [apply perm_skip, IH | apply perm_swap].
Qed.

Lemma sortby_perm (l : list A) : Permutation (sortby key l) l.
Proof.
  induction l as [|a l IH]; simpl.
  - apply perm_nil.
  - eapply perm_trans; [apply insert_by_perm | apply perm_skip, IH].
Qed.

Lemma insert_by_sorted (a : A) (l : list A) :
  StronglySorted (key_le key) l -> StronglySorted (key_le key) (insert_by key a l).
Proof.
  induction l as [|b l IH]; simpl; intros Hs.
  - constructor; constructor.
  - inversion Hs as [|b' l' Hl Hb]; subst.
    destruct (key a <=? key b) eqn:E.
    + apply Z.leb_le in E. constructor; [exact Hs|].
      constructor; [exact E|].
      eapply Forall_impl; [|exact Hb].
      unfold key_le; intros c Hc; lia.
    + apply Z.leb_gt in E. constructor; [apply IH, Hl|].
      eapply Permutation_Forall;
        [apply Permutation_sym, insert_by_perm|].
      constructor; [unfold key_le; lia | exact Hb].
Qed.

Lemma sortby_sorted (l : list A) : StronglySorted (key_le key) (sortby key l).
Proof.
  induction l as [|a l IH]; simpl.
  - constructor.
  - apply insert_by_sorted, IH.
Qed.

End ListFacts.

Lemma StronglySorted_map_key {A : Type} (key : A -> Z) (l : list A) :
  StronglySorted (key_le key) l -> StronglySorted Z.le (map key l).
Proof.
  induction 1 as [|a l Hs IH Ha]; simpl; constructor; auto.
  apply Forall_map. exact Ha.
Qed.

Lemma insert_str_perm (a : string) (l : list string) :
  Permutation (insert_str a l) (a :: l).
Proof.
  induction l as [|b l IH]; simpl.
  - apply Permutation_refl.
  - destruct (String.leb a b).
    + apply Permutation_refl.
    + eapply perm_trans; [apply perm_skip, IH | apply perm_swap].
Qed.

Lemma unique_perm (l : list string) :
  Permutation (unique l) (nodup string_dec l).
Proof.
  unfold unique. induction (nodup string_dec l) as [|a l' IH]; simpl.
  - apply perm_nil.
  - eapply perm_trans; [apply insert_str_perm | apply perm_skip, IH].
Qed.

Lemma unique_In (l : list string) (u : string) : In u (unique l) <-> In u l.
Proof.
  split; intros H.
  - apply (nodup_In string_dec).
    eapply Permutation_in; [apply unique_perm | exact H].
  - eapply Permutation_in; [apply Permutation_sym, unique_perm|].
    apply nodup_In, H.
Qed.

Lemma unique_NoDup (l : list string) : NoDup (unique l).
Proof.
  eapply Permutation_NoDup; [apply Permutation_sym, unique_perm|].
  apply NoDup_nodup.
Qed.

Lemma mem_In (u : string) (l : list string) : mem u l = true <-> In u l.
Proof.
  unfold mem. rewrite existsb_exists. split.
  - intros [x [Hx E]]. apply String.eqb_eq in E. subst. exact Hx.
  - intros H. exists u. split; [exact H | apply String.eqb_refl].
Qed.

Lemma intersect1d_In (a b : list string) (u : string) :
  In u (intersect1d a b) <-> In u a /\ In u b.
Proof.
  unfold intersect1d. rewrite filter_In, unique_In, mem_In. tauto.
Qed.

Lemma intersect1d_NoDup (a b : list string) : NoDup (intersect1d a b).
Proof. apply NoDup_filter, unique_NoDup. Qed.

(** [mapM] over a function that succeeds on every element. *)
Lemma mapM_total {A B : Type} (f : A -> result B) (g : A -> B) (l : list A) :
  (forall a, In a l -> f a = Ok (g a)) -> mapM f l = Ok (map g l).
Proof.
  induction l as [|a l IH]; simpl; intros H; [reflexivity|].
  rewrite (H a (or_introl eq_refl)). simpl.
  rewrite IH by (intros b Hb; apply H; right; exact Hb). reflexivity.
Qed.

Lemma mapM_Ok_Forall2 {A B : Type} (f : A -> result B) (l : list A)
    (bs : list B) :
  mapM f l = Ok bs -> Forall2 (fun a b => f a = Ok b) l bs.
Proof.
  revert bs; induction l as [|a l IH]; simpl; intros bs H.
  - injection H as <-. constructor.
  - destruct (f a) as [b|e] eqn:E; simpl in H; [|discriminate].
    destruct (mapM f l) as [bs'|e]; simpl in H; [|discriminate].
    injection H as <-. constructor; [exact E | apply IH; reflexivity].
Qed.

(** Selection by labels that all exist returns one row per label, in the
    order of the labels. *)
Lemma find_label {R : Type} (label : R -> string) (rows : list R) (u : string) :
  In u (map label rows) ->
  exists r, find (fun r => String.eqb (label r) u) rows = Some r
            /\ In r rows /\ label r = u.
Proof.
  induction rows as [|r rows IH]; simpl; [tauto|].
  intros [E|H].
  - exists r. rewrite E, String.eqb_refl. auto.
  - destruct (String.eqb (label r) u) eqn:E.
    + exists r. apply String.eqb_eq in E. auto.
    + destruct (IH H) as [r' [H1 [H2 H3]]]. exists r'. auto.
Qed.

Lemma sel_total {R : Type} (label : R -> string) (rows : list R)
    (labels : list string) :
  (forall u, In u labels -> In u (map label rows)) ->
  exists rs, sel label rows labels = Ok rs
             /\ map label rs = labels
             /\ (forall r, In r rs -> In r rows).
Proof.
  unfold sel. induction labels as [|u labels IH]; simpl; intros H.
  - exists []. simpl. tauto.
  - destruct (find_label label rows u (H u (or_introl eq_refl)))
      as [r [Hf [Hin Hl]]].
    destruct IH as [rs [Hs [Hm Hi]]]; [intros v Hv; apply H; right; exact Hv|].
    exists (r :: rs). rewrite Hf, Hs. simpl. rewrite Hl, Hm.
    split; [reflexivity|]. split; [reflexivity|].
    intros r' [<-|Hr]; auto.
Qed.

(** ** The run of the sampler on well-formed inputs *)

Lemma get_var_map_vars {A B : Type} (f : A -> B) (name : string)
    (vars : list (string * A)) :
  get_var name (map_vars f vars)
  = match get_var name vars with
    | Ok a => Ok (f a)
    | Raise e => Raise e
    end.
Proof.
  induction vars as [|[n a] vars IH]; simpl; [reflexivity|].
  destruct (String.eqb n name); [reflexivity | exact IH].
Qed.

Lemma has_var_get {A : Type} (d : A) (name : string) (vars : list (string * A)) :
  has_var name vars = true -> get_var name vars = Ok (var_or d name vars).
Proof.
  unfold has_var, var_or. destruct (get_var name vars); [reflexivity|discriminate].
Qed.

Lemma index_of_mem (l : string) (axis : list string) :
  mem l axis = true ->
  exists i, index_of l axis = Some i /\ (i < List.length axis)%nat.
Proof.
  induction axis as [|a axis IH]; simpl; [discriminate|].
  rewrite String.eqb_sym. destruct (String.eqb a l); simpl.
  - intros _. exists O. split; [reflexivity | lia].
  - intros H. destruct (IH H) as [i [Hi Hlt]]. exists (S i).
    rewrite Hi. split; [reflexivity | lia].
Qed.

Lemma crs_eqb_eq (a b : option string) : crs_eqb a b = true <-> a = b.
Proof.
  destruct a as [x|], b as [y|]; simpl; split; intros H;
    try discriminate; try reflexivity.
  - apply String.eqb_eq in H. congruence.
  - injection H as ->. apply String.eqb_refl.
Qed.

Section SamplerRun.

Variable xy : DataArray -> float.
Variable dgm : Dgm.
Variable velmod : Velmod.
Hypothesis Hready : sampler_ready dgm velmod = true.

Lemma ready_parts :
  crs_eqb (dgm_crs dgm) (velmod_crs velmod) = true
  /\ mem "sk" (velmod_kriging_type velmod) = true
  /\ mem "mean" (velmod_summary_statistic velmod) = true
  /\ mem "sd" (velmod_summary_statistic velmod) = true
  /\ (forall r, In r (velmod_rows velmod) -> velmod_row_ready velmod r = true)
  /\ (forall r, In r (dgm_rows dgm) -> has_var "tvd" (d_vars r) = true).
Proof.
  unfold sampler_ready in Hready.
  repeat (apply andb_prop in Hready; destruct Hready as [Hready ?]).
  rewrite forallb_forall in *. auto 10.
Qed.

Lemma velmod_itp_has_filled (vs : list velmod_row) (a : velmod_itp_row) :
  (forall r, In r vs -> In r (velmod_rows velmod)) ->
  In a (velmod_itp_of xy velmod vs) ->
  has_var "V0_filled" (vi_vars a) = true.
Proof.
  intros Hin Ha. unfold velmod_itp_of in Ha.
  apply (Permutation_in _ (sortby_perm _ _)) in Ha.
  apply in_map_iff in Ha. destruct Ha as [r [<- Hr]].
  destruct ready_parts as (_ & _ & _ & _ & Hv & _).
  specialize (Hv r (Hin r Hr)). unfold velmod_row_ready in Hv.
  unfold has_var. simpl. rewrite get_var_map_vars.
  destruct (get_var "V0_filled" (v_vars r)); [reflexivity | discriminate].
Qed.

Lemma dgm_itp_has_tvd (ds : list dgm_row) (a : dgm_itp_row) :
  (forall r, In r ds -> In r (dgm_rows dgm)) ->
  In a (dgm_itp_of xy dgm ds) ->
  has_var "tvd" (di_vars a) = true.
Proof.
  intros Hin Ha. unfold dgm_itp_of in Ha.
  apply (Permutation_in _ (sortby_perm _ _)) in Ha.
  apply in_map_iff in Ha. destruct Ha as [r [<- Hr]].
  destruct ready_parts as (_ & _ & _ & _ & _ & Hd).
  specialize (Hd r (Hin r Hr)). unfold has_var in *. simpl.
  rewrite get_var_map_vars.
  destruct (get_var "tvd" (d_vars r)); [reflexivity | discriminate].
Qed.

(** Everything up to the depth block succeeds, and the fields of the
    result are the following arrays, over the rows that [sel] takes for
    the common units. *)
Lemma sample_run_sel :
  exists vs ds i jm js,
    sel v_unit (velmod_rows velmod) (common_units dgm velmod) = Ok vs
    /\ sel d_unit (dgm_rows dgm) (common_units dgm velmod) = Ok ds
    /\ map v_unit vs = common_units dgm velmod
    /\ (forall r, In r vs -> In r (velmod_rows velmod))
    /\ map d_unit ds = common_units dgm velmod
    /\ (forall r, In r ds -> In r (dgm_rows dgm))
    /\ index_of "sk" (velmod_kriging_type velmod) = Some i
    /\ index_of "mean" (velmod_summary_statistic velmod) = Some jm
    /\ index_of "sd" (velmod_summary_statistic velmod) = Some js
    /\ forall x_crs z crs,
        sample_dgm_velmod xy x_crs z dgm velmod crs =
        let V0_ := map (fun r => (vi_unit r, filled_at i jm r)) (velmod_itp_of xy velmod vs) in
        let SD := map (fun r => (vi_unit r, filled_at i js r)) (velmod_itp_of xy velmod vs) in
        let k_ := map (fun r => (vi_unit r, vi_k r)) (velmod_itp_of xy velmod vs) in
        let tvd := map (fun r => (di_unit r, tvd_of r)) (dgm_itp_of xy dgm ds) in
        let crs' := output_crs crs x_crs (velmod_crs velmod) in
        let samples unit_ mask vinst :=
          {| V0 := V0_; V0_sd := SD; k := k_; depth := tvd;
             ordering := map (fun r => (di_unit r, di_ordering r)) (dgm_itp_of xy dgm ds);
             unit_samples := unit_; unit_mask := mask; Vinst := vinst;
             crs_out := crs' |} in
        match z with
        | None => Ok (samples None None None)
        | Some z =>
            let unit_vinst :=
              map (fun vk => (fst (fst vk),
                              sub (snd (fst vk)) (mul (snd (snd vk)) z)))
                  (combine V0_ k_) in
            unit_ <- idxmax (map (fun ut => (fst ut, ltb (snd ut) z)) tvd) ;;
            Ok (samples (Some unit_)
                  (Some (map (fun uv => (fst uv, String.eqb (fst uv) unit_))
                             unit_vinst))
                  (Some (nansum (map (fun uv => if String.eqb (fst uv) unit_
                                                then snd uv else zero)
                                     unit_vinst))))
        end.
Proof.
  destruct ready_parts as (Hcrs & Hsk & Hmean & Hsd & Hv & Hd).
  destruct (sel_total v_unit (velmod_rows velmod) (common_units dgm velmod))
    as [vs [Hvs [Hvm Hvi]]].
  { intros u Hu. apply intersect1d_In in Hu. apply Hu. }
  destruct (sel_total d_unit (dgm_rows dgm) (common_units dgm velmod))
    as [ds [Hds [Hdm Hdi]]].
  { intros u Hu. apply intersect1d_In in Hu. apply Hu. }
  destruct (index_of_mem _ _ Hsk) as [i [Hi _]].
  destruct (index_of_mem _ _ Hmean) as [jm [Hjm _]].
  destruct (index_of_mem _ _ Hsd) as [js [Hjs _]].
  exists vs, ds, i, jm, js. repeat (split; [assumption|]).
  intros x_crs z crs. unfold sample_dgm_velmod.
  rewrite Hcrs. simpl negb. cbv iota.
  unfold common_units in Hvs, Hds. rewrite Hvs, Hds. simpl bind.
  fold (velmod_itp_of xy velmod vs). fold (dgm_itp_of xy dgm ds).
  unfold sel_sk.
  rewrite (mapM_total _
    (fun r => (vi_unit r, var_or [] "V0_filled" (vi_vars r)))).
  2:{ intros a Ha.
      rewrite (has_var_get [] _ _ (velmod_itp_has_filled vs a Hvi Ha)).
      reflexivity. }
  unfold sel_index. rewrite Hi, Hjm, Hjs. simpl bind.
  rewrite (mapM_total _ (fun r => (di_unit r, tvd_of r))).
  2:{ intros a Ha. unfold tvd_of.
      rewrite (has_var_get nan _ _ (dgm_itp_has_tvd ds a Hdi Ha)).
      reflexivity. }
  simpl bind. rewrite !map_map. simpl. reflexivity.
Qed.

(** Everything up to the depth block succeeds, and the fields of the
    result are the following arrays. *)
Lemma sample_run :
  exists vs ds i jm js,
    map v_unit vs = common_units dgm velmod
    /\ (forall r, In r vs -> In r (velmod_rows velmod))
    /\ map d_unit ds = common_units dgm velmod
    /\ (forall r, In r ds -> In r (dgm_rows dgm))
    /\ index_of "sk" (velmod_kriging_type velmod) = Some i
    /\ index_of "mean" (velmod_summary_statistic velmod) = Some jm
    /\ index_of "sd" (velmod_summary_statistic velmod) = Some js
    /\ forall x_crs z crs,
        sample_dgm_velmod xy x_crs z dgm velmod crs =
        let V0_ := map (fun r => (vi_unit r, filled_at i jm r)) (velmod_itp_of xy velmod vs) in
        let SD := map (fun r => (vi_unit r, filled_at i js r)) (velmod_itp_of xy velmod vs) in
        let k_ := map (fun r => (vi_unit r, vi_k r)) (velmod_itp_of xy velmod vs) in
        let tvd := map (fun r => (di_unit r, tvd_of r)) (dgm_itp_of xy dgm ds) in
        let crs' := output_crs crs x_crs (velmod_crs velmod) in
        let samples unit_ mask vinst :=
          {| V0 := V0_; V0_sd := SD; k := k_; depth := tvd;
             ordering := map (fun r => (di_unit r, di_ordering r)) (dgm_itp_of xy dgm ds);
             unit_samples := unit_; unit_mask := mask; Vinst := vinst;
             crs_out := crs' |} in
        match z with
        | None => Ok (samples None None None)
        | Some z =>
            let unit_vinst :=
              map (fun vk => (fst (fst vk),
                              sub (snd (fst vk)) (mul (snd (snd vk)) z)))
                  (combine V0_ k_) in
            unit_ <- idxmax (map (fun ut => (fst ut, ltb (snd ut) z)) tvd) ;;
            Ok (samples (Some unit_)
                  (Some (map (fun uv => (fst uv, String.eqb (fst uv) unit_))
                             unit_vinst))
                  (Some (nansum (map (fun uv => if String.eqb (fst uv) unit_
                                                then snd uv else zero)
                                     unit_vinst))))
        end.
Proof.
  destruct sample_run_sel
    as (vs & ds & i & jm & js & _ & _ & H).
  exists vs, ds, i, jm, js. exact H.
Qed.

End SamplerRun.

(** ** Arrays along the unit axis *)

Lemma combine_map_same {R B C : Type} (f : R -> B) (g : R -> C) (l : list R) :
  combine (map f l) (map g l) = map (fun a => (f a, g a)) l.
Proof. induction l as [|a l IH]; simpl; [reflexivity | now rewrite IH]. Qed.

Lemma at_unit_map {R : Type} (lab : R -> string) (rows : list R) (u : string) :
  In u (map lab rows) ->
  exists row, In row rows /\ lab row = u
    /\ forall (B : Type) (h : R -> B),
         at_unit u (map (fun r => (lab r, h r)) rows) = Some (h row).
Proof.
  induction rows as [|r rows IH]; simpl; [tauto|].
  destruct (String.eqb (lab r) u) eqn:E.
  - intros _. exists r. apply String.eqb_eq in E.
    split; [left; reflexivity|]. split; [exact E|]. reflexivity.
  - intros [H|H]; [rewrite H, String.eqb_refl in E; discriminate|].
    destruct (IH H) as [row [Hin [Hl Hat]]]. exists row.
    split; [right; exact Hin|]. split; [exact Hl|]. exact Hat.
Qed.

(** The masked sum: with distinct labels, only the entry of the selected
    unit is added to zeros. *)
Lemma fold_masked_absent (u : string) (l : list (string * float)) (acc : float) :
  ~ In u (map fst l) -> add acc zero = acc ->
  fold_left add (map nan_to_zero (masked u l)) acc = acc.
Proof.
  induction l as [|[u' a] l IH]; cbn [masked map fold_left fst snd];
    intros Hn Hacc; [reflexivity|].
  destruct (String.eqb u' u) eqn:E.
  - apply String.eqb_eq in E. exfalso. apply Hn. left. exact E.
  - change (nan_to_zero zero) with zero. rewrite Hacc.
    apply IH; [intros H; apply Hn; right; exact H | exact Hacc].
Qed.

Lemma nansum_masked (u : string) (l : list (string * float)) (x : float) :
  NoDup (map fst l) -> at_unit u l = Some x ->
  nansum (masked u l) = add zero (nan_to_zero x).
Proof.
  unfold nansum. induction l as [|[u' a] l IH];
    cbn [masked map fold_left at_unit fst snd]; intros Hnd Hat;
    [discriminate|].
  inversion Hnd as [|? ? Hnotin Hnd']; subst.
  destruct (String.eqb u' u) eqn:E.
  - injection Hat as ->. apply String.eqb_eq in E. subst u'.
    apply (fold_masked_absent u l); [exact Hnotin | apply add_zero_l_zero_r].
  - change (nan_to_zero zero) with zero. rewrite add_zero_zero.
    apply IH; assumption.
Qed.

Lemma nan_to_zero_not_nan (x : float) : is_nan (nan_to_zero x) = false.
Proof. destruct x; reflexivity. Qed.


Lemma first_true_none (z : float) (l : list (string * float)) :
  Forall (fun ut => ltb (snd ut) z = false) l ->
  first_true (map (fun ut => (fst ut, ltb (snd ut) z)) l) = None.
Proof.
  induction 1 as [|[u' t'] l Hh Ht IH]; simpl; [reflexivity|].
  simpl in Hh. rewrite Hh. exact IH.
Qed.

Lemma first_true_In (l : list (string * bool)) (u : string) :
  first_true l = Some u -> In u (map fst l).
Proof.
  induction l as [|[u' b] l IH]; simpl; [discriminate|].
  destruct b; [intros [= ->]; left; reflexivity | intros H; right; apply IH, H].
Qed.

Lemma idxmax_total (l : list (string * bool)) :
  l <> [] -> exists u, idxmax l = Ok u /\ In u (map fst l).
Proof.
  destruct l as [|[u0 b0] l]; [congruence|]. intros _. unfold idxmax.
  destruct (first_true ((u0, b0) :: l)) as [u|] eqn:E.
  - exists u. split; [reflexivity | apply first_true_In, E].
  - exists u0. split; [reflexivity | left; reflexivity].
Qed.

Lemma table_get_map {B : Type} (f : matrix -> B) (d : B) (t : list (list matrix))
    (n m i j : nat) :
  table_shaped n m t = true -> (i < n)%nat -> (j < m)%nat ->
  exists x, slice_at t i j = Some x
            /\ table_get d (map (map f) t) i j = f x.
Proof.
  unfold table_shaped, slice_at, table_get. intros H Hi Hj.
  apply andb_prop in H. destruct H as [Hn Hm].
  apply Nat.eqb_eq in Hn. rewrite forallb_forall in Hm.
  destruct (nth_error t i) as [row|] eqn:E.
  2:{ apply nth_error_None in E. lia. }
  assert (Hrow : List.length row = m).
  { apply Nat.eqb_eq, Hm. eapply nth_error_In, E. }
  destruct (nth_error row j) as [x|] eqn:Ex.
  2:{ apply nth_error_None in Ex. lia. }
  exists x. split; [reflexivity|].
  rewrite (nth_error_nth (map (map f) t) i []
             (x := map f row)) by (rewrite nth_error_map, E; reflexivity).
  apply nth_error_nth. rewrite nth_error_map, Ex. reflexivity.
Qed.

Section DepthRun.

Variable xy : DataArray -> float.
Variable dgm : Dgm.
Variable velmod : Velmod.
Hypothesis Hready : sampler_ready dgm velmod = true.

Lemma velmod_itp_labels (vs : list velmod_row) :
  Permutation (map vi_unit (velmod_itp_of xy velmod vs)) (map v_unit vs).
Proof.
  unfold velmod_itp_of.
  eapply perm_trans; [apply Permutation_map, sortby_perm|].
  rewrite map_map. apply Permutation_refl.
Qed.

Lemma dgm_itp_labels (ds : list dgm_row) :
  Permutation (map di_unit (dgm_itp_of xy dgm ds)) (map d_unit ds).
Proof.
  unfold dgm_itp_of.
  eapply perm_trans; [apply Permutation_map, sortby_perm|].
  rewrite map_map. apply Permutation_refl.
Qed.

(** The run with a depth: the unit that [idxmax] returns and the fields
    of the result, over the interpolated rows of the two models. *)
Lemma sample_depth_run (x_crs crs : option string) (z : float) :
  common_units dgm velmod <> [] ->
  exists (rows : list velmod_itp_row) (drows : list dgm_itp_row)
         (i jm js : nat) (u : string),
    Permutation (map vi_unit rows) (common_units dgm velmod)
    /\ Permutation (map di_unit drows) (common_units dgm velmod)
    /\ StronglySorted (key_le di_ordering) drows
    /\ idxmax (map (fun ut => (fst ut, ltb (snd ut) z))
                   (map (fun a => (di_unit a, tvd_of a)) drows)) = Ok u
    /\ In u (common_units dgm velmod)
    /\ sample_dgm_velmod xy x_crs (Some z) dgm velmod crs =
       Ok {| V0 := map (fun a => (vi_unit a, filled_at i jm a)) rows;
             V0_sd := map (fun a => (vi_unit a, filled_at i js a)) rows;
             k := map (fun a => (vi_unit a, vi_k a)) rows;
             depth := map (fun a => (di_unit a, tvd_of a)) drows;
             ordering := map (fun a => (di_unit a, di_ordering a)) drows;
             unit_samples := Some u;
             unit_mask :=
               Some (map (fun a => (vi_unit a, String.eqb (vi_unit a) u)) rows);
             Vinst :=
               Some (nansum (masked u
                 (map (fun a => (vi_unit a,
                                 sub (filled_at i jm a) (mul (vi_k a) z)))
                      rows)));
             crs_out := output_crs crs x_crs (velmod_crs velmod) |}.
Proof.
  intros Hne.
  destruct (sample_run xy dgm velmod Hready)
    as (vs & ds & i & jm & js & Hvm & _ & Hdm & _ & _ & _ & _ & Hrun).
  set (rows := velmod_itp_of xy velmod vs).
  set (drows := dgm_itp_of xy dgm ds).
  assert (Hpv : Permutation (map vi_unit rows) (common_units dgm velmod)).
  { rewrite <- Hvm. apply velmod_itp_labels. }
  assert (Hpd : Permutation (map di_unit drows) (common_units dgm velmod)).
  { rewrite <- Hdm. apply dgm_itp_labels. }
  destruct (idxmax_total
              (map (fun ut => (fst ut, ltb (snd ut) z))
                   (map (fun a => (di_unit a, tvd_of a)) drows)))
    as [u [Hu Hin]].
  { intros E. apply map_eq_nil in E. apply map_eq_nil in E.
    rewrite E in Hpd. simpl in Hpd. apply Permutation_nil in Hpd.
    contradiction. }
  rewrite !map_map in Hin. simpl in Hin.
  exists rows, drows, i, jm, js, u.
  split; [exact Hpv|]. split; [exact Hpd|].
  split; [apply sortby_sorted|]. split; [exact Hu|].
  split; [eapply Permutation_in; [exact Hpd | exact Hin]|].
  rewrite (Hrun x_crs (Some z) crs). cbv zeta.
  fold rows drows. rewrite Hu. simpl bind.
  rewrite combine_map_same. unfold masked. rewrite !map_map. simpl.
  reflexivity.
Qed.

End DepthRun.

(** ** The active unit and the combined velocity *)

Lemma idxmax_first_true (l : list (string * bool)) (u : string) :
  first_true l = Some u -> idxmax l = Ok u.
Proof.
  destruct l as [|[u0 b0] l]; [discriminate|].
  intros H. unfold idxmax. rewrite H. reflexivity.
Qed.

Lemma idxmax_all_false (z : float) (u0 : string) (t0 : float)
    (l : list (string * float)) :
  Forall (fun ut => ltb (snd ut) z = false) ((u0, t0) :: l) ->
  idxmax (map (fun ut => (fst ut, ltb (snd ut) z)) ((u0, t0) :: l)) = Ok u0.
Proof.
  intros H. unfold idxmax.
  cbn [map fst snd]. change ((u0, ltb t0 z)
    :: map (fun ut => (fst ut, ltb (snd ut) z)) l)
    with (map (fun ut => (fst ut, ltb (snd ut) z)) ((u0, t0) :: l)).
  rewrite (first_true_none z _ H). reflexivity.
Qed.

(** The combined velocity only holds the law of the active unit. *)
Lemma Vinst_of_active (xy : DataArray -> float) (x_crs crs : option string)
    (z : float) (dgm : Dgm) (velmod : Velmod) :
  sampler_ready dgm velmod = true ->
  common_units dgm velmod <> [] ->
  exists r u v0 kk,
    sample_dgm_velmod xy x_crs (Some z) dgm velmod crs = Ok r
    /\ unit_samples r = Some u
    /\ at_unit u (V0 r) = Some v0
    /\ at_unit u (k r) = Some kk
    /\ unit_mask r = Some (map (fun uv => (fst uv, String.eqb (fst uv) u)) (V0 r))
    /\ Vinst r = Some (add zero (nan_to_zero (sub v0 (mul kk z)))).
Proof.
  intros Hready Hne.
  destruct (sample_depth_run xy dgm velmod Hready x_crs crs z Hne)
    as (rows & drows & i & jm & js & u & Hpv & _ & _ & _ & Hin & Hrun).
  assert (Hu : In u (map vi_unit rows)).
  { eapply Permutation_in; [apply Permutation_sym, Hpv | exact Hin]. }
  assert (Hnd : NoDup (map vi_unit rows)).
  { eapply Permutation_NoDup; [apply Permutation_sym, Hpv|].
    apply intersect1d_NoDup. }
  destruct (at_unit_map vi_unit rows u Hu) as [row [_ [_ Hat]]].
  eexists. exists u, (filled_at i jm row), (vi_k row).
  split; [exact Hrun|]. cbn [unit_samples V0 k unit_mask Vinst].
  split; [reflexivity|]. split; [apply Hat|]. split; [apply Hat|].
  split; [rewrite map_map; reflexivity|].
  f_equal. apply nansum_masked.
  - rewrite map_map. exact Hnd.
  - apply (Hat _ (fun a => sub (filled_at i jm a) (mul (vi_k a) z))).
Qed.

(** C4: the mask keeps the entry of the active unit only and every other
    entry is replaced by 0 before the sum, so the combined velocity is
    the law of the active unit added to zeros, whatever the other units
    hold; it is never no-data, and it is 0 when the law of the active
    unit itself is no-data. *)
Theorem Vinst_masks_inactive_units :
  forall (xy : DataArray -> float) (x_crs crs : option string) (z : float)
         (dgm : Dgm) (velmod : Velmod),
    sampler_ready dgm velmod = true ->
    common_units dgm velmod <> [] ->
    exists r u v0 kk v,
      sample_dgm_velmod xy x_crs (Some z) dgm velmod crs = Ok r
      /\ unit_samples r = Some u
      /\ at_unit u (V0 r) = Some v0
      /\ at_unit u (k r) = Some kk
      /\ unit_mask r
         = Some (map (fun uv => (fst uv, String.eqb (fst uv) u)) (V0 r))
      /\ Vinst r = Some v
      /\ v = add zero (nan_to_zero (sub v0 (mul kk z)))
      /\ is_nan v = false
      /\ (is_nan (sub v0 (mul kk z)) = true -> v = zero).
Proof.
  intros xy x_crs crs z dgm velmod Hready Hne.
  destruct (Vinst_of_active xy x_crs crs z dgm velmod Hready Hne)
    as (r & u & v0 & kk & Hrun & Hu & Hv0 & Hk & Hm & Hv).
  exists r, u, v0, kk, (add zero (nan_to_zero (sub v0 (mul kk z)))).
  repeat (split; [assumption|]).
  split; [reflexivity|]. split.
  - apply add_zero_l_not_nan, nan_to_zero_not_nan.
  - intros Hn. unfold nan_to_zero. rewrite Hn. reflexivity.
Qed.



(** ** The fields of a sample *)

Lemma sample_fields (xy : DataArray -> float) (x_crs crs : option string)
    (z : option float) (dgm : Dgm) (velmod : Velmod) :
  sampler_ready dgm velmod = true ->
  (z = None \/ common_units dgm velmod <> []) ->
  exists vs ds i jm js r,
    map v_unit vs = common_units dgm velmod
    /\ (forall row, In row vs -> In row (velmod_rows velmod))
    /\ map d_unit ds = common_units dgm velmod
    /\ index_of "sk" (velmod_kriging_type velmod) = Some i
    /\ index_of "mean" (velmod_summary_statistic velmod) = Some jm
    /\ index_of "sd" (velmod_summary_statistic velmod) = Some js
    /\ sample_dgm_velmod xy x_crs z dgm velmod crs = Ok r
    /\ V0 r = map (fun a => (vi_unit a, filled_at i jm a))
                  (velmod_itp_of xy velmod vs)
    /\ V0_sd r = map (fun a => (vi_unit a, filled_at i js a))
                     (velmod_itp_of xy velmod vs)
    /\ k r = map (fun a => (vi_unit a, vi_k a)) (velmod_itp_of xy velmod vs)
    /\ depth r = map (fun a => (di_unit a, tvd_of a)) (dgm_itp_of xy dgm ds)
    /\ ordering r = map (fun a => (di_unit a, di_ordering a))
                        (dgm_itp_of xy dgm ds).
Proof.
  intros Hready Hz.
  destruct (sample_run xy dgm velmod Hready)
    as (vs & ds & i & jm & js & Hvm & Hvi & Hdm & _ & Hi & Hjm & Hjs & Hrun).
  exists vs, ds, i, jm, js.
  specialize (Hrun x_crs z crs). cbv zeta in Hrun.
  destruct z as [z|].
  - destruct Hz as [Hz|Hne]; [discriminate|].
    destruct (idxmax_total
                (map (fun ut => (fst ut, ltb (snd ut) z))
                     (map (fun a => (di_unit a, tvd_of a))
                          (dgm_itp_of xy dgm ds))))
      as [u [Hu _]].
    { intros E. apply map_eq_nil in E. apply map_eq_nil in E.
      pose proof (dgm_itp_labels xy dgm ds) as Hp.
      rewrite E, Hdm in Hp. apply Permutation_nil in Hp. contradiction. }
    rewrite Hu in Hrun. simpl bind in Hrun.
    eexists. repeat (split; [eassumption|]). cbn. repeat split.
  - eexists. repeat (split; [eassumption|]). cbn. repeat split.
Qed.


Lemma cell_fill_by_mean (m0 : matrix) (rr cc : nat) (line : list float)
    (c0 : float) :
  nth_error m0 rr = Some line -> nth_error line cc = Some c0 ->
  cell (fill_by_mean m0) rr cc = fillna (nanmean (List.concat m0)) c0.
Proof.
  intros Hl Hc. unfold cell, fill_by_mean.
  rewrite (nth_error_nth _ rr []
             (x := map (fillna (nanmean (List.concat m0))) line))
    by (rewrite nth_error_map, Hl; reflexivity).
  apply nth_error_nth. rewrite nth_error_map, Hc. reflexivity.
Qed.

(** C5: when the CRS tags of the two models differ, the sampler raises on
    its assertion whatever the query, the depths and the content of the
    models are: no unit is selected, nothing is interpolated and no
    dataset is returned. *)
Theorem crs_mismatch_raises :
  forall (dgm : Dgm) (velmod : Velmod),
    dgm_crs dgm <> velmod_crs velmod ->
    forall (xy : DataArray -> float) (x_crs crs : option string)
           (z : option float),
      sample_dgm_velmod xy x_crs z dgm velmod crs = Raise AssertionError.
Proof.
  intros dgm velmod Hne xy x_crs crs z. unfold sample_dgm_velmod.
  destruct (crs_eqb (dgm_crs dgm) (velmod_crs velmod)) eqn:E.
  - apply crs_eqb_eq in E. contradiction.
  - reflexivity.
Qed.


(** ** The assembled models *)

Lemma Forall2_map_eq {R S B : Type} (g : R -> B) (h : S -> B)
    (l : list R) (l' : list S) :
  Forall2 (fun a b => g a = h b) l l' -> map g l = map h l'.
Proof. induction 1; simpl; congruence. Qed.

Lemma Forall2_of_map_l {R R' S : Type} (f : R -> R') (P : R' -> S -> Prop)
    (l : list R) (l' : list S) :
  Forall2 P (map f l) l' -> Forall2 (fun a b => P (f a) b) l l'.
Proof.
  revert l'; induction l as [|a l IH]; simpl; intros l' H;
    inversion H; subst; constructor; auto.
Qed.

Lemma Forall2_In_r {R S : Type} (P : R -> S -> Prop) (l : list R)
    (l' : list S) (b : S) :
  Forall2 P l l' -> In b l' -> exists a, In a l /\ P a b.
Proof.
  induction 1 as [|a0 b0 l l' H0 H IH]; simpl; [tauto|].
  intros [<-|Hb].
  - exists a0. auto.
  - destruct (IH Hb) as [a [Ha Hp]]. exists a. auto.
Qed.

Lemma Forall2_In_l {R S : Type} (P : R -> S -> Prop) (l : list R)
    (l' : list S) (a : R) :
  Forall2 P l l' -> In a l -> exists b, In b l' /\ P a b.
Proof.
  induction 1 as [|a0 b0 l l' H0 H IH]; simpl; [tauto|].
  intros [<-|Ha].
  - exists b0. auto.
  - destruct (IH Ha) as [b [Hb Hp]]. exists b. auto.
Qed.

Lemma get_var_set_var_same {A : Type} (name : string) (a : A)
    (vars : list (string * A)) :
  get_var name (set_var name a vars) = Ok a.
Proof.
  induction vars as [|[n b] vars IH]; simpl.
  - rewrite String.eqb_refl. reflexivity.
  - destruct (String.eqb n name) eqn:E; simpl; rewrite E; [reflexivity|exact IH].
Qed.

Lemma get_var_set_var_other {A : Type} (name name' : string) (a : A)
    (vars : list (string * A)) :
  name <> name' ->
  get_var name' (set_var name a vars) = get_var name' vars.
Proof.
  intros Hne. induction vars as [|[n b] vars IH]; simpl.
  - apply String.eqb_neq in Hne. rewrite Hne. reflexivity.
  - destruct (String.eqb n name) eqn:E; simpl.
    + apply String.eqb_eq in E. subst n.
      apply String.eqb_neq in Hne. rewrite Hne. reflexivity.
    + destruct (String.eqb n name'); [reflexivity | exact IH].
Qed.

Lemma get_var_keys {A : Type} (h : string -> A) (name : string)
    (names : list string) :
  In name names ->
  get_var name (map (fun v => (v, h v)) names) = Ok (h name).
Proof.
  induction names as [|n names IH]; simpl; [tauto|].
  destruct (String.eqb n name) eqn:E.
  - apply String.eqb_eq in E. subst. reflexivity.
  - intros [H|H]; [subst; rewrite String.eqb_refl in E; discriminate|].
    apply IH, H.
Qed.

Lemma sortby_canonically_ordered {R : Type} (unit_ : R -> string)
    (ord : R -> Z) (rows : list R) :
  (forall r, In r rows -> canonical_index (unit_ r) = Ok (ord r)) ->
  canonically_ordered unit_ ord (sortby ord rows).
Proof.
  intros H. split.
  - intros r Hr. apply H.
    eapply Permutation_in; [apply sortby_perm | exact Hr].
  - apply StronglySorted_map_key, sortby_sorted.
Qed.

Lemma mapM_canonical_index {R : Type} (unit_ : R -> string) (ord : R -> Z)
    (mk : string -> Z -> R) (units : list string) (rows : list R) :
  (forall u o, unit_ (mk u o) = u /\ ord (mk u o) = o) ->
  mapM (fun u => o <- canonical_index u ;; Ok (mk u o)) units = Ok rows ->
  (forall r, In r rows -> canonical_index (unit_ r) = Ok (ord r))
  /\ Forall2 (fun u r => exists o, r = mk u o) units rows.
Proof.
  intros Hmk H. apply mapM_Ok_Forall2 in H.
  assert (HF : Forall2 (fun u r => exists o, canonical_index u = Ok o
                                             /\ r = mk u o) units rows).
  { eapply Forall2_impl; [|exact H]. intros u r Hr. simpl in Hr.
    destruct (canonical_index u) as [o|e]; simpl in Hr; [|discriminate].
    injection Hr as <-. exists o. auto. }
  split.
  - intros r Hr. destruct (Forall2_In_r _ _ _ _ HF Hr) as [u [_ [o [Ho ->]]]].
    destruct (Hmk u o) as [-> ->]. exact Ho.
  - eapply Forall2_impl; [|exact HF]. intros u r [o [_ ->]]. exists o.
    reflexivity.
Qed.

(** What a successful run of the VELMOD part has built. *)
Lemma convert_velmod_inv (velmoddata : list (string * float))
    (velmodds : list velmod_da) (velmod : Velmod) :
  convert_velmod velmoddata velmodds = Ok velmod ->
  exists sorted_rows,
    canonically_ordered v_unit v_ordering sorted_rows
    /\ Forall2 (fun r r' =>
         v_unit r' = v_unit r /\ v_ordering r' = v_ordering r
         /\ exists v0, get_var "V0" (v_vars r') = Ok v0
              /\ get_var "V0_filled" (v_vars r')
                 = Ok (map (map fill_by_mean) v0))
       sorted_rows (velmod_rows velmod).
Proof.
  unfold convert_velmod. intros H.
  destruct (unstack _) as [st|e]; simpl in H; [|discriminate].
  match type of H with
  | bind (mapM ?f ?units) _ = _ => destruct (mapM f units) as [rows|e] eqn:Hrows
  end; simpl in H; [|discriminate].
  match type of H with
  | (if ?c then _ else _) = _ => destruct c
  end; [discriminate|].
  match type of H with
  | bind (mapM ?f ?l) _ = _ => destruct (mapM f l) as [rows'|e] eqn:Hfill
  end; simpl in H; [|discriminate].
  injection H as <-. cbn [velmod_rows].
  apply mapM_canonical_index with (unit_ := v_unit) (ord := v_ordering)
    in Hrows; [|intros; split; reflexivity].
  destruct Hrows as [Hidx _].
  exists (sortby v_ordering rows).
  split; [apply sortby_canonically_ordered, Hidx|].
  apply mapM_Ok_Forall2 in Hfill.
  apply Forall2_of_map_l in Hfill.
  eapply Forall2_impl; [|exact Hfill].
  intros r r' Hr. cbv beta in Hr.
  set (r1 := if String.eqb (v_unit r) "ZE" then _ else r) in Hr.
  assert (H1 : v_unit r1 = v_unit r /\ v_ordering r1 = v_ordering r).
  { subst r1. destruct (String.eqb (v_unit r) "ZE"); [|auto].
    destruct (get_var "Vint" (v_vars r)); auto. }
  destruct (get_var "V0" (v_vars r1)) as [v0|e] eqn:E; simpl in Hr;
    [|discriminate].
  injection Hr as <-. cbn [v_unit v_ordering v_vars].
  split; [apply H1|]. split; [apply H1|].
  exists v0. split.
  - rewrite get_var_set_var_other; [exact E|]. discriminate.
  - apply get_var_set_var_same.
Qed.

Lemma convert_dgm_ordered (dgmds : list dgm_da) (dgm : Dgm) :
  convert_dgm dgmds = Ok dgm ->
  canonically_ordered d_unit d_ordering (dgm_rows dgm).
Proof.
  unfold convert_dgm. destruct dgmds as [|first rest]; [discriminate|].
  intros H.
  destruct (unstack _) as [st|e]; simpl in H; [|discriminate].
  match type of H with
  | bind (mapM ?f ?units) _ = _ => destruct (mapM f units) as [rows|e] eqn:Hrows
  end; simpl in H; [|discriminate].
  injection H as <-. cbn [dgm_rows].
  apply mapM_canonical_index with (unit_ := d_unit) (ord := d_ordering)
    in Hrows; [|intros; split; reflexivity].
  apply sortby_canonically_ordered, Hrows.
Qed.





(** C7: in both assembled models the ordering of every unit is the index
    of the unit in the canonical vocabulary, and the unit axis is sorted
    ascending by it. *)
Theorem assembled_models_follow_canonical_order :
  forall (velmoddata : list (string * float)) (velmodds : list velmod_da)
         (dgmds : list dgm_da) (velmod : Velmod) (dgm : Dgm),
    convert velmoddata velmodds dgmds = Ok (velmod, dgm) ->
    ((forall r, In r (velmod_rows velmod) ->
        0 <= v_ordering r
        /\ index_of (v_unit r) unit_canonical_order
           = Some (Z.to_nat (v_ordering r)))
     /\ StronglySorted Z.le (map v_ordering (velmod_rows velmod)))
    /\ ((forall r, In r (dgm_rows dgm) ->
           0 <= d_ordering r
           /\ index_of (d_unit r) unit_canonical_order
              = Some (Z.to_nat (d_ordering r)))
        /\ StronglySorted Z.le (map d_ordering (dgm_rows dgm))).
Proof.
  intros velmoddata velmodds dgmds velmod dgm H. unfold convert in H.
  destruct (convert_velmod velmoddata velmodds) as [vm|e] eqn:Ev;
    simpl in H; [|discriminate].
  destruct (convert_dgm dgmds) as [dm|e] eqn:Ed; simpl in H; [|discriminate].
  injection H as <- <-.
  assert (Hidx : forall u o, canonical_index u = Ok o ->
            0 <= o /\ index_of u unit_canonical_order = Some (Z.to_nat o)).
  { intros u o. unfold canonical_index.
    destruct (index_of u unit_canonical_order) as [i|]; [|discriminate].
    intros [= <-]. rewrite Nat2Z.id. split; [lia | reflexivity]. }
  split.
  - destruct (convert_velmod_inv _ _ _ Ev) as [rows [[Hc Hs] HF]].
    split.
    + intros r Hr. destruct (Forall2_In_r _ _ _ _ HF Hr) as [r0 [H0 [Hu [Ho _]]]].
      rewrite Hu, Ho. apply Hidx, Hc, H0.
    + rewrite <- (Forall2_map_eq v_ordering v_ordering rows (velmod_rows vm));
        [exact Hs|].
      eapply Forall2_impl; [|exact HF]. intros a b [_ [Ho _]]. symmetry.
      exact Ho.
  - destruct (convert_dgm_ordered _ _ Ed) as [Hc Hs].
    split; [|exact Hs]. intros r Hr. apply Hidx, Hc, Hr.
Qed.

(** ** The stacked fields and the terminal entry of the DGM *)






Lemma key_eqb_refl (q : key) : key_eqb q q = true.
Proof.
  induction q as [|a q IH]; simpl; [reflexivity|].
  rewrite String.eqb_refl. exact IH.
Qed.






(** ** The small model: evaluation, witnesses and counterexamples *)

(** At the centre of the cell and z = -150 the active unit is NU (base
    -200), with V0 = 1800, k = 0.5 and Vinst = 1800 + 75. *)
Example sample_at_centre :
  exists r,
    sample_dgm_velmod Fixture.centre None (Some (of_Z (-150)))
                      Fixture.dgm Fixture.velmod None = Ok r
    /\ map fst (depth r) = ["N"; "NU"; "DC"]%string
    /\ unit_samples r = Some "NU"%string
    /\ at_unit "NU" (V0 r) = Some (of_Z 1800)
    /\ at_unit "NU" (k r) = Some (dyadic 1 (-1))
    /\ Vinst r = Some (of_Z 1875).
Proof. eexists. split; [vm_compute; reflexivity|]. vm_compute. auto. Qed.

(** At the node where the raw intercept of N is no-data, the sampled V0
    of N is the mean of the three valid nodes. *)
Example sample_at_filled_node :
  exists r,
    sample_dgm_velmod Fixture.node11 None None
                      Fixture.dgm Fixture.velmod None = Ok r
    /\ value_at (Fixture.N_V0) 1 1 = nan
    /\ at_unit "N" (V0 r) = Some (of_Z 1500)
    /\ at_unit "N" (V0_sd r) = Some (of_Z 10).
Proof. eexists. split; [vm_compute; reflexivity|]. vm_compute. auto. Qed.




Lemma Vinst_masks_inactive_units_witness :
  sampler_ready Fixture.dgm Fixture.velmod = true
  /\ common_units Fixture.dgm Fixture.velmod <> []
  /\ exists r u v0 kk v,
       sample_dgm_velmod Fixture.outside None (Some (of_Z (-150)))
                         Fixture.dgm Fixture.velmod None = Ok r
       /\ unit_samples r = Some u
       /\ at_unit u (V0 r) = Some v0
       /\ at_unit u (k r) = Some kk
       /\ unit_mask r
          = Some (map (fun uv => (fst uv, String.eqb (fst uv) u)) (V0 r))
       /\ Vinst r = Some v
       /\ v = add zero (nan_to_zero (sub v0 (mul kk (of_Z (-150)))))
       /\ is_nan v = false
       /\ (is_nan (sub v0 (mul kk (of_Z (-150)))) = true -> v = zero).
Proof.
  split; [by_evaluation|]. split; [by_evaluation|].
  apply (Vinst_masks_inactive_units Fixture.outside None None
           (of_Z (-150)) Fixture.dgm Fixture.velmod); by_evaluation.
Defined.

Lemma crs_mismatch_raises_witness :
  dgm_crs Fixture.dgm_RD <> velmod_crs Fixture.velmod
  /\ sample_dgm_velmod Fixture.centre None (Some (of_Z (-150)))
                       Fixture.dgm_RD Fixture.velmod None
     = Raise AssertionError.
Proof.
  split; [by_evaluation|].
  apply (crs_mismatch_raises Fixture.dgm_RD Fixture.velmod); by_evaluation.
Defined.


Lemma assembled_models_follow_canonical_order_witness :
  convert Fixture.velmoddata Fixture.velmodds Fixture.dgmds
  = Ok (Fixture.velmod, Fixture.dgm)
  /\ ((forall r, In r (velmod_rows Fixture.velmod) ->
         0 <= v_ordering r
         /\ index_of (v_unit r) unit_canonical_order
            = Some (Z.to_nat (v_ordering r)))
      /\ StronglySorted Z.le (map v_ordering (velmod_rows Fixture.velmod)))
  /\ ((forall r, In r (dgm_rows Fixture.dgm) ->
         0 <= d_ordering r
         /\ index_of (d_unit r) unit_canonical_order
            = Some (Z.to_nat (d_ordering r)))
      /\ StronglySorted Z.le (map d_ordering (dgm_rows Fixture.dgm))).
Proof.
  split; [by_evaluation|].
  apply (assembled_models_follow_canonical_order Fixture.velmoddata
           Fixture.velmodds Fixture.dgmds Fixture.velmod Fixture.dgm).
  by_evaluation.
Defined.


(** * Further properties of the sampler *)

Lemma mapM_raises_only {A B : Type} (e : exn) (f : A -> result B)
    (l : list A) :
  (forall a, In a l -> (exists b, f a = Ok b) \/ f a = Raise e) ->
  (exists bs, mapM f l = Ok bs) \/ mapM f l = Raise e.
Proof.
  induction l as [|a l IH]; simpl; intros H; [left; eauto|].
  destruct (H a (or_introl eq_refl)) as [[b ->]| ->]; [|right; reflexivity].
  destruct IH as [[bs ->]| ->]; simpl; eauto.
Qed.

Lemma get_var_raises_only {A : Type} (name : string) (vars : list (string * A)) :
  (exists a, get_var name vars = Ok a) \/ get_var name vars = Raise KeyError.
Proof.
  induction vars as [|[n a] vars IH]; simpl; [right; reflexivity|].
  destruct (String.eqb n name); [left; eauto | exact IH].
Qed.

Lemma mem_false_index_of (l : string) (axis : list string) :
  mem l axis = false -> index_of l axis = None.
Proof.
  induction axis as [|a axis IH]; simpl; [reflexivity|].
  rewrite String.eqb_sym. destruct (String.eqb a l); simpl; [discriminate|].
  intros H. rewrite (IH H). reflexivity.
Qed.

Lemma sel_sk_raises_only (velmod : Velmod) (rows : list velmod_itp_row)
    (name stat : string) :
  (exists arr, sel_sk velmod rows name stat = Ok arr)
  \/ sel_sk velmod rows name stat = Raise KeyError.
Proof.
  unfold sel_sk.
  assert (H : (exists arr,
                 mapM (fun r => t <- get_var name (vi_vars r) ;;
                                Ok (vi_unit r, t)) rows = Ok arr)
              \/ mapM (fun r => t <- get_var name (vi_vars r) ;;
                                Ok (vi_unit r, t)) rows = Raise KeyError).
  { apply mapM_raises_only. intros a _.
    destruct (get_var_raises_only name (vi_vars a)) as [[t ->]| ->];
      simpl; eauto. }
  destruct H as [[arr ->]| ->]; [|right; reflexivity].
  simpl. unfold sel_index.
  destruct (index_of stat (velmod_summary_statistic velmod));
    [|right; reflexivity].
  destruct (index_of "sk" (velmod_kriging_type velmod));
    [left; eexists; reflexivity | right; reflexivity].
Qed.

Lemma sel_sk_missing_label (velmod : Velmod) (rows : list velmod_itp_row)
    (name stat : string) :
  mem "sk" (velmod_kriging_type velmod) = false
  \/ mem stat (velmod_summary_statistic velmod) = false ->
  sel_sk velmod rows name stat = Raise KeyError.
Proof.
  intros H. unfold sel_sk.
  assert (H' : (exists arr,
                 mapM (fun r => t <- get_var name (vi_vars r) ;;
                                Ok (vi_unit r, t)) rows = Ok arr)
              \/ mapM (fun r => t <- get_var name (vi_vars r) ;;
                                Ok (vi_unit r, t)) rows = Raise KeyError).
  { apply mapM_raises_only. intros a _.
    destruct (get_var_raises_only name (vi_vars a)) as [[t ->]| ->];
      simpl; eauto. }
  destruct H' as [[arr ->]| ->]; [|reflexivity].
  simpl. unfold sel_index.
  destruct (index_of stat (velmod_summary_statistic velmod)) as [j|] eqn:Ej;
    [|reflexivity].
  simpl. destruct H as [H|H].
  - rewrite (mem_false_index_of _ _ H). reflexivity.
  - rewrite (mem_false_index_of _ _ H) in Ej. discriminate.
Qed.

(** X1: supplying z only adds the three depth fields.  On well-formed
    inputs the sample without z has no unit_samples, unit_mask and Vinst;
    with z (and a common unit) it has the three, and every other field is
    the same as without z. *)
Theorem depth_block_only_adds_fields :
  forall (xy : DataArray -> float) (x_crs crs : option string)
         (dgm : Dgm) (velmod : Velmod),
    sampler_ready dgm velmod = true ->
    exists r0,
      sample_dgm_velmod xy x_crs None dgm velmod crs = Ok r0
      /\ unit_samples r0 = None /\ unit_mask r0 = None /\ Vinst r0 = None
      /\ forall z, common_units dgm velmod <> [] ->
           exists r u m v,
             sample_dgm_velmod xy x_crs (Some z) dgm velmod crs = Ok r
             /\ unit_samples r = Some u /\ unit_mask r = Some m
             /\ Vinst r = Some v
             /\ V0 r = V0 r0 /\ V0_sd r = V0_sd r0 /\ k r = k r0
             /\ depth r = depth r0 /\ ordering r = ordering r0
             /\ crs_out r = crs_out r0.
Proof.
  intros xy x_crs crs dgm velmod Hready.
  destruct (sample_run xy dgm velmod Hready)
    as (vs & ds & i & jm & js & _ & _ & Hdm & _ & _ & _ & _ & Hrun).
  eexists. split; [apply (Hrun x_crs None crs)|]. cbn.
  repeat (split; [reflexivity|]).
  intros z Hne. rewrite (Hrun x_crs (Some z) crs). cbv zeta.
  destruct (idxmax_total
              (map (fun ut => (fst ut, ltb (snd ut) z))
                   (map (fun a => (di_unit a, tvd_of a))
                        (dgm_itp_of xy dgm ds))))
    as [u [Hu _]].
  { intros E. apply map_eq_nil in E. apply map_eq_nil in E.
    pose proof (dgm_itp_labels xy dgm ds) as Hp.
    rewrite E, Hdm in Hp. apply Permutation_nil in Hp. contradiction. }
  rewrite Hu. simpl bind. eexists. exists u. eexists. eexists.
  split; [reflexivity|]. cbn. repeat split.
Qed.

(** X2: the CRS of the sample.  An explicit, non-empty [crs] argument is
    written on the sample.  Without one, the CRS carried by [x] is written
    when [x] carries one.  Without either, nothing is written and the sample
    keeps the CRS that the two models share, which its variables carry
    through sel and interp. *)
Theorem output_crs_prefers_argument :
  forall (xy : DataArray -> float) (x_crs crs : option string)
         (z : option float) (dgm : Dgm) (velmod : Velmod),
    sampler_ready dgm velmod = true ->
    (z = None \/ common_units dgm velmod <> []) ->
    exists r,
      sample_dgm_velmod xy x_crs z dgm velmod crs = Ok r
      /\ (truthy crs = true -> crs_out r = crs)
      /\ (truthy crs = false -> truthy x_crs = true -> crs_out r = x_crs)
      /\ (truthy crs = false -> truthy x_crs = false ->
          crs_out r = velmod_crs velmod /\ crs_out r = dgm_crs dgm).
Proof.
  intros xy x_crs crs z dgm velmod Hready Hz.
  destruct (ready_parts dgm velmod Hready) as (Hcrs & _).
  apply crs_eqb_eq in Hcrs.
  destruct (sample_run xy dgm velmod Hready)
    as (vs & ds & i & jm & js & _ & _ & Hdm & _ & _ & _ & _ & Hrun).
  specialize (Hrun x_crs z crs). cbv zeta in Hrun.
  assert (Hout :
    (truthy crs = true -> output_crs crs x_crs (velmod_crs velmod) = crs)
    /\ (truthy crs = false -> truthy x_crs = true ->
        output_crs crs x_crs (velmod_crs velmod) = x_crs)
    /\ (truthy crs = false -> truthy x_crs = false ->
        output_crs crs x_crs (velmod_crs velmod) = velmod_crs velmod
        /\ output_crs crs x_crs (velmod_crs velmod) = dgm_crs dgm)).
  { unfold output_crs. rewrite Hcrs.
    split; [intros H; rewrite H, H; reflexivity|].
    split; [intros H H'; rewrite H, H'; reflexivity|].
    intros H H'. rewrite H, H'. split; reflexivity. }
  destruct z as [z|].
  - destruct Hz as [Hz|Hne]; [discriminate|].
    destruct (idxmax_total
                (map (fun ut => (fst ut, ltb (snd ut) z))
                     (map (fun a => (di_unit a, tvd_of a))
                          (dgm_itp_of xy dgm ds))))
      as [u [Hu _]].
    { intros E. apply map_eq_nil in E. apply map_eq_nil in E.
      pose proof (dgm_itp_labels xy dgm ds) as Hp.
      rewrite E, Hdm in Hp. apply Permutation_nil in Hp. contradiction. }
    rewrite Hu in Hrun. simpl bind in Hrun.
    eexists. split; [exact Hrun|]. cbn [crs_out]. exact Hout.
  - eexists. split; [exact Hrun|]. cbn [crs_out]. exact Hout.
Qed.

(** X3: a VELMOD model that lacks the label sk on its kriging_type axis,
    or one of the labels mean and sd on its summary_statistic axis, makes
    the sampler raise KeyError, with or without z. *)
Theorem missing_statistic_label_raises_KeyError :
  forall (xy : DataArray -> float) (x_crs crs : option string)
         (z : option float) (dgm : Dgm) (velmod : Velmod),
    dgm_crs dgm = velmod_crs velmod ->
    (~ In "sk"%string (velmod_kriging_type velmod)
     \/ ~ In "mean"%string (velmod_summary_statistic velmod)
     \/ ~ In "sd"%string (velmod_summary_statistic velmod)) ->
    sample_dgm_velmod xy x_crs z dgm velmod crs = Raise KeyError.
Proof.
  intros xy x_crs crs z dgm velmod Hcrs Hmiss.
  assert (Hm : forall l axis, ~ In l axis -> mem l axis = false).
  { intros l axis Hn. destruct (mem l axis) eqn:E; [|reflexivity].
    apply mem_In in E. contradiction. }
  unfold sample_dgm_velmod.
  apply crs_eqb_eq in Hcrs. rewrite Hcrs. cbn [negb].
  destruct (sel_total v_unit (velmod_rows velmod) (common_units dgm velmod))
    as [vs [Hvs _]].
  { intros u Hu. apply intersect1d_In in Hu. apply Hu. }
  destruct (sel_total d_unit (dgm_rows dgm) (common_units dgm velmod))
    as [ds [Hds _]].
  { intros u Hu. apply intersect1d_In in Hu. apply Hu. }
  unfold common_units in Hvs, Hds. rewrite Hvs, Hds. simpl bind.
  destruct Hmiss as [H|[H|H]].
  - rewrite sel_sk_missing_label by (left; apply Hm, H). reflexivity.
  - rewrite sel_sk_missing_label by (right; apply Hm, H). reflexivity.
  - destruct (sel_sk_raises_only velmod
                (sortby vi_ordering (map (interp_velmod xy velmod) vs))
                "V0_filled" "mean") as [[arr ->]| ->]; [|reflexivity].
    simpl bind.
    rewrite sel_sk_missing_label by (right; apply Hm, H). reflexivity.
Qed.

(** The order of binary64 numbers: [<] followed by [<=] is [<]. *)
Lemma ltb_leb_trans (a b c : float) :
  ltb a b = true -> leb b c = true -> ltb a c = true.
Proof.
  unfold ltb, leb, SFltb, SFleb.
  destruct a as [sa|sa| |sa ma ea], b as [sb|sb| |sb mb eb],
           c as [sc|sc| |sc mc ec]; simpl;
    try discriminate; try reflexivity;
    repeat match goal with s : bool |- _ => destruct s end; simpl;
    try discriminate; try reflexivity; try (intros; discriminate);
    change (Pos.compare_cont Eq) with Pos.compare;
    destruct (Z.compare_spec ea eb); destruct (Z.compare_spec eb ec);
    destruct (Z.compare_spec ea ec);
    destruct (Pos.compare_spec ma mb); destruct (Pos.compare_spec mb mc);
    destruct (Pos.compare_spec ma mc);
    simpl; intros; subst; try discriminate; try reflexivity; lia.
Qed.

Lemma first_true_exists (l : list (string * bool)) :
  (exists e, In e l /\ snd e = true) -> exists u, first_true l = Some u.
Proof.
  induction l as [|[u b] l IH]; simpl; intros [e [Hin He]]; [contradiction|].
  destruct b; [eauto|]. destruct Hin as [<-|Hin]; [discriminate|].
  apply IH. eauto.
Qed.

(** The entry that [first_true] selects, with distinct labels. *)
Lemma first_true_at_unit {R B : Type} (lab : R -> string) (P : R -> bool)
    (rows : list R) (u : string) :
  NoDup (map lab rows) ->
  first_true (map (fun a => (lab a, P a)) rows) = Some u ->
  exists a, In a rows /\ lab a = u /\ P a = true
    /\ forall (h : R -> B),
         at_unit u (map (fun r => (lab r, h r)) rows) = Some (h a).
Proof.
  induction rows as [|a rows IH]; simpl; intros Hnd H; [discriminate|].
  inversion Hnd as [|? ? Hnotin Hnd']; subst.
  destruct (P a) eqn:EP.
  - injection H as <-. exists a. rewrite String.eqb_refl. auto.
  - destruct (IH Hnd' H) as [a' [Hin [Hl [HP Hat]]]].
    exists a'. split; [right; exact Hin|]. split; [exact Hl|].
    split; [exact HP|]. intros h.
    destruct (String.eqb (lab a) u) eqn:E; [|apply Hat].
    apply String.eqb_eq in E. exfalso. apply Hnotin.
    rewrite E, <- Hl. apply in_map, Hin.
Qed.

Lemma first_true_monotone {R : Type} (lab : R -> string) (ord : R -> Z)
    (P Q : R -> bool) (rows : list R) (u u' : string) :
  NoDup (map lab rows) ->
  StronglySorted (key_le ord) rows ->
  (forall a, Q a = true -> P a = true) ->
  first_true (map (fun a => (lab a, P a)) rows) = Some u ->
  first_true (map (fun a => (lab a, Q a)) rows) = Some u' ->
  exists o o',
    at_unit u (map (fun a => (lab a, ord a)) rows) = Some o
    /\ at_unit u' (map (fun a => (lab a, ord a)) rows) = Some o'
    /\ o <= o'.
Proof.
  induction rows as [|a rows IH]; simpl; intros Hnd Hs HQP HP HQ;
    [discriminate|].
  inversion Hnd as [|? ? Hnotin Hnd']; subst.
  inversion Hs as [|? ? Hs' Hle]; subst.
  destruct (P a) eqn:EP.
  - injection HP as <-. rewrite String.eqb_refl.
    destruct (Q a) eqn:EQ.
    + injection HQ as <-. rewrite String.eqb_refl.
      exists (ord a), (ord a). repeat split; lia.
    + destruct (first_true_at_unit (B := Z) lab Q rows u' Hnd' HQ)
        as [a' [Hin [Hl [_ Hat]]]].
      exists (ord a), (ord a').
      split; [reflexivity|]. split.
      * destruct (String.eqb (lab a) u') eqn:E; [|apply Hat].
        apply String.eqb_eq in E. exfalso. apply Hnotin.
        rewrite E, <- Hl. apply in_map, Hin.
      * rewrite Forall_forall in Hle. apply Hle, Hin.
  - destruct (Q a) eqn:EQ; [rewrite (HQP a EQ) in EP; discriminate|].
    destruct (IH Hnd' Hs' HQP HP HQ) as [o [o' [Ho [Ho' Hoo]]]].
    exists o, o'. split; [|split; [|exact Hoo]].
    + destruct (String.eqb (lab a) u) eqn:E; [|exact Ho].
      apply String.eqb_eq in E. exfalso. apply Hnotin. rewrite E.
      apply first_true_In in HP. rewrite map_map in HP. exact HP.
    + destruct (String.eqb (lab a) u') eqn:E; [|exact Ho'].
      apply String.eqb_eq in E. exfalso. apply Hnotin. rewrite E.
      apply first_true_In in HQ. rewrite map_map in HQ. exact HQ.
Qed.

Lemma mask_split {R : Type} (lab : R -> string) (rows : list R) (u : string) :
  NoDup (map lab rows) -> In u (map lab rows) ->
  exists pre post,
    map (fun a => (lab a, String.eqb (lab a) u)) rows
    = pre ++ (u, true) :: post
    /\ Forall (fun e => snd e = false) (pre ++ post).
Proof.
  induction rows as [|a rows IH]; simpl; intros Hnd Hin; [contradiction|].
  inversion Hnd as [|? ? Hnotin Hnd']; subst.
  destruct (String.eqb (lab a) u) eqn:E.
  - apply String.eqb_eq in E. subst u.
    exists [], (map (fun r => (lab r, String.eqb (lab r) (lab a))) rows).
    split; [reflexivity|]. simpl. apply Forall_map, Forall_forall.
    intros r Hr. simpl. apply String.eqb_neq. intros Heq.
    apply Hnotin. rewrite <- Heq. apply in_map, Hr.
  - destruct Hin as [Hin|Hin];
      [rewrite Hin, String.eqb_refl in E; discriminate|].
    destruct (IH Hnd' Hin) as [pre [post [Hm Hf]]].
    exists ((lab a, false) :: pre), post. rewrite Hm.
    split; [reflexivity|]. simpl. constructor; [reflexivity | exact Hf].
Qed.

(** The run with a depth, with the same rows for every depth. *)
Lemma sample_depth_run_uniform (xy : DataArray -> float) (dgm : Dgm)
    (velmod : Velmod) :
  sampler_ready dgm velmod = true ->
  common_units dgm velmod <> [] ->
  exists (rows : list velmod_itp_row) (drows : list dgm_itp_row)
         (i jm js : nat),
    Permutation (map vi_unit rows) (common_units dgm velmod)
    /\ Permutation (map di_unit drows) (common_units dgm velmod)
    /\ StronglySorted (key_le di_ordering) drows
    /\ forall (x_crs crs : option string) (z : float),
       exists u,
         idxmax (map (fun a => (di_unit a, ltb (tvd_of a) z)) drows) = Ok u
         /\ sample_dgm_velmod xy x_crs (Some z) dgm velmod crs =
            Ok {| V0 := map (fun a => (vi_unit a, filled_at i jm a)) rows;
                  V0_sd := map (fun a => (vi_unit a, filled_at i js a)) rows;
                  k := map (fun a => (vi_unit a, vi_k a)) rows;
                  depth := map (fun a => (di_unit a, tvd_of a)) drows;
                  ordering := map (fun a => (di_unit a, di_ordering a)) drows;
                  unit_samples := Some u;
                  unit_mask :=
                    Some (map (fun a => (vi_unit a, String.eqb (vi_unit a) u))
                              rows);
                  Vinst :=
                    Some (nansum (masked u
                      (map (fun a => (vi_unit a,
                                      sub (filled_at i jm a) (mul (vi_k a) z)))
                           rows)));
                  crs_out := output_crs crs x_crs (velmod_crs velmod) |}.
Proof.
  intros Hready Hne.
  destruct (sample_run xy dgm velmod Hready)
    as (vs & ds & i & jm & js & Hvm & _ & Hdm & _ & _ & _ & _ & Hrun).
  set (rows := velmod_itp_of xy velmod vs).
  set (drows := dgm_itp_of xy dgm ds).
  assert (Hpv : Permutation (map vi_unit rows) (common_units dgm velmod)).
  { rewrite <- Hvm. apply velmod_itp_labels. }
  assert (Hpd : Permutation (map di_unit drows) (common_units dgm velmod)).
  { rewrite <- Hdm. apply dgm_itp_labels. }
  exists rows, drows, i, jm, js.
  split; [exact Hpv|]. split; [exact Hpd|].
  split; [apply sortby_sorted|].
  intros x_crs crs z.
  destruct (idxmax_total (map (fun a => (di_unit a, ltb (tvd_of a) z)) drows))
    as [u [Hu _]].
  { intros E. apply map_eq_nil in E.
    rewrite E in Hpd. simpl in Hpd. apply Permutation_nil in Hpd.
    contradiction. }
  exists u. split; [exact Hu|].
  rewrite (Hrun x_crs (Some z) crs). cbv zeta.
  fold rows drows. rewrite map_map. cbn [fst snd]. rewrite Hu. simpl bind.
  rewrite combine_map_same. unfold masked. rewrite !map_map. simpl.
  reflexivity.
Qed.

Lemma idxmax_cases (l : list (string * bool)) (u : string) :
  idxmax l = Ok u ->
  first_true l = Some u
  \/ (first_true l = None /\ exists b rest, l = (u, b) :: rest).
Proof.
  destruct l as [|[u0 b0] l]; [discriminate|]. unfold idxmax.
  destruct (first_true ((u0, b0) :: l)) as [u1|] eqn:E.
  - intros [= <-]. left. reflexivity.
  - intros [= <-]. right. split; [reflexivity|]. eauto.
Qed.

Lemma common_units_labels_NoDup {R : Type} (lab : R -> string)
    (rows : list R) (dgm : Dgm) (velmod : Velmod) :
  Permutation (map lab rows) (common_units dgm velmod) ->
  NoDup (map lab rows).
Proof.
  intros Hp. eapply Permutation_NoDup; [apply Permutation_sym, Hp|].
  apply intersect1d_NoDup.
Qed.

(** X4: the active unit is a unit of both models, and the mask is True
    at that unit and False at every other unit of the axis: exactly one
    entry is selected. *)
Theorem unit_mask_selects_one_common_unit :
  forall (xy : DataArray -> float) (x_crs crs : option string) (z : float)
         (dgm : Dgm) (velmod : Velmod),
    sampler_ready dgm velmod = true ->
    common_units dgm velmod <> [] ->
    exists r u m,
      sample_dgm_velmod xy x_crs (Some z) dgm velmod crs = Ok r
      /\ unit_samples r = Some u /\ unit_mask r = Some m
      /\ In u (dgm_units dgm) /\ In u (velmod_units velmod)
      /\ map fst m = map fst (V0 r)
      /\ exists pre post,
           m = pre ++ (u, true) :: post
           /\ Forall (fun e => snd e = false) (pre ++ post).
Proof.
  intros xy x_crs crs z dgm velmod Hready Hne.
  destruct (sample_depth_run xy dgm velmod Hready x_crs crs z Hne)
    as (rows & drows & i & jm & js & u & Hpv & _ & _ & _ & Hin & Hrun).
  eexists. exists u. eexists. split; [exact Hrun|].
  cbn [unit_samples unit_mask V0].
  split; [reflexivity|]. split; [reflexivity|].
  pose proof Hin as Hboth. apply intersect1d_In in Hboth.
  split; [apply Hboth|]. split; [apply Hboth|].
  split; [rewrite !map_map; reflexivity|].
  apply mask_split.
  - eapply common_units_labels_NoDup, Hpv.
  - eapply Permutation_in; [apply Permutation_sym, Hpv | exact Hin].
Qed.

(** X5: depth-monotonic resolution.  For one query point and two depths
    z' <= z, when some unit has its base below z', the active unit at z'
    does not come before the active unit at z on the unit axis: its
    ordering is at least as large. *)
Theorem active_unit_is_monotone_in_depth :
  forall (xy : DataArray -> float) (x_crs crs : option string) (z z' : float)
         (dgm : Dgm) (velmod : Velmod),
    sampler_ready dgm velmod = true ->
    common_units dgm velmod <> [] ->
    leb z' z = true ->
    exists r r' u u',
      sample_dgm_velmod xy x_crs (Some z) dgm velmod crs = Ok r
      /\ sample_dgm_velmod xy x_crs (Some z') dgm velmod crs = Ok r'
      /\ depth r' = depth r /\ ordering r' = ordering r
      /\ unit_samples r = Some u /\ unit_samples r' = Some u'
      /\ ((exists ut, In ut (depth r') /\ ltb (snd ut) z' = true) ->
          exists o o',
            at_unit u (ordering r) = Some o
            /\ at_unit u' (ordering r') = Some o'
            /\ o <= o').
Proof.
  intros xy x_crs crs z z' dgm velmod Hready Hne Hle.
  destruct (sample_depth_run_uniform xy dgm velmod Hready Hne)
    as (rows & drows & i & jm & js & _ & Hpd & Hs & Hrun).
  destruct (Hrun x_crs crs z) as [u [Hu Hr]].
  destruct (Hrun x_crs crs z') as [u' [Hu' Hr']].
  eexists. eexists. exists u, u'.
  split; [exact Hr|]. split; [exact Hr'|].
  cbn [depth ordering unit_samples].
  repeat (split; [reflexivity|]).
  intros [ut [Hin Hlt]].
  apply in_map_iff in Hin. destruct Hin as [a [<- Ha]]. cbn [snd] in Hlt.
  assert (Himp : forall b, ltb (tvd_of b) z' = true -> ltb (tvd_of b) z = true).
  { intros b Hb. exact (ltb_leb_trans _ _ _ Hb Hle). }
  assert (HQ : first_true (map (fun b => (di_unit b, ltb (tvd_of b) z')) drows)
               = Some u').
  { destruct (idxmax_cases _ _ Hu') as [H|[H _]]; [exact H|].
    destruct (first_true_exists
                (map (fun b => (di_unit b, ltb (tvd_of b) z')) drows))
      as [v Hv]; [|congruence].
    exists (di_unit a, ltb (tvd_of a) z'). split; [|exact Hlt].
    apply in_map_iff. exists a. auto. }
  assert (HP : first_true (map (fun b => (di_unit b, ltb (tvd_of b) z)) drows)
               = Some u).
  { destruct (idxmax_cases _ _ Hu) as [H|[H _]]; [exact H|].
    destruct (first_true_exists
                (map (fun b => (di_unit b, ltb (tvd_of b) z)) drows))
      as [v Hv]; [|congruence].
    exists (di_unit a, ltb (tvd_of a) z). split; [|apply Himp, Hlt].
    apply in_map_iff. exists a. auto. }
  apply (first_true_monotone di_unit di_ordering
           (fun b => ltb (tvd_of b) z) (fun b => ltb (tvd_of b) z')
           drows u u'); try assumption.
  eapply common_units_labels_NoDup, Hpd.
Qed.


(** * File names *)

Section SplitFacts.

Variable sep : Ascii.ascii.

Lemma split_nonempty (s : string) : Str.split sep s <> [].
Proof.
  induction s as [|c s IH]; simpl; [discriminate|].
  destruct (Ascii.eqb c sep); [discriminate|].
  destruct (Str.split sep s); [contradiction | discriminate].
Qed.

Lemma split_app (s t : string) :
  Str.split sep (String.append s (String sep t))
  = Str.split sep s ++ Str.split sep t.
Proof.
  induction s as [|c s IH]; simpl.
  - rewrite Ascii.eqb_refl. reflexivity.
  - destruct (Ascii.eqb c sep); [rewrite IH; reflexivity|].
    rewrite IH. pose proof (split_nonempty s) as Hne.
    destruct (Str.split sep s) as [|t0 ts]; [contradiction | reflexivity].
Qed.

Lemma split_tokens_free (s : string) :
  Forall (fun t => Str.has_char sep t = false) (Str.split sep s).
Proof.
  induction s as [|c s IH]; simpl.
  - constructor; [reflexivity | constructor].
  - destruct (Ascii.eqb c sep) eqn:E.
    + constructor; [reflexivity | exact IH].
    + pose proof (split_nonempty s) as Hne.
      destruct (Str.split sep s) as [|t0 ts]; [contradiction|].
      inversion IH; subst. constructor; [|assumption].
      simpl. rewrite E. assumption.
Qed.

Lemma split_free (t : string) :
  Str.has_char sep t = false -> Str.split sep t = [t].
Proof.
  induction t as [|c t IH]; simpl; [reflexivity|].
  destruct (Ascii.eqb c sep); simpl; [discriminate|].
  intros H. rewrite (IH H). reflexivity.
Qed.

Lemma concat_split (s : string) :
  String.concat (String sep EmptyString) (Str.split sep s) = s.
Proof.
  induction s as [|c s IH]; simpl; [reflexivity|].
  destruct (Ascii.eqb c sep) eqn:E.
  - apply Ascii.eqb_eq in E. subst c.
    pose proof (split_nonempty s) as Hne.
    destruct (Str.split sep s) as [|t0 ts] eqn:Es; [contradiction|].
    change (String.concat (String sep EmptyString) (EmptyString :: t0 :: ts))
      with (String sep (String.concat (String sep EmptyString) (t0 :: ts))).
    rewrite IH. reflexivity.
  - pose proof (split_nonempty s) as Hne.
    destruct (Str.split sep s) as [|t0 ts] eqn:Es; [contradiction|].
    destruct ts as [|t1 ts]; simpl in *; rewrite IH; reflexivity.
Qed.

Lemma split_concat (toks : list string) :
  toks <> [] ->
  Forall (fun t => Str.has_char sep t = false) toks ->
  Str.split sep (String.concat (String sep EmptyString) toks) = toks.
Proof.
  induction toks as [|t toks IH]; [congruence|]. intros _ Hf.
  inversion Hf as [|? ? Ht Hrest]; subst.
  destruct toks as [|t1 toks].
  - simpl. apply split_free, Ht.
  - change (String.concat (String sep EmptyString) (t :: t1 :: toks))
      with (String.append t
              (String sep (String.concat (String sep EmptyString) (t1 :: toks)))).
    rewrite split_app, (split_free t Ht), IH by (congruence || assumption).
    reflexivity.
Qed.

Lemma lstrip_free (t : string) :
  Str.has_char sep t = false -> Str.lstrip sep t = t.
Proof.
  destruct t as [|c t]; simpl; [reflexivity|].
  destruct (Ascii.eqb c sep); [discriminate | reflexivity].
Qed.

Lemma rstrip_free (t : string) :
  Str.has_char sep t = false -> Str.rstrip sep t = t.
Proof.
  induction t as [|c t IH]; simpl; [reflexivity|].
  destruct (Ascii.eqb c sep); simpl; [discriminate|].
  intros H. rewrite (IH H). destruct t; reflexivity.
Qed.

Lemma strip_free (t : string) :
  Str.has_char sep t = false -> Str.strip sep t = t.
Proof.
  intros H. unfold Str.strip. rewrite (lstrip_free t H). apply rstrip_free, H.
Qed.

End SplitFacts.

(** X7: [split] and [join] on one separator are inverse of each other: a
    name is the join of its tokens, no token holds the separator, and the
    tokens of a join of separator-free tokens are these tokens. *)
Theorem split_and_join_are_inverse :
  forall (sep : Ascii.ascii),
    (forall s, String.concat (String sep EmptyString) (Str.split sep s) = s)
    /\ (forall s, Forall (fun t => Str.has_char sep t = false)
                         (Str.split sep s))
    /\ (forall toks, toks <> [] ->
          Forall (fun t => Str.has_char sep t = false) toks ->
          Str.split sep (String.concat (String sep EmptyString) toks) = toks).
Proof.
  intros sep. split; [apply concat_split|].
  split; [apply split_tokens_free | apply split_concat].
Qed.

Lemma velmod_labels_from_stem_eq (stem : string) (grid : DataArray) :
  velmod_zmap_to_xarray stem grid =
  match Str.split Str.underscore (Str.replace "NLM" "NLNM" stem) with
  | t0 :: t1 :: t2 :: t3 :: rest =>
      Ok {| vd_unit := t0; vd_variable := t2; vd_kriging_type := t3;
            vd_summary_statistic := hd "mean"%string rest;
            vd_grid := grid |}
  | _ => Raise IndexError
  end.
Proof.
  unfold velmod_zmap_to_xarray.
  change "_mean"%string with (String Str.underscore "mean").
  rewrite split_app.
  change (Str.split Str.underscore "mean") with ["mean"%string].
  destruct (Str.split Str.underscore (Str.replace "NLM" "NLNM" stem))
    as [|t0 [|t1 [|t2 [|t3 [|t4 rest]]]]]; reflexivity.
Qed.

(** X8: the labels of a VELMOD file are the tokens 0, 2 and 3 of its
    tidied stem, and its statistic is token 4 when the stem has one and
    mean otherwise; a stem of fewer than four tokens raises IndexError. *)
Theorem velmod_labels_from_stem :
  forall (stem : string) (grid : DataArray),
    velmod_zmap_to_xarray stem grid =
    match Str.split Str.underscore (Str.replace "NLM" "NLNM" stem) with
    | t0 :: t1 :: t2 :: t3 :: rest =>
        Ok {| vd_unit := t0; vd_variable := t2; vd_kriging_type := t3;
              vd_summary_statistic := hd "mean"%string rest;
              vd_grid := grid |}
    | _ => Raise IndexError
    end.
Proof.
  intros stem grid. apply velmod_labels_from_stem_eq.
Qed.

(** X9: the labels of a DGM file are the tokens 0 and 1 of its stem; the
    tokens hold no underscore, so stripping underscores from the variable
    changes nothing; a stem of one token raises IndexError. *)
Theorem dgm_labels_from_stem :
  forall (stem : string) (grid : DataArray),
    dgm_zmap_to_xarray stem grid =
    match Str.split Str.underscore stem with
    | t0 :: t1 :: _ =>
        Ok {| dd_unit := t0; dd_var := t1; dd_grid := grid |}
    | _ => Raise IndexError
    end.
Proof.
  intros stem grid. unfold dgm_zmap_to_xarray.
  pose proof (split_tokens_free Str.underscore stem) as Hf.
  destruct (Str.split Str.underscore stem) as [|t0 [|t1 rest]];
    try reflexivity.
  inversion Hf as [|? ? _ Hf1]; subst. inversion Hf1 as [|? ? H1 _]; subst.
  unfold token. simpl. rewrite (strip_free _ _ H1). reflexivity.
Qed.

(** ** Tidying up NLM *)

Section Tidy.

Let N : Ascii.ascii := Ascii.ascii_of_nat 78.
Let L : Ascii.ascii := Ascii.ascii_of_nat 76.
Let M : Ascii.ascii := Ascii.ascii_of_nat 77.

Lemma prefix_NLM_inv (s : string) :
  String.prefix "NLM" s = true ->
  exists rest, s = String N (String L (String M rest)).
Proof.
  destruct s as [|a [|b [|c rest]]]; cbn [String.prefix];
    try discriminate; dec_chars.
  subst. intros _. exists rest. reflexivity.
Qed.

Lemma replace_NLM_match (rest : string) :
  Str.replace "NLM" "NLNM" (String N (String L (String M rest)))
  = String N (String L (String N (String M (Str.replace "NLM" "NLNM" rest)))).
Proof. destruct rest; reflexivity. Qed.

Lemma replace_NLM_skip (c : Ascii.ascii) (s : string) :
  String.prefix "NLM" (String c s) = false ->
  Str.replace "NLM" "NLNM" (String c s)
  = String c (Str.replace "NLM" "NLNM" s).
Proof.
  intros H. unfold Str.replace. cbn [Str.replace_from]. rewrite H.
  reflexivity.
Qed.

Lemma replace_NLM_starts_M (s : string) :
  String.prefix "M" (Str.replace "NLM" "NLNM" s) = true ->
  String.prefix "M" s = true.
Proof.
  destruct (String.prefix "NLM" s) eqn:E.
  - destruct (prefix_NLM_inv s E) as [rest ->].
    rewrite replace_NLM_match. cbn. discriminate.
  - destruct s as [|c s]; [cbn; discriminate|].
    rewrite (replace_NLM_skip c s E). cbn [String.prefix]. dec_chars.
    destruct s; destruct (Str.replace "NLM" "NLNM" _); reflexivity.
Qed.

Lemma replace_NLM_starts_LM (s : string) :
  String.prefix "LM" (Str.replace "NLM" "NLNM" s) = true ->
  String.prefix "LM" s = true.
Proof.
  destruct (String.prefix "NLM" s) eqn:E.
  - destruct (prefix_NLM_inv s E) as [rest ->].
    rewrite replace_NLM_match. cbn. discriminate.
  - destruct s as [|c s]; [cbn; discriminate|].
    rewrite (replace_NLM_skip c s E).
    cbn [String.prefix]. dec_chars.
    apply replace_NLM_starts_M.
Qed.

Lemma replace_NLM_clean_upto (n : nat) (s : string) :
  (String.length s <= n)%nat ->
  Str.contains "NLM" (Str.replace "NLM" "NLNM" s) = false.
Proof.
  revert s. induction n as [|n IH]; intros s Hlen.
  - destruct s; [reflexivity | simpl in Hlen; lia].
  - destruct (String.prefix "NLM" s) eqn:E.
    + destruct (prefix_NLM_inv s E) as [rest ->].
      rewrite replace_NLM_match.
      assert (Hr : Str.contains "NLM" (Str.replace "NLM" "NLNM" rest) = false).
      { apply IH. simpl in Hlen. lia. }
      revert Hr. generalize (Str.replace "NLM" "NLNM" rest). intros t Hr.
      cbn [Str.contains]. rewrite Hr.
      destruct t; reflexivity.
    + destruct s as [|c s]; [reflexivity|].
      rewrite (replace_NLM_skip c s E). cbn [Str.contains].
      rewrite (IH s) by (simpl in Hlen; lia).
      rewrite Bool.orb_false_r.
      destruct (String.prefix "NLM"
                  (String c (Str.replace "NLM" "NLNM" s))) eqn:E'; [|reflexivity].
      exfalso. cbn [String.prefix] in E, E'.
      match type of E' with
      | context [Ascii.ascii_dec ?x ?y] =>
          destruct (Ascii.ascii_dec x y); [|discriminate]
      end.
      apply replace_NLM_starts_LM in E'. congruence.
Qed.

Lemma replace_NLM_clean (s : string) :
  Str.contains "NLM" (Str.replace "NLM" "NLNM" s) = false.
Proof. apply (replace_NLM_clean_upto (String.length s)). lia. Qed.

Lemma replace_NLM_fixed (s : string) :
  Str.contains "NLM" s = false -> Str.replace "NLM" "NLNM" s = s.
Proof.
  induction s as [|c s IH]; [reflexivity|].
  cbn [Str.contains]. intros H. apply Bool.orb_false_elim in H.
  destruct H as [Hp Hc].
  rewrite (replace_NLM_skip c s Hp), (IH Hc). reflexivity.
Qed.

End Tidy.

(** X10: tidying up replaces every NLM: the tidied name holds no NLM, a
    name without NLM (one that already reads NLNM) is left as it is, so
    that tidying twice is tidying once; and the unit label read from a
    VELMOD file name is never NLM. *)
Theorem tidying_removes_NLM :
  (forall s, Str.contains "NLM" (Str.replace "NLM" "NLNM" s) = false)
  /\ (forall s, Str.contains "NLM" s = false ->
                Str.replace "NLM" "NLNM" s = s)
  /\ (forall s, Str.replace "NLM" "NLNM" (Str.replace "NLM" "NLNM" s)
                = Str.replace "NLM" "NLNM" s)
  /\ (forall stem grid d,
        velmod_zmap_to_xarray stem grid = Ok d -> vd_unit d <> "NLM"%string).
Proof.
  split; [apply replace_NLM_clean|]. split; [apply replace_NLM_fixed|].
  split; [intros s; apply replace_NLM_fixed, replace_NLM_clean|].
  intros stem grid d H Hu.
  rewrite velmod_labels_from_stem_eq in H.
  pose proof (replace_NLM_clean stem) as Hc.
  pose proof (concat_split Str.underscore (Str.replace "NLM" "NLNM" stem)) as Hj.
  destruct (Str.split Str.underscore (Str.replace "NLM" "NLNM" stem))
    as [|t0 [|t1 [|t2 [|t3 rest]]]]; try discriminate.
  injection H as <-. cbn [vd_unit] in Hu. subst t0.
  rewrite <- Hj in Hc. discriminate Hc.
Qed.

(** * Further properties of the assembly *)

Lemma mapM_canonical_index_rows {R : Type} (mk : string -> Z -> R)
    (units : list string) (rows : list R) :
  mapM (fun u => o <- canonical_index u ;; Ok (mk u o)) units = Ok rows ->
  Forall2 (fun u r => exists o, canonical_index u = Ok o /\ r = mk u o)
          units rows.
Proof.
  intros H. apply mapM_Ok_Forall2 in H.
  eapply Forall2_impl; [|exact H]. intros u r Hr. simpl in Hr.
  destruct (canonical_index u) as [o|e]; simpl in Hr; [|discriminate].
  injection Hr as <-. exists o. auto.
Qed.

Lemma convert_velmod_structure (velmoddata : list (string * float))
    (velmodds : list velmod_da) (velmod : Velmod) :
  convert_velmod velmoddata velmodds = Ok velmod ->
  exists st rows,
    unstack (map (fun d => (velmod_key d, vd_grid d)) velmodds) = Ok st
    /\ velmod_crs velmod = Some crs_UTM31
    /\ velmod_x velmod = st_x st /\ velmod_y velmod = st_y st
    /\ velmod_kriging_type velmod = unique (map vd_kriging_type velmodds)
    /\ velmod_summary_statistic velmod
       = unique (map vd_summary_statistic velmodds)
    /\ In "Vint"%string (map vd_variable velmodds)
    /\ In "ZE"%string (map vd_unit velmodds ++ map fst velmoddata)
    /\ In "V0"%string (map vd_variable velmodds)
    /\ Forall2 (fun u r => exists o,
         canonical_index u = Ok o
         /\ r = {| v_unit := u;
                   v_vars :=
                     map (fun v => (v, stacked_table st u v
                            (unique (map vd_kriging_type velmodds))
                            (unique (map vd_summary_statistic velmodds))))
                         (unique (map vd_variable velmodds));
                   v_k := lookup_k u velmoddata; v_ordering := o |})
         (unique (map vd_unit velmodds ++ map fst velmoddata)) rows
    /\ Forall2 (fun r r' =>
         v_unit r' = v_unit r /\ v_k r' = v_k r
         /\ v_ordering r' = v_ordering r
         /\ exists v0, get_var "V0" (ze_vars r) = Ok v0
              /\ v_vars r'
                 = set_var "V0_filled" (map (map fill_by_mean) v0) (ze_vars r))
       (sortby v_ordering rows) (velmod_rows velmod).
Proof.
  unfold convert_velmod. intros H.
  change (fun d : velmod_da =>
            ([vd_unit d; vd_variable d; vd_kriging_type d;
              vd_summary_statistic d], vd_grid d))
    with (fun d : velmod_da => (velmod_key d, vd_grid d)) in H.
  destruct (unstack _) as [st|e]; cbn [bind] in H; [|discriminate].
  match type of H with
  | bind (mapM ?f ?units) _ = _ => destruct (mapM f units) as [rows|e] eqn:Hrows
  end; cbn [bind] in H; [|discriminate].
  match type of H with
  | (if negb ?c then _ else _) = _ => destruct c eqn:Hc
  end; cbn [negb] in H; [|discriminate].
  match type of H with
  | bind (mapM ?f ?l) _ = _ => destruct (mapM f l) as [rows'|e] eqn:Hfill
  end; cbn [bind] in H; [|discriminate].
  injection H as <-. cbn.
  apply andb_prop in Hc. destruct Hc as [Hc HV0].
  apply andb_prop in Hc. destruct Hc as [HVint HZE].
  apply mem_In in HV0, HVint, HZE.
  apply (proj1 (unique_In _ _)) in HV0, HVint, HZE.
  exists st, rows. repeat (split; [reflexivity || assumption|]).
  split; [exact (mapM_canonical_index_rows _ _ _ Hrows)|].
  apply mapM_Ok_Forall2 in Hfill. apply Forall2_of_map_l in Hfill.
  eapply Forall2_impl; [|exact Hfill].
  intros r r' Hr. cbv beta in Hr.
  set (r1 := if String.eqb (v_unit r) "ZE" then _ else r) in Hr.
  assert (H1 : v_unit r1 = v_unit r /\ v_k r1 = v_k r
               /\ v_ordering r1 = v_ordering r /\ v_vars r1 = ze_vars r).
  { subst r1. unfold ze_vars. destruct (String.eqb (v_unit r) "ZE"); [|auto].
    destruct (get_var "Vint" (v_vars r)); auto. }
  destruct H1 as (Hu & Hk & Ho & Hv). rewrite Hv in Hr.
  destruct (get_var "V0" (ze_vars r)) as [v0|e] eqn:E; cbn [bind] in Hr;
    [|discriminate].
  injection Hr as <-. cbn [v_unit v_ordering v_vars v_k].
  rewrite Hu, Hk, Ho. repeat (split; [reflexivity|]).
  exists v0. auto.
Qed.

Lemma convert_dgm_structure (first : dgm_da) (rest : list dgm_da) (dgm : Dgm) :
  convert_dgm (first :: rest) = Ok dgm ->
  exists st rows,
    unstack (map (fun d => (dgm_key d, dd_grid d))
                 ((first :: rest) ++ [dgm_last first])) = Ok st
    /\ dgm_crs dgm = Some crs_UTM31
    /\ dgm_x dgm = st_x st /\ dgm_y dgm = st_y st
    /\ Forall2 (fun u r => exists o,
         canonical_index u = Ok o
         /\ r = {| d_unit := u;
                   d_vars :=
                     map (fun v => (v, slice st [u; v]))
                         (unique (map dd_var
                                      ((first :: rest) ++ [dgm_last first])));
                   d_ordering := o |})
         (unique (map dd_unit ((first :: rest) ++ [dgm_last first]))) rows
    /\ dgm_rows dgm = sortby d_ordering rows.
Proof.
  unfold convert_dgm. intros H. fold (dgm_last first) in H.
  change (fun d : dgm_da => ([dd_unit d; dd_var d], dd_grid d))
    with (fun d : dgm_da => (dgm_key d, dd_grid d)) in H.
  destruct (unstack _) as [st|e]; cbn [bind] in H; [|discriminate].
  match type of H with
  | bind (mapM ?f ?units) _ = _ => destruct (mapM f units) as [rows|e] eqn:Hrows
  end; cbn [bind] in H; [|discriminate].
  injection H as <-. cbn.
  exists st, rows. repeat (split; [reflexivity|]).
  split; [exact (mapM_canonical_index_rows _ _ _ Hrows) | reflexivity].
Qed.

Lemma convert_inv (velmoddata : list (string * float))
    (velmodds : list velmod_da) (dgmds : list dgm_da)
    (velmod : Velmod) (dgm : Dgm) :
  convert velmoddata velmodds dgmds = Ok (velmod, dgm) ->
  convert_velmod velmoddata velmodds = Ok velmod
  /\ convert_dgm dgmds = Ok dgm.
Proof.
  unfold convert. intros H.
  destruct (convert_velmod velmoddata velmodds) as [vm|e]; cbn [bind] in H;
    [|discriminate].
  destruct (convert_dgm dgmds) as [dm|e]; cbn [bind] in H; [|discriminate].
  injection H as <- <-. auto.
Qed.

Lemma get_var_keys_inv {A : Type} (h : string -> A) (name : string)
    (names : list string) (a : A) :
  get_var name (map (fun v => (v, h v)) names) = Ok a -> a = h name.
Proof.
  induction names as [|n names IH]; simpl; [discriminate|].
  destruct (String.eqb n name) eqn:E; [|exact IH].
  apply String.eqb_eq in E. subst. intros [= <-]. reflexivity.
Qed.

(** X11: the ZE substitution.  The assembled VELMOD has a row for ZE,
    whose intercept V0 is its Vint (the stacked Vint grids of ZE); for
    every other unit V0 is the stack of the V0 grids of that unit. *)
Theorem ZE_intercept_is_its_Vint :
  forall (velmoddata : list (string * float)) (velmodds : list velmod_da)
         (dgmds : list dgm_da) (velmod : Velmod) (dgm : Dgm),
    convert velmoddata velmodds dgmds = Ok (velmod, dgm) ->
    exists st,
      unstack (map (fun d => (velmod_key d, vd_grid d)) velmodds) = Ok st
      /\ (exists row, In row (velmod_rows velmod) /\ v_unit row = "ZE"%string)
      /\ forall row, In row (velmod_rows velmod) ->
           (v_unit row = "ZE"%string ->
              get_var "V0" (v_vars row)
              = Ok (stacked_table st "ZE" "Vint"
                      (velmod_kriging_type velmod)
                      (velmod_summary_statistic velmod))
              /\ get_var "Vint" (v_vars row) = get_var "V0" (v_vars row))
           /\ (v_unit row <> "ZE"%string ->
              get_var "V0" (v_vars row)
              = Ok (stacked_table st (v_unit row) "V0"
                      (velmod_kriging_type velmod)
                      (velmod_summary_statistic velmod))).
Proof.
  intros velmoddata velmodds dgmds velmod dgm H.
  destruct (convert_inv _ _ _ _ _ H) as [Hv _].
  destruct (convert_velmod_structure _ _ _ Hv)
    as (st & rows & Hst & _ & _ & _ & Hkt & Hss & HVint & HZE & HV0 & Hrows & Hfin).
  rewrite Hkt, Hss. exists st. split; [exact Hst|].
  apply unique_In in HVint, HZE, HV0.
  split.
  - destruct (Forall2_In_l _ _ _ _ Hrows HZE) as [r [Hr [o [_ Er]]]].
    assert (Hr' : In r (sortby v_ordering rows)).
    { eapply Permutation_in; [apply Permutation_sym, sortby_perm | exact Hr]. }
    destruct (Forall2_In_l _ _ _ _ Hfin Hr') as [r' [Hin [Hu _]]].
    exists r'. split; [exact Hin|]. rewrite Hu, Er. reflexivity.
  - intros row Hrow.
    destruct (Forall2_In_r _ _ _ _ Hfin Hrow)
      as [r [Hr (Hu & _ & _ & v0 & Hv0 & Hvars)]].
    apply (Permutation_in _ (sortby_perm _ _)) in Hr.
    destruct (Forall2_In_r _ _ _ _ Hrows Hr) as [u [_ [o [_ Er]]]].
    rewrite Hvars, Hu.
    rewrite !get_var_set_var_other by discriminate.
    unfold ze_vars in *. rewrite Er in *. cbn [v_unit v_vars] in *.
    split.
    + intros ->. rewrite String.eqb_refl in *.
      rewrite (get_var_keys _ "Vint" _ HVint) in *.
      rewrite get_var_set_var_same.
      rewrite get_var_set_var_other by discriminate.
      rewrite (get_var_keys _ "Vint" _ HVint). auto.
    + intros Hne. apply String.eqb_neq in Hne. rewrite Hne in *.
      apply (get_var_keys
               (fun v => stacked_table st u v
                           (unique (map vd_kriging_type velmodds))
                           (unique (map vd_summary_statistic velmodds)))
               "V0" _ HV0).
Qed.

Lemma index_of_nth_error (u : string) (l : list string) (i : nat) :
  index_of u l = Some i -> nth_error l i = Some u.
Proof.
  revert i. induction l as [|a l IH]; simpl; intros i; [discriminate|].
  destruct (String.eqb a u) eqn:E.
  - intros [= <-]. apply String.eqb_eq in E. subst. reflexivity.
  - destruct (index_of u l) as [j|]; simpl; [|discriminate].
    intros [= <-]. simpl. apply IH. reflexivity.
Qed.

Lemma canonical_index_inj (u u' : string) (o : Z) :
  canonical_index u = Ok o -> canonical_index u' = Ok o -> u = u'.
Proof.
  unfold canonical_index.
  destruct (index_of u unit_canonical_order) as [i|] eqn:E; [|discriminate].
  destruct (index_of u' unit_canonical_order) as [j|] eqn:E'; [|discriminate].
  intros [= <-] [= Hj]. apply Nat2Z.inj in Hj. subst j.
  apply index_of_nth_error in E, E'. congruence.
Qed.

Lemma sorted_le_NoDup_lt (l : list Z) :
  StronglySorted Z.le l -> NoDup l -> StronglySorted Z.lt l.
Proof.
  induction 1 as [|a l Hs IH Ha]; intros Hnd; constructor.
  - apply IH. inversion Hnd; assumption.
  - inversion Hnd as [|? ? Hnotin _]; subst.
    rewrite Forall_forall in *. intros b Hb.
    specialize (Ha b Hb). assert (a <> b) by (intros ->; contradiction). lia.
Qed.

Lemma canonical_rows_strict {R : Type} (unit_ : R -> string) (ord : R -> Z)
    (rows : list R) :
  canonically_ordered unit_ ord rows -> NoDup (map unit_ rows) ->
  StronglySorted Z.lt (map ord rows).
Proof.
  intros [Hidx Hs] Hnd. apply sorted_le_NoDup_lt; [exact Hs|].
  clear Hs. induction rows as [|a rows IH]; simpl; constructor.
  - inversion Hnd as [|? ? Hnotin _]; subst. intros Hin.
    apply in_map_iff in Hin. destruct Hin as [b [Hb Hin]].
    apply Hnotin. apply in_map_iff. exists b. split; [|exact Hin].
    apply (canonical_index_inj _ _ (ord b)).
    + apply Hidx. right. exact Hin.
    + rewrite Hb. apply Hidx. left. reflexivity.
  - apply IH.
    + intros r Hr. apply Hidx. right. exact Hr.
    + inversion Hnd; assumption.
Qed.

(** X12: the unit axes of the assembled models.  VELMOD has the units of
    its files and of the table of k values, the DGM the units of its files
    and DC; no unit is listed twice, and the ordering values along both
    axes are strictly ascending. *)
Theorem assembled_unit_axes :
  forall (velmoddata : list (string * float)) (velmodds : list velmod_da)
         (dgmds : list dgm_da) (velmod : Velmod) (dgm : Dgm),
    convert velmoddata velmodds dgmds = Ok (velmod, dgm) ->
    (forall u, In u (velmod_units velmod)
               <-> In u (map vd_unit velmodds) \/ In u (map fst velmoddata))
    /\ NoDup (velmod_units velmod)
    /\ StronglySorted Z.lt (map v_ordering (velmod_rows velmod))
    /\ (forall u, In u (dgm_units dgm)
                  <-> In u (map dd_unit dgmds) \/ u = "DC"%string)
    /\ NoDup (dgm_units dgm)
    /\ StronglySorted Z.lt (map d_ordering (dgm_rows dgm)).
Proof.
  intros velmoddata velmodds dgmds velmod dgm H.
  destruct (convert_inv _ _ _ _ _ H) as [Hv Hd].
  assert (Hvu : Permutation (velmod_units velmod)
                  (unique (map vd_unit velmodds ++ map fst velmoddata))).
  { destruct (convert_velmod_structure _ _ _ Hv)
      as (st & rows & _ & _ & _ & _ & _ & _ & _ & _ & _ & Hrows & Hfin).
    unfold velmod_units.
    rewrite <- (Forall2_map_eq v_unit v_unit (sortby v_ordering rows)
                  (velmod_rows velmod))
      by (eapply Forall2_impl; [|exact Hfin]; intros a b [Hu _];
          symmetry; exact Hu).
    eapply perm_trans; [apply Permutation_map, sortby_perm|].
    rewrite <- (Forall2_map_eq (fun u : string => u) v_unit _ rows)
      by (eapply Forall2_impl; [|exact Hrows]; intros a b [o [_ ->]];
          reflexivity).
    rewrite map_id. apply Permutation_refl. }
  assert (Hdu : exists first rest, dgmds = first :: rest
                  /\ Permutation (dgm_units dgm)
                       (unique (map dd_unit (dgmds ++ [dgm_last first])))).
  { destruct dgmds as [|first rest]; [discriminate|].
    exists first, rest. split; [reflexivity|].
    destruct (convert_dgm_structure _ _ _ Hd)
      as (st & rows & _ & _ & _ & _ & Hrows & Hsort).
    unfold dgm_units. rewrite Hsort.
    eapply perm_trans; [apply Permutation_map, sortby_perm|].
    rewrite <- (Forall2_map_eq (fun u : string => u) d_unit _ rows)
      by (eapply Forall2_impl; [|exact Hrows]; intros a b [o [_ ->]];
          reflexivity).
    rewrite map_id. apply Permutation_refl. }
  destruct Hdu as (first & rest & Hds & Hdu).
  assert (Hvn : NoDup (velmod_units velmod)).
  { eapply Permutation_NoDup; [apply Permutation_sym, Hvu|].
    apply unique_NoDup. }
  assert (Hdn : NoDup (dgm_units dgm)).
  { eapply Permutation_NoDup; [apply Permutation_sym, Hdu|].
    apply unique_NoDup. }
  split; [|split; [exact Hvn|split; [|split; [|split; [exact Hdn|]]]]].
  - intros u.
    assert (Hiff : In u (velmod_units velmod)
                   <-> In u (unique (map vd_unit velmodds
                                     ++ map fst velmoddata))).
    { split; apply Permutation_in; [|apply Permutation_sym]; exact Hvu. }
    rewrite Hiff, unique_In, in_app_iff. tauto.
  - apply (canonical_rows_strict v_unit); [|exact Hvn].
    destruct (convert_velmod_inv _ _ _ Hv) as [rows [[Hc Hs] HF]]. split.
    + intros r Hr.
      destruct (Forall2_In_r _ _ _ _ HF Hr) as [r0 [H0 [Hu [Ho _]]]].
      rewrite Hu, Ho. apply Hc, H0.
    + rewrite <- (Forall2_map_eq v_ordering v_ordering rows
                    (velmod_rows velmod)); [exact Hs|].
      eapply Forall2_impl; [|exact HF]. intros a b [_ [Ho _]].
      symmetry. exact Ho.
  - intros u.
    assert (Hiff : In u (dgm_units dgm)
                   <-> In u (unique (map dd_unit (dgmds ++ [dgm_last first])))).
    { split; apply Permutation_in; [|apply Permutation_sym]; exact Hdu. }
    rewrite Hiff, unique_In, map_app, in_app_iff. simpl. intuition.
  - apply (canonical_rows_strict d_unit); [|exact Hdn].
    apply (convert_dgm_ordered dgmds), Hd.
Qed.

Lemma table_shaped_stacked {B : Type} (f : matrix -> B) (st : stacked)
    (u v : string) (kts sss : list string) :
  table_shaped (List.length kts) (List.length sss)
    (map (map f) (stacked_table st u v kts sss)) = true.
Proof.
  unfold table_shaped, stacked_table. rewrite !length_map, Nat.eqb_refl.
  simpl. apply forallb_forall. intros row Hrow.
  apply in_map_iff in Hrow. destruct Hrow as [row0 [<- Hrow0]].
  apply in_map_iff in Hrow0. destruct Hrow0 as [kt [<- _]].
  rewrite !length_map. apply Nat.eqb_refl.
Qed.

Lemma ze_vars_V0_is_stacked (st : stacked) (u : string)
    (variables kts sss : list string) (kk : float) (o : Z)
    (v0 : list (list matrix)) :
  get_var "V0"
    (ze_vars {| v_unit := u;
                v_vars := map (fun v => (v, stacked_table st u v kts sss))
                              variables;
                v_k := kk; v_ordering := o |}) = Ok v0 ->
  exists v, v0 = stacked_table st u v kts sss.
Proof.
  unfold ze_vars. cbn [v_unit v_vars].
  destruct (String.eqb u "ZE").
  - destruct (get_var "Vint" _) as [vint|e] eqn:E.
    + apply (get_var_keys_inv (fun v => stacked_table st u v kts sss)) in E.
      rewrite get_var_set_var_same. intros [= <-]. eauto.
    + intros H.
      apply (get_var_keys_inv (fun v => stacked_table st u v kts sss)) in H.
      eauto.
  - intros H.
    apply (get_var_keys_inv (fun v => stacked_table st u v kts sss)) in H.
    eauto.
Qed.

Lemma converted_models_ready (velmoddata : list (string * float))
    (velmodds : list velmod_da) (dgmds : list dgm_da)
    (velmod : Velmod) (dgm : Dgm) :
  convert velmoddata velmodds dgmds = Ok (velmod, dgm) ->
  In "sk"%string (map vd_kriging_type velmodds) ->
  In "mean"%string (map vd_summary_statistic velmodds) ->
  In "sd"%string (map vd_summary_statistic velmodds) ->
  In "tvd"%string (map dd_var dgmds) ->
  sampler_ready dgm velmod = true.
Proof.
  intros H Hsk Hmean Hsd Htvd.
  destruct (convert_inv _ _ _ _ _ H) as [Hv Hd].
  destruct (convert_velmod_structure _ _ _ Hv)
    as (st & rows & _ & Hcv & _ & _ & Hkt & Hss & _ & _ & _ & Hrows & Hfin).
  destruct dgmds as [|first rest]; [discriminate|].
  destruct (convert_dgm_structure _ _ _ Hd)
    as (dst & drows & _ & Hcd & _ & _ & Hdrows & Hsort).
  unfold sampler_ready. rewrite Hcv, Hcd, Hkt, Hss.
  repeat (apply andb_true_intro; split).
  - apply String.eqb_refl.
  - apply mem_In, unique_In, Hsk.
  - apply mem_In, unique_In, Hmean.
  - apply mem_In, unique_In, Hsd.
  - apply forallb_forall. intros row Hrow.
    destruct (Forall2_In_r _ _ _ _ Hfin Hrow)
      as [r [Hr (_ & _ & _ & v0 & Hv0 & Hvars)]].
    apply (Permutation_in _ (sortby_perm _ _)) in Hr.
    destruct (Forall2_In_r _ _ _ _ Hrows Hr) as [u [_ [o [_ Er]]]].
    unfold velmod_row_ready. rewrite Hvars, get_var_set_var_same, Hkt, Hss.
    rewrite Er in Hv0. apply ze_vars_V0_is_stacked in Hv0.
    destruct Hv0 as [v ->]. apply table_shaped_stacked.
  - apply forallb_forall. intros row Hrow. rewrite Hsort in Hrow.
    apply (Permutation_in _ (sortby_perm _ _)) in Hrow.
    destruct (Forall2_In_r _ _ _ _ Hdrows Hrow) as [u [_ [o [_ ->]]]].
    unfold has_var. cbn [d_vars].
    rewrite (get_var_keys (fun v => slice dst [u; v]) "tvd"); [reflexivity|].
    apply unique_In. rewrite map_app. apply in_or_app. left. exact Htvd.
Qed.

(** X13: the models that [convert] assembles are accepted by the
    sampler.  When the VELMOD files hold the kriging type sk and the
    statistics mean and sd, and a DGM file holds the variable tvd, the two
    models are well-formed inputs of the sampler: it returns a dataset for
    every query without z, and for every z as soon as the two models have
    a unit in common. *)
Theorem converted_models_are_sampled :
  forall (velmoddata : list (string * float)) (velmodds : list velmod_da)
         (dgmds : list dgm_da) (velmod : Velmod) (dgm : Dgm),
    convert velmoddata velmodds dgmds = Ok (velmod, dgm) ->
    In "sk"%string (map vd_kriging_type velmodds) ->
    In "mean"%string (map vd_summary_statistic velmodds) ->
    In "sd"%string (map vd_summary_statistic velmodds) ->
    In "tvd"%string (map dd_var dgmds) ->
    sampler_ready dgm velmod = true
    /\ forall (xy : DataArray -> float) (x_crs crs : option string)
              (z : option float),
         (z = None \/ common_units dgm velmod <> []) ->
         exists r, sample_dgm_velmod xy x_crs z dgm velmod crs = Ok r.
Proof.
  intros velmoddata velmodds dgmds velmod dgm H Hsk Hmean Hsd Htvd.
  pose proof (converted_models_ready _ _ _ _ _ H Hsk Hmean Hsd Htvd) as Hready.
  split; [exact Hready|].
  intros xy x_crs crs z Hz.
  destruct (sample_fields xy x_crs crs z dgm velmod Hready Hz)
    as (vs & ds & i & jm & js & r & _ & _ & _ & _ & _ & _ & Hrun & _).
  exists r. exact Hrun.
Qed.

(** ** Errors of the assembly *)

Lemma key_eqb_eq (a b : key) : key_eqb a b = true <-> a = b.
Proof.
  revert b. induction a as [|x a IH]; destruct b as [|y b]; simpl;
    split; intros H; try discriminate; try reflexivity.
  - apply andb_prop in H. destruct H as [Hx Ha].
    apply String.eqb_eq in Hx. apply IH in Ha. congruence.
  - injection H as -> ->. rewrite String.eqb_refl. apply IH. reflexivity.
Qed.

Lemma has_dup_NoDup (keys : list key) : has_dup keys = false <-> NoDup keys.
Proof.
  induction keys as [|q keys IH]; simpl.
  - split; [constructor | reflexivity].
  - rewrite orb_false_iff, IH. split.
    + intros [He Hn]. constructor; [|exact Hn]. intros Hin.
      assert (existsb (key_eqb q) keys = true); [|congruence].
      apply existsb_exists. exists q. split; [exact Hin | apply key_eqb_refl].
    + intros Hnd. inversion Hnd as [|? ? Hnotin Hn]; subst.
      split; [|exact Hn].
      destruct (existsb (key_eqb q) keys) eqn:E; [|reflexivity].
      apply existsb_exists in E. destruct E as [q' [Hin Hq]].
      apply key_eqb_eq in Hq. subst. contradiction.
Qed.

Lemma unstack_raises_only (arrays : list (key * DataArray)) :
  (exists st, unstack arrays = Ok st) \/ unstack arrays = Raise ValueError.
Proof.
  unfold unstack. destruct arrays as [|a arrays]; [right; reflexivity|].
  destruct (has_dup (map fst (a :: arrays))); [right; reflexivity|].
  left. eexists. reflexivity.
Qed.

Lemma unstack_total (arrays : list (key * DataArray)) :
  arrays <> [] -> NoDup (map fst arrays) -> exists st, unstack arrays = Ok st.
Proof.
  intros Hne Hnd. unfold unstack. destruct arrays as [|a arrays]; [congruence|].
  apply has_dup_NoDup in Hnd. rewrite Hnd. eexists. reflexivity.
Qed.

Lemma index_of_None (u : string) (l : list string) :
  ~ In u l -> index_of u l = None.
Proof.
  induction l as [|a l IH]; simpl; [reflexivity|]. intros Hn.
  destruct (String.eqb a u) eqn:E.
  - apply String.eqb_eq in E. exfalso. apply Hn. left. exact E.
  - rewrite IH; [reflexivity|]. intros H. apply Hn. right. exact H.
Qed.

Lemma index_of_Some (u : string) (l : list string) :
  In u l -> exists i, index_of u l = Some i.
Proof.
  intros H. destruct (index_of_mem u l) as [i [Hi _]];
    [apply mem_In, H | eauto].
Qed.

Lemma mapM_raises {A B : Type} (e : exn) (f : A -> result B) (l : list A)
    (a : A) :
  (forall x, In x l -> (exists b, f x = Ok b) \/ f x = Raise e) ->
  In a l -> f a = Raise e -> mapM f l = Raise e.
Proof.
  induction l as [|x l IH]; simpl; intros Hall Hin Ha; [contradiction|].
  destruct (Hall x (or_introl eq_refl)) as [[b Hb]|Hb]; rewrite Hb;
    [|reflexivity].
  destruct Hin as [->|Hin]; [congruence|]. simpl.
  rewrite IH; [reflexivity | | exact Hin | exact Ha].
  intros y Hy. apply Hall. right. exact Hy.
Qed.

Lemma canonical_rows_unknown {R : Type} (mk : string -> Z -> R)
    (units : list string) (u : string) :
  In u units -> ~ In u unit_canonical_order ->
  mapM (fun u => o <- canonical_index u ;; Ok (mk u o)) units
  = Raise ValueError.
Proof.
  intros Hin Hn. apply (mapM_raises ValueError _ units u).
  - intros x _. unfold canonical_index.
    destruct (index_of x unit_canonical_order); simpl; eauto.
  - exact Hin.
  - unfold canonical_index. rewrite (index_of_None _ _ Hn). reflexivity.
Qed.

Lemma canonical_rows_known {R : Type} (mk : string -> Z -> R)
    (units : list string) :
  (forall u, In u units -> In u unit_canonical_order) ->
  exists rows,
    mapM (fun u => o <- canonical_index u ;; Ok (mk u o)) units = Ok rows.
Proof.
  induction units as [|u units IH]; simpl; intros H; [eauto|].
  destruct (index_of_Some u unit_canonical_order (H u (or_introl eq_refl)))
    as [i Hi].
  unfold canonical_index at 1. rewrite Hi. simpl.
  destruct IH as [rows ->]; [intros v Hv; apply H; right; exact Hv|].
  simpl. eauto.
Qed.

(** X14: a unit label that is not in the canonical vocabulary makes
    [convert] raise ValueError, whether it comes from a VELMOD file, from
    the table of k values or, once VELMOD is assembled, from a DGM file.  *)
Theorem unknown_unit_raises_ValueError :
  forall (velmoddata : list (string * float)) (velmodds : list velmod_da)
         (dgmds : list dgm_da) (u : string),
    ~ In u unit_canonical_order ->
    (In u (map vd_unit velmodds) \/ In u (map fst velmoddata) ->
     convert velmoddata velmodds dgmds = Raise ValueError)
    /\ (In u (map dd_unit dgmds) ->
        (exists velmod, convert_velmod velmoddata velmodds = Ok velmod) ->
        convert velmoddata velmodds dgmds = Raise ValueError).
Proof.
  intros velmoddata velmodds dgmds u Hn. split.
  - intros Hin. unfold convert, convert_velmod.
    destruct (unstack_raises_only
                (map (fun d => ([vd_unit d; vd_variable d; vd_kriging_type d;
                                 vd_summary_statistic d], vd_grid d)) velmodds))
      as [[st ->]| ->]; [|reflexivity].
    cbn [bind].
    rewrite (canonical_rows_unknown _ _ u); [reflexivity| |exact Hn].
    apply unique_In, in_or_app. exact Hin.
  - intros Hin [velmod Hv]. unfold convert. rewrite Hv. cbn [bind].
    destruct dgmds as [|first rest]; [contradiction|].
    unfold convert_dgm.
    destruct (unstack_raises_only
                (map (fun d => ([dd_unit d; dd_var d], dd_grid d))
                     ((first :: rest)
                      ++ [{| dd_unit := "DC"; dd_var := dd_var first;
                             dd_grid := full_like (dd_grid first) neg_inf |}])))
      as [[st ->]| ->]; [|reflexivity].
    cbn [bind].
    rewrite (canonical_rows_unknown _ _ u); [reflexivity| |exact Hn].
    apply unique_In. rewrite map_app. apply in_or_app. left. exact Hin.
Qed.

(** X15: with well-formed files and known units, [convert] raises
    KeyError when no file or k row gives the unit ZE, or when no file
    gives the variable V0 or the variable Vint. *)
Theorem missing_ZE_or_intercept_raises_KeyError :
  forall (velmoddata : list (string * float)) (velmodds : list velmod_da)
         (dgmds : list dgm_da),
    velmodds <> [] ->
    NoDup (map velmod_key velmodds) ->
    (forall u, In u (map vd_unit velmodds) \/ In u (map fst velmoddata) ->
               In u unit_canonical_order) ->
    (~ In "ZE"%string (map vd_unit velmodds ++ map fst velmoddata)
     \/ ~ In "V0"%string (map vd_variable velmodds)
     \/ ~ In "Vint"%string (map vd_variable velmodds)) ->
    convert velmoddata velmodds dgmds = Raise KeyError.
Proof.
  intros velmoddata velmodds dgmds Hne Hnd Hknown Hmiss.
  unfold convert, convert_velmod.
  destruct (unstack_total
              (map (fun d => ([vd_unit d; vd_variable d; vd_kriging_type d;
                               vd_summary_statistic d], vd_grid d)) velmodds))
    as [st ->].
  { destruct velmodds; [congruence | discriminate]. }
  { rewrite map_map. exact Hnd. }
  cbn [bind].
  match goal with
  | |- context [mapM (fun u => o <- canonical_index u ;; Ok (@?mk u o)) ?units] =>
      destruct (canonical_rows_known (fun u o => mk u o) units) as [rows Hrows]
  end.
  { intros u Hu. apply Hknown, in_app_or, unique_In, Hu. }
  cbv beta in Hrows. rewrite Hrows. cbn [bind].
  assert (Hm : forall l axis, ~ In l axis -> mem l (unique axis) = false).
  { intros l axis Hn. destruct (mem l (unique axis)) eqn:E; [|reflexivity].
    apply mem_In in E. apply (proj1 (unique_In _ _)) in E. contradiction. }
  destruct Hmiss as [H|[H|H]]; rewrite (Hm _ _ H);
    rewrite ?andb_false_r; reflexivity.
Qed.

(** X17: the order of the writes.  [convert] writes the VELMOD file
    before it reads the DGM files, and the DGM file last.  When it raises,
    either nothing was written or the VELMOD file alone was; in
    particular, with VELMOD files that assemble and no DGM file, it
    raises IndexError after the VELMOD file is written.  When it succeeds
    the two files hold the models of [convert] on the parsed files. *)
Theorem velmod_is_written_before_dgm_is_read :
  forall (velmoddata : list (string * float))
         (velmod_zmap_list dgm_zmap_list : list (string * DataArray)),
    (forall log e,
       convert_files velmoddata velmod_zmap_list dgm_zmap_list
       = (log, Raise e) ->
       log = [] \/ exists velmod, log = [VELMOD31_UTM31 velmod])
    /\ (forall velmodds velmod,
          mapM (fun zm => velmod_zmap_to_xarray (fst zm) (snd zm))
               velmod_zmap_list = Ok velmodds ->
          convert_velmod velmoddata velmodds = Ok velmod ->
          convert_files velmoddata velmod_zmap_list []
          = ([VELMOD31_UTM31 velmod], Raise IndexError))
    /\ (forall log,
          convert_files velmoddata velmod_zmap_list dgm_zmap_list
          = (log, Ok tt) ->
          exists velmodds dgmds velmod dgm,
            mapM (fun zm => velmod_zmap_to_xarray (fst zm) (snd zm))
                 velmod_zmap_list = Ok velmodds
            /\ mapM (fun zm => dgm_zmap_to_xarray (fst zm) (snd zm))
                    dgm_zmap_list = Ok dgmds
            /\ convert velmoddata velmodds dgmds = Ok (velmod, dgm)
            /\ log = [VELMOD31_UTM31 velmod; DGM5_UTM31 dgm]).
Proof.
  intros velmoddata velmod_zmap_list dgm_zmap_list. unfold convert_files.
  split; [|split].
  - intros log e.
    destruct (mapM _ velmod_zmap_list) as [velmodds|e1];
      [|intros [= <- _]; auto].
    destruct (convert_velmod velmoddata velmodds) as [velmod|e2];
      [|intros [= <- _]; auto].
    destruct (mapM _ dgm_zmap_list) as [dgmds|e3];
      [|intros [= <- _]; eauto].
    destruct (convert_dgm dgmds) as [dgm|e4]; [discriminate|].
    intros [= <- _]. eauto.
  - intros velmodds velmod Hp Hv. rewrite Hp, Hv. reflexivity.
  - intros log.
    destruct (mapM _ velmod_zmap_list) as [velmodds|e1]; [|discriminate].
    destruct (convert_velmod velmoddata velmodds) as [velmod|e2] eqn:Hv;
      [|discriminate].
    destruct (mapM _ dgm_zmap_list) as [dgmds|e3]; [|discriminate].
    destruct (convert_dgm dgmds) as [dgm|e4] eqn:Hd; [|discriminate].
    intros [= <-]. exists velmodds, dgmds, velmod, dgm.
    repeat (split; [reflexivity|]). split; [|reflexivity].
    unfold convert. rewrite Hv, Hd. reflexivity.
Qed.

(** ** Concrete instances of the further properties *)

Lemma depth_block_only_adds_fields_witness :
  sampler_ready Fixture.dgm Fixture.velmod = true
  /\ exists r0,
       sample_dgm_velmod Fixture.centre None None
                         Fixture.dgm Fixture.velmod None = Ok r0
       /\ unit_samples r0 = None /\ unit_mask r0 = None /\ Vinst r0 = None
       /\ forall z, common_units Fixture.dgm Fixture.velmod <> [] ->
            exists r u m v,
              sample_dgm_velmod Fixture.centre None (Some z)
                                Fixture.dgm Fixture.velmod None = Ok r
              /\ unit_samples r = Some u /\ unit_mask r = Some m
              /\ Vinst r = Some v
              /\ V0 r = V0 r0 /\ V0_sd r = V0_sd r0 /\ k r = k r0
              /\ depth r = depth r0 /\ ordering r = ordering r0
              /\ crs_out r = crs_out r0.
Proof.
  split; [by_evaluation|].
  apply (depth_block_only_adds_fields Fixture.centre None None
           Fixture.dgm Fixture.velmod); by_evaluation.
Defined.

Lemma output_crs_prefers_argument_witness :
  sampler_ready Fixture.dgm Fixture.velmod = true
  /\ (@None float = None \/ common_units Fixture.dgm Fixture.velmod <> [])
  /\ exists r,
       sample_dgm_velmod Fixture.centre None None
                         Fixture.dgm Fixture.velmod (Some EmptyString) = Ok r
       /\ (truthy (Some EmptyString) = true -> crs_out r = Some EmptyString)
       /\ (truthy (Some EmptyString) = false -> truthy None = true ->
           crs_out r = None)
       /\ (truthy (Some EmptyString) = false -> truthy None = false ->
           crs_out r = velmod_crs Fixture.velmod
           /\ crs_out r = dgm_crs Fixture.dgm).
Proof.
  split; [by_evaluation|]. split; [left; reflexivity|].
  apply (output_crs_prefers_argument Fixture.centre
           None (Some EmptyString) None
           Fixture.dgm Fixture.velmod); [by_evaluation | left; reflexivity].
Defined.

(** The three cases of the CRS at the centre of the small model, whose two
    models carry epsg:23031. *)
Example output_crs_cases :
  (exists r, sample_dgm_velmod Fixture.centre (Some "epsg:28992"%string) None
               Fixture.dgm Fixture.velmod (Some "epsg:4326"%string) = Ok r
             /\ crs_out r = Some "epsg:4326"%string)
  /\ (exists r, sample_dgm_velmod Fixture.centre (Some "epsg:28992"%string) None
                  Fixture.dgm Fixture.velmod None = Ok r
                /\ crs_out r = Some "epsg:28992"%string)
  /\ (exists r, sample_dgm_velmod Fixture.centre None None
                  Fixture.dgm Fixture.velmod None = Ok r
                /\ crs_out r = Some "epsg:23031"%string).
Proof.
  repeat split; eexists; (split; [by_evaluation|]); reflexivity.
Qed.

Lemma missing_statistic_label_raises_KeyError_witness :
  dgm_crs Fixture.dgm = velmod_crs Cases.velmod_no_sd
  /\ (~ In "sk"%string (velmod_kriging_type Cases.velmod_no_sd)
      \/ ~ In "mean"%string (velmod_summary_statistic Cases.velmod_no_sd)
      \/ ~ In "sd"%string (velmod_summary_statistic Cases.velmod_no_sd))
  /\ sample_dgm_velmod Fixture.centre None None Fixture.dgm
                       Cases.velmod_no_sd None = Raise KeyError.
Proof.
  assert (H : ~ In "sd"%string (velmod_summary_statistic Cases.velmod_no_sd)).
  { simpl. intros [E|[]]. discriminate E. }
  split; [by_evaluation|]. split; [right; right; exact H|].
  apply (missing_statistic_label_raises_KeyError Fixture.centre None None None
           Fixture.dgm Cases.velmod_no_sd);
    [by_evaluation | right; right; exact H].
Defined.

Lemma unit_mask_selects_one_common_unit_witness :
  sampler_ready Fixture.dgm Fixture.velmod = true
  /\ common_units Fixture.dgm Fixture.velmod <> []
  /\ exists r u m,
       sample_dgm_velmod Fixture.centre None (Some (of_Z (-150)))
                         Fixture.dgm Fixture.velmod None = Ok r
       /\ unit_samples r = Some u /\ unit_mask r = Some m
       /\ In u (dgm_units Fixture.dgm) /\ In u (velmod_units Fixture.velmod)
       /\ map fst m = map fst (V0 r)
       /\ exists pre post,
            m = pre ++ (u, true) :: post
            /\ Forall (fun e => snd e = false) (pre ++ post).
Proof.
  split; [by_evaluation|]. split; [by_evaluation|].
  apply (unit_mask_selects_one_common_unit Fixture.centre None None
           (of_Z (-150)) Fixture.dgm Fixture.velmod); by_evaluation.
Defined.

Lemma active_unit_is_monotone_in_depth_witness :
  sampler_ready Fixture.dgm Fixture.velmod = true
  /\ common_units Fixture.dgm Fixture.velmod <> []
  /\ leb (of_Z (-250)) (of_Z (-150)) = true
  /\ exists r r' u u',
       sample_dgm_velmod Fixture.centre None (Some (of_Z (-150)))
                         Fixture.dgm Fixture.velmod None = Ok r
       /\ sample_dgm_velmod Fixture.centre None (Some (of_Z (-250)))
                            Fixture.dgm Fixture.velmod None = Ok r'
       /\ depth r' = depth r /\ ordering r' = ordering r
       /\ unit_samples r = Some u /\ unit_samples r' = Some u'
       /\ ((exists ut, In ut (depth r') /\ ltb (snd ut) (of_Z (-250)) = true) ->
           exists o o',
             at_unit u (ordering r) = Some o
             /\ at_unit u' (ordering r') = Some o'
             /\ o <= o').
Proof.
  split; [by_evaluation|]. split; [by_evaluation|]. split; [by_evaluation|].
  apply (active_unit_is_monotone_in_depth Fixture.centre None None
           (of_Z (-150)) (of_Z (-250)) Fixture.dgm Fixture.velmod);
    by_evaluation.
Defined.


Lemma ZE_intercept_is_its_Vint_witness :
  convert Fixture.velmoddata Fixture.velmodds Fixture.dgmds
  = Ok (Fixture.velmod, Fixture.dgm)
  /\ exists st,
       unstack (map (fun d => (velmod_key d, vd_grid d)) Fixture.velmodds)
       = Ok st
       /\ (exists row, In row (velmod_rows Fixture.velmod)
                       /\ v_unit row = "ZE"%string)
       /\ forall row, In row (velmod_rows Fixture.velmod) ->
            (v_unit row = "ZE"%string ->
               get_var "V0" (v_vars row)
               = Ok (stacked_table st "ZE" "Vint"
                       (velmod_kriging_type Fixture.velmod)
                       (velmod_summary_statistic Fixture.velmod))
               /\ get_var "Vint" (v_vars row) = get_var "V0" (v_vars row))
            /\ (v_unit row <> "ZE"%string ->
               get_var "V0" (v_vars row)
               = Ok (stacked_table st (v_unit row) "V0"
                       (velmod_kriging_type Fixture.velmod)
                       (velmod_summary_statistic Fixture.velmod))).
Proof.
  split; [by_evaluation|].
  apply (ZE_intercept_is_its_Vint Fixture.velmoddata Fixture.velmodds
           Fixture.dgmds Fixture.velmod Fixture.dgm).
  by_evaluation.
Defined.

Lemma assembled_unit_axes_witness :
  convert Fixture.velmoddata Fixture.velmodds Fixture.dgmds
  = Ok (Fixture.velmod, Fixture.dgm)
  /\ (forall u, In u (velmod_units Fixture.velmod)
                <-> In u (map vd_unit Fixture.velmodds)
                    \/ In u (map fst Fixture.velmoddata))
  /\ NoDup (velmod_units Fixture.velmod)
  /\ StronglySorted Z.lt (map v_ordering (velmod_rows Fixture.velmod))
  /\ (forall u, In u (dgm_units Fixture.dgm)
                <-> In u (map dd_unit Fixture.dgmds) \/ u = "DC"%string)
  /\ NoDup (dgm_units Fixture.dgm)
  /\ StronglySorted Z.lt (map d_ordering (dgm_rows Fixture.dgm)).
Proof.
  split; [by_evaluation|].
  apply (assembled_unit_axes Fixture.velmoddata Fixture.velmodds
           Fixture.dgmds Fixture.velmod Fixture.dgm).
  by_evaluation.
Defined.

Lemma converted_models_are_sampled_witness :
  convert Fixture.velmoddata Fixture.velmodds Fixture.dgmds
  = Ok (Fixture.velmod, Fixture.dgm)
  /\ In "sk"%string (map vd_kriging_type Fixture.velmodds)
  /\ In "mean"%string (map vd_summary_statistic Fixture.velmodds)
  /\ In "sd"%string (map vd_summary_statistic Fixture.velmodds)
  /\ In "tvd"%string (map dd_var Fixture.dgmds)
  /\ sampler_ready Fixture.dgm Fixture.velmod = true
  /\ forall (xy : DataArray -> float) (x_crs crs : option string)
            (z : option float),
       (z = None \/ common_units Fixture.dgm Fixture.velmod <> []) ->
       exists r,
         sample_dgm_velmod xy x_crs z Fixture.dgm Fixture.velmod crs = Ok r.
Proof.
  split; [by_evaluation|].
  split; [simpl; tauto|]. split; [simpl; tauto|].
  split; [simpl; tauto|]. split; [simpl; tauto|].
  apply (converted_models_are_sampled Fixture.velmoddata Fixture.velmodds
           Fixture.dgmds Fixture.velmod Fixture.dgm);
    [by_evaluation | simpl; tauto ..].
Defined.

Lemma unknown_unit_raises_ValueError_witness :
  ~ In "XX"%string unit_canonical_order
  /\ (In "XX"%string (map vd_unit Fixture.velmodds)
      \/ In "XX"%string (map fst (("XX"%string, nan) :: Fixture.velmoddata)) ->
      convert (("XX"%string, nan) :: Fixture.velmoddata) Fixture.velmodds
              Fixture.dgmds = Raise ValueError)
  /\ (In "XX"%string (map dd_unit Fixture.dgmds) ->
      (exists velmod,
         convert_velmod (("XX"%string, nan) :: Fixture.velmoddata)
                        Fixture.velmodds = Ok velmod) ->
      convert (("XX"%string, nan) :: Fixture.velmoddata) Fixture.velmodds
              Fixture.dgmds = Raise ValueError).
Proof.
  assert (H : ~ In "XX"%string unit_canonical_order).
  { unfold unit_canonical_order. simpl.
    intros Hin. repeat (destruct Hin as [E|Hin]; [discriminate E|]).
    exact Hin. }
  split; [exact H|].
  apply (unknown_unit_raises_ValueError
           (("XX"%string, nan) :: Fixture.velmoddata)
           Fixture.velmodds Fixture.dgmds "XX" H).
Defined.

Lemma missing_ZE_or_intercept_raises_KeyError_witness :
  Cases.velmodds_N <> []
  /\ NoDup (map velmod_key Cases.velmodds_N)
  /\ (forall u, In u (map vd_unit Cases.velmodds_N)
                \/ In u (map fst Cases.velmoddata_N) ->
                In u unit_canonical_order)
  /\ (~ In "ZE"%string (map vd_unit Cases.velmodds_N
                        ++ map fst Cases.velmoddata_N)
      \/ ~ In "V0"%string (map vd_variable Cases.velmodds_N)
      \/ ~ In "Vint"%string (map vd_variable Cases.velmodds_N))
  /\ convert Cases.velmoddata_N Cases.velmodds_N Fixture.dgmds
     = Raise KeyError.
Proof.
  assert (H1 : Cases.velmodds_N <> []) by discriminate.
  assert (H2 : NoDup (map velmod_key Cases.velmodds_N)).
  { simpl. constructor; [intros [] | constructor]. }
  assert (H3 : forall u, In u (map vd_unit Cases.velmodds_N)
                         \/ In u (map fst Cases.velmoddata_N) ->
                         In u unit_canonical_order).
  { intros u [[<-|[]]|[<-|[]]]; left; reflexivity. }
  assert (H4 : ~ In "ZE"%string (map vd_unit Cases.velmodds_N
                                 ++ map fst Cases.velmoddata_N)).
  { simpl. intros [E|[E|[]]]; discriminate E. }
  split; [exact H1|]. split; [exact H2|]. split; [exact H3|].
  split; [left; exact H4|].
  apply (missing_ZE_or_intercept_raises_KeyError Cases.velmoddata_N
           Cases.velmodds_N Fixture.dgmds H1 H2 H3).
  left. exact H4.
Defined.

(** * The sample and the assembled models over the input rows *)

(** ** The sample over the rows of the two models *)

Lemma insert_by_map {A B : Type} (f : A -> B) (key : B -> Z) (a : A)
    (l : list A) :
  insert_by key (f a) (map f l) = map f (insert_by (fun x => key (f x)) a l).
Proof.
  induction l as [|b l IH]; simpl; [reflexivity|].
  destruct (key (f a) <=? key (f b)); [reflexivity|].
  simpl. rewrite IH. reflexivity.
Qed.

Lemma sortby_map {A B : Type} (f : A -> B) (key : B -> Z) (l : list A) :
  sortby key (map f l) = map f (sortby (fun x => key (f x)) l).
Proof.
  unfold sortby. induction l as [|a l IH]; simpl; [reflexivity|].
  rewrite IH. apply insert_by_map.
Qed.

Lemma sel_rows_of {R : Type} (label : R -> string) (rows : list R)
    (labels : list string) (rs : list R) :
  sel label rows labels = Ok rs -> rows_of label rows labels rs.
Proof.
  unfold sel, rows_of, row_of. intros H. apply mapM_Ok_Forall2 in H.
  eapply Forall2_impl; [|exact H]. intros u r Hr. cbv beta in Hr.
  destruct (find _ rows) as [r'|]; [|discriminate]. congruence.
Qed.

Lemma row_of_In {R : Type} (label : R -> string) (rows : list R)
    (u : string) (r : R) :
  row_of label rows u = Some r -> In r rows /\ label r = u.
Proof.
  unfold row_of. intros H. apply find_some in H.
  destruct H as [Hin He]. apply String.eqb_eq in He. auto.
Qed.

Lemma rows_of_In {R : Type} (label : R -> string) (rows : list R)
    (labels : list string) (rs : list R) (r : R) :
  rows_of label rows labels rs -> In r rs ->
  row_of label rows (label r) = Some r /\ In (label r) labels /\ In r rows.
Proof.
  intros H Hin. destruct (Forall2_In_r _ _ _ _ H Hin) as [u [Hu Hr]].
  destruct (row_of_In _ _ _ _ Hr) as [Hrows Hl]. subst u. auto.
Qed.

Lemma rows_of_labels {R : Type} (label : R -> string) (rows : list R)
    (labels : list string) (rs : list R) :
  rows_of label rows labels rs -> map label rs = labels.
Proof.
  induction 1 as [|u r labels rs Hr _ IH]; simpl; [reflexivity|].
  destruct (row_of_In _ _ _ _ Hr) as [_ ->]. rewrite IH. reflexivity.
Qed.

Lemma slice_at_table_get (t : list (list matrix)) (i j : nat) (m : matrix) :
  slice_at t i j = Some m -> table_get [] t i j = m.
Proof.
  unfold slice_at, table_get. intros H.
  destruct (nth_error t i) as [row|] eqn:E; [|discriminate].
  unfold matrix in *. rewrite (nth_error_nth t i [] E). apply nth_error_nth, H.
Qed.

Lemma var_or_map_vars {A B : Type} (f : A -> B) (d : A) (d' : B)
    (name : string) (vars : list (string * A)) :
  has_var name vars = true ->
  var_or d' name (map_vars f vars) = f (var_or d name vars).
Proof.
  unfold has_var, var_or. rewrite get_var_map_vars.
  destruct (get_var name vars); [reflexivity | discriminate].
Qed.

Section OverRows.

Variable xy : DataArray -> float.
Variable dgm : Dgm.
Variable velmod : Velmod.
Hypothesis Hready : sampler_ready dgm velmod = true.

Lemma velmod_itp_of_rows (vs : list velmod_row) :
  velmod_itp_of xy velmod vs
  = map (interp_velmod xy velmod) (sortby v_ordering vs).
Proof. exact (sortby_map (interp_velmod xy velmod) vi_ordering vs). Qed.

Lemma dgm_itp_of_rows (ds : list dgm_row) :
  dgm_itp_of xy dgm ds = map (interp_dgm xy dgm) (sortby d_ordering ds).
Proof. exact (sortby_map (interp_dgm xy dgm) di_ordering ds). Qed.

Lemma tvd_of_row (d : dgm_row) :
  has_var "tvd" (d_vars d) = true ->
  tvd_of (interp_dgm xy dgm d) = xy (dgm_field dgm (tvd_field d)).
Proof.
  intros H.
  exact (var_or_map_vars (fun m => xy (dgm_field dgm m)) [] nan "tvd"
           (d_vars d) H).
Qed.

Lemma filled_at_row (i j : nat) (row : velmod_row) :
  velmod_row_ready velmod row = true ->
  (i < List.length (velmod_kriging_type velmod))%nat ->
  (j < List.length (velmod_summary_statistic velmod))%nat ->
  exists filled m,
    get_var "V0_filled" (v_vars row) = Ok filled
    /\ slice_at filled i j = Some m
    /\ filled_slice i j row = m
    /\ filled_at i j (interp_velmod xy velmod row)
       = xy (velmod_field velmod m).
Proof.
  intros Hr Hi Hj. unfold velmod_row_ready in Hr.
  destruct (get_var "V0_filled" (v_vars row)) as [filled|] eqn:E;
    [|discriminate].
  destruct (table_get_map (fun m => xy (velmod_field velmod m)) nan
              filled _ _ i j Hr Hi Hj) as [m [Hm Hget]].
  exists filled, m. split; [reflexivity|]. split; [exact Hm|]. split.
  - unfold filled_slice, var_or. rewrite E. apply slice_at_table_get, Hm.
  - unfold filled_at, var_or. cbn [interp_velmod vi_vars].
    rewrite get_var_map_vars, E. exact Hget.
Qed.

(** The fields of a sample, over the rows of the two models: the rows
    that [sel] takes for the common units, in the order of [sortby]. *)
Lemma sample_over_rows :
  exists vs ds i jm js,
    rows_of v_unit (velmod_rows velmod) (common_units dgm velmod) vs
    /\ rows_of d_unit (dgm_rows dgm) (common_units dgm velmod) ds
    /\ index_of "sk" (velmod_kriging_type velmod) = Some i
    /\ index_of "mean" (velmod_summary_statistic velmod) = Some jm
    /\ index_of "sd" (velmod_summary_statistic velmod) = Some js
    /\ (forall row, In row vs ->
          exists filled m ms,
            get_var "V0_filled" (v_vars row) = Ok filled
            /\ slice_at filled i jm = Some m
            /\ slice_at filled i js = Some ms
            /\ filled_slice i jm row = m /\ filled_slice i js row = ms)
    /\ forall x_crs z crs r,
         sample_dgm_velmod xy x_crs z dgm velmod crs = Ok r ->
         V0 r = map (fun row =>
                       (v_unit row,
                        xy (velmod_field velmod (filled_slice i jm row))))
                    (sortby v_ordering vs)
         /\ V0_sd r = map (fun row =>
                             (v_unit row,
                              xy (velmod_field velmod (filled_slice i js row))))
                         (sortby v_ordering vs)
         /\ k r = map (fun row => (v_unit row, v_k row)) (sortby v_ordering vs)
         /\ depth r = map (fun d =>
                             (d_unit d, xy (dgm_field dgm (tvd_field d))))
                         (sortby d_ordering ds)
         /\ match z with
            | Some z =>
                exists u,
                  idxmax (map (fun ut => (fst ut, ltb (snd ut) z)) (depth r))
                  = Ok u
                  /\ unit_samples r = Some u
            | None => unit_samples r = None
            end.
Proof.
  destruct (sample_run_sel xy dgm velmod Hready)
    as (vs & ds & i & jm & js & Hvs & Hds & _ & Hvi & _ & Hdi
        & Hi & Hjm & Hjs & Hrun).
  destruct (ready_parts dgm velmod Hready)
    as (_ & Hsk & Hmean & Hsd & Hv & Hd).
  assert (Hilt : (i < List.length (velmod_kriging_type velmod))%nat).
  { destruct (index_of_mem _ _ Hsk) as [i' [Hi' Hlt]]. congruence. }
  assert (Hjmlt : (jm < List.length (velmod_summary_statistic velmod))%nat).
  { destruct (index_of_mem _ _ Hmean) as [j' [Hj' Hlt]]. congruence. }
  assert (Hjslt : (js < List.length (velmod_summary_statistic velmod))%nat).
  { destruct (index_of_mem _ _ Hsd) as [j' [Hj' Hlt]]. congruence. }
  exists vs, ds, i, jm, js.
  split; [apply sel_rows_of, Hvs|]. split; [apply sel_rows_of, Hds|].
  repeat (split; [assumption|]). split.
  { intros row Hrow.
    destruct (filled_at_row i jm row (Hv row (Hvi row Hrow)) Hilt Hjmlt)
      as (filled & m & Hf & Hm & Hs & _).
    destruct (filled_at_row i js row (Hv row (Hvi row Hrow)) Hilt Hjslt)
      as (filled' & ms & Hf' & Hms & Hs' & _).
    exists filled, m, ms. rewrite Hf in Hf'. injection Hf' as <-. auto. }
  assert (HV : forall j, (j < List.length (velmod_summary_statistic velmod))%nat ->
            map (fun a => (vi_unit a, filled_at i j a))
                (velmod_itp_of xy velmod vs)
            = map (fun row =>
                     (v_unit row,
                      xy (velmod_field velmod (filled_slice i j row))))
                  (sortby v_ordering vs)).
  { intros j Hj. rewrite velmod_itp_of_rows, map_map.
    apply map_ext_in. intros row Hrow.
    apply (Permutation_in _ (sortby_perm _ _)) in Hrow.
    destruct (filled_at_row i j row (Hv row (Hvi row Hrow)) Hilt Hj)
      as (filled & m & _ & _ & Hs & Hat).
    cbn [interp_velmod vi_unit]. rewrite Hs. f_equal. exact Hat. }
  assert (HD : map (fun a => (di_unit a, tvd_of a)) (dgm_itp_of xy dgm ds)
               = map (fun d => (d_unit d, xy (dgm_field dgm (tvd_field d))))
                     (sortby d_ordering ds)).
  { rewrite dgm_itp_of_rows, map_map. apply map_ext_in. intros d Hin.
    apply (Permutation_in _ (sortby_perm _ _)) in Hin.
    cbn [interp_dgm di_unit]. f_equal. apply tvd_of_row, Hd, Hdi, Hin. }
  assert (HK : map (fun a => (vi_unit a, vi_k a)) (velmod_itp_of xy velmod vs)
               = map (fun row => (v_unit row, v_k row)) (sortby v_ordering vs)).
  { rewrite velmod_itp_of_rows, map_map. reflexivity. }
  intros x_crs z crs r Hr. rewrite (Hrun x_crs z crs) in Hr. cbv zeta in Hr.
  destruct z as [z|].
  - destruct (idxmax _) as [u|e] eqn:Eu; cbn [bind] in Hr; [|discriminate].
    injection Hr as <-. cbn [V0 V0_sd k depth unit_samples].
    rewrite (HV jm Hjmlt), (HV js Hjslt), HK, HD.
    repeat (split; [reflexivity|]). exists u. rewrite <- HD. auto.
  - injection Hr as <-. cbn [V0 V0_sd k depth unit_samples].
    rewrite (HV jm Hjmlt), (HV js Hjslt), HK, HD.
    repeat (split; [reflexivity|]). reflexivity.
Qed.

End OverRows.

Lemma first_true_split (z : float) (l : list (string * float)) (u : string) :
  first_true (map (fun ut => (fst ut, ltb (snd ut) z)) l) = Some u ->
  exists pre t post,
    l = pre ++ (u, t) :: post
    /\ Forall (fun ut => ltb (snd ut) z = false) pre
    /\ ltb t z = true.
Proof.
  induction l as [|[u' t'] l IH]; cbn [map first_true fst snd];
    [discriminate|].
  destruct (ltb t' z) eqn:E.
  - intros [= ->]. exists [], t', l. auto.
  - intros H. destruct (IH H) as (pre & t & post & -> & Hpre & Ht).
    exists ((u', t') :: pre), t, post.
    split; [reflexivity|]. split; [constructor; assumption | exact Ht].
Qed.

Lemma first_true_none_inv (z : float) (l : list (string * float)) :
  first_true (map (fun ut => (fst ut, ltb (snd ut) z)) l) = None ->
  Forall (fun ut => ltb (snd ut) z = false) l.
Proof.
  induction l as [|[u' t'] l IH]; cbn [map first_true fst snd];
    [constructor|].
  destruct (ltb t' z) eqn:E; [discriminate|].
  intros H. constructor; [exact E | apply IH, H].
Qed.

(** What [idxmax] returns on the scan of the bases: the first unit whose
    base lies below [z], and the first unit of the axis when there is
    none. *)
Lemma idxmax_scan (z : float) (l : list (string * float)) (u : string) :
  idxmax (map (fun ut => (fst ut, ltb (snd ut) z)) l) = Ok u ->
  exists pre t post,
    l = pre ++ (u, t) :: post
    /\ Forall (fun ut => ltb (snd ut) z = false) pre
    /\ (ltb t z = true
        \/ pre = [] /\ Forall (fun ut => ltb (snd ut) z = false) post).
Proof.
  intros H.
  destruct (first_true (map (fun ut => (fst ut, ltb (snd ut) z)) l))
    as [u'|] eqn:E.
  - rewrite (idxmax_first_true _ _ E) in H. injection H as ->.
    destruct (first_true_split z l u E) as (pre & t & post & Hl & Hpre & Ht).
    exists pre, t, post. auto.
  - apply first_true_none_inv in E.
    destruct l as [|[u0 t0] l]; [discriminate|].
    rewrite (idxmax_all_false z u0 t0 l E) in H. injection H as ->.
    exists [], t0, l. split; [reflexivity|]. split; [constructor|].
    right. split; [reflexivity|]. inversion E; assumption.
Qed.

Lemma at_unit_rows {R : Type} (label : R -> string) (ord : R -> Z)
    (rows : list R) (labels : list string) (rs : list R) (u : string) :
  rows_of label rows labels rs -> In u labels ->
  exists r,
    row_of label rows u = Some r /\ In r rs
    /\ forall (B : Type) (h : R -> B),
         at_unit u (map (fun a => (label a, h a)) (sortby ord rs))
         = Some (h r).
Proof.
  intros Hrs Hu.
  assert (Hin : In u (map label (sortby ord rs))).
  { eapply Permutation_in;
      [apply Permutation_map, Permutation_sym, sortby_perm|].
    rewrite (rows_of_labels _ _ _ _ Hrs). exact Hu. }
  destruct (at_unit_map label (sortby ord rs) u Hin) as [r [Hr [Hl Hat]]].
  apply (Permutation_in _ (sortby_perm _ _)) in Hr.
  destruct (rows_of_In _ _ _ _ r Hrs Hr) as [Hrow _].
  rewrite Hl in Hrow. exists r. auto.
Qed.

(** C2: wherever the V0 and k of the active unit are valid numbers, the
    combined instantaneous velocity of the sample equals V0 - k*z of that
    unit.  The active unit is the one that the depth scan selects on the
    base depths interpolated from the DGM: the first common unit, by
    ordering, whose base lies below z, or the first common unit when there
    is none.  Its V0 is the interpolation of the gap-filled intercept of
    that unit in VELMOD (simple kriging, mean), its k the gradient of that
    unit in VELMOD.  The velocity and the law compare equal, and they are
    the same float unless the law evaluates to the negative zero (the
    masked sum then returns the positive zero). *)
Theorem Vinst_equals_linear_law :
  forall (xy : DataArray -> float) (x_crs crs : option string) (z : float)
         (dgm : Dgm) (velmod : Velmod),
    sampler_ready dgm velmod = true ->
    common_units dgm velmod <> [] ->
    is_finite z = true ->
    exists r ds pre u t post vrow filled m i jm v,
      sample_dgm_velmod xy x_crs (Some z) dgm velmod crs = Ok r
      /\ rows_of d_unit (dgm_rows dgm) (common_units dgm velmod) ds
      /\ depth r
         = map (fun d => (d_unit d, xy (dgm_field dgm (tvd_field d))))
               (sortby d_ordering ds)
      /\ depth r = pre ++ (u, t) :: post
      /\ Forall (fun ut => ltb (snd ut) z = false) pre
      /\ (ltb t z = true
          \/ pre = [] /\ Forall (fun ut => ltb (snd ut) z = false) post)
      /\ unit_samples r = Some u
      /\ row_of v_unit (velmod_rows velmod) u = Some vrow
      /\ get_var "V0_filled" (v_vars vrow) = Ok filled
      /\ index_of "sk" (velmod_kriging_type velmod) = Some i
      /\ index_of "mean" (velmod_summary_statistic velmod) = Some jm
      /\ slice_at filled i jm = Some m
      /\ at_unit u (V0 r) = Some (xy (velmod_field velmod m))
      /\ at_unit u (k r) = Some (v_k vrow)
      /\ Vinst r = Some v
      /\ (is_finite (xy (velmod_field velmod m)) = true ->
          is_finite (v_k vrow) = true ->
          eqb v (sub (xy (velmod_field velmod m)) (mul (v_k vrow) z)) = true
          /\ (sub (xy (velmod_field velmod m)) (mul (v_k vrow) z)
              <> S754_zero true ->
              v = sub (xy (velmod_field velmod m)) (mul (v_k vrow) z))).
Proof.
  intros xy x_crs crs z dgm velmod Hready Hne Hz.
  destruct (Vinst_of_active xy x_crs crs z dgm velmod Hready Hne)
    as (r & u & v0 & kk & Hrun & Hu & Hv0 & Hk & _ & Hv).
  destruct (sample_over_rows xy dgm velmod Hready)
    as (vs & ds & i & jm & js & Hvs & Hds & Hi & Hjm & _ & Hsl & Hover).
  destruct (Hover x_crs (Some z) crs r Hrun)
    as (HV0 & _ & HK & HD & u' & Hidx & Hu').
  rewrite Hu in Hu'. injection Hu' as <-.
  destruct (idxmax_scan z (depth r) u Hidx)
    as (pre & t & post & Hsplit & Hpre & Hcase).
  assert (Hcommon : In u (common_units dgm velmod)).
  { rewrite <- (rows_of_labels _ _ _ _ Hds).
    eapply Permutation_in; [apply Permutation_map, sortby_perm|].
    assert (Hin : In u (map fst (depth r))).
    { rewrite Hsplit, map_app. apply in_or_app. right. left. reflexivity. }
    rewrite HD, map_map in Hin. exact Hin. }
  destruct (at_unit_rows v_unit v_ordering _ _ vs u Hvs Hcommon)
    as (vrow & Hrow & Hin & Hat).
  destruct (Hsl vrow Hin) as (filled & m & ms & Hf & Hm & _ & Hs & _).
  rewrite HV0, (Hat _ (fun row =>
             xy (velmod_field velmod (filled_slice i jm row)))), Hs in Hv0.
  rewrite HK, (Hat _ v_k) in Hk.
  injection Hv0 as <-. injection Hk as <-.
  exists r, ds, pre, u, t, post, vrow, filled, m, i, jm,
    (add zero (nan_to_zero (sub (xy (velmod_field velmod m))
                                (mul (v_k vrow) z)))).
  split; [exact Hrun|]. split; [exact Hds|]. split; [exact HD|].
  split; [exact Hsplit|]. split; [exact Hpre|]. split; [exact Hcase|].
  split; [exact Hu|]. split; [exact Hrow|]. split; [exact Hf|].
  split; [exact Hi|]. split; [exact Hjm|]. split; [exact Hm|].
  split; [rewrite HV0, (Hat _ (fun row =>
             xy (velmod_field velmod (filled_slice i jm row)))), Hs;
          reflexivity|].
  split; [rewrite HK; apply (Hat _ v_k)|].
  split; [exact Hv|].
  intros F0 Fk.
  pose proof (linear_law_not_nan _ _ z F0 Fk Hz) as Hn.
  unfold nan_to_zero. rewrite Hn. split.
  - apply add_zero_l_eqb, Hn.
  - apply add_zero_l_exact.
Qed.

(** ** The mean of the valid cells *)

Lemma same_number_add_zero (a a' : float) :
  same_number a a' -> same_number (add a zero) a'.
Proof.
  intros [<-|[Ha Ha']].
  - destruct a as [s| | |s m e]; try (left; reflexivity).
    right. destruct s; split; reflexivity.
  - destruct a as [s| | |]; try discriminate.
    right. destruct s; split; (reflexivity || exact Ha').
Qed.

Lemma same_number_add (a a' x : float) :
  same_number a a' -> same_number (add a x) (add a' x).
Proof.
  intros [<-|[Ha Ha']]; [left; reflexivity|].
  destruct a as [s| | |]; try discriminate.
  destruct a' as [s'| | |]; try discriminate.
  destruct x as [sx| sx | |sx m e].
  - right. destruct s, s', sx; split; reflexivity.
  - left. reflexivity.
  - left. reflexivity.
  - left. reflexivity.
Qed.

Lemma same_number_div (a a' c : float) :
  same_number a a' -> same_number (div a c) (div a' c).
Proof.
  intros [<-|[Ha Ha']]; [left; reflexivity|].
  destruct a as [s| | |]; try discriminate.
  destruct a' as [s'| | |]; try discriminate.
  destruct c as [sc| sc | |sc m e].
  - left. reflexivity.
  - right. split; reflexivity.
  - left. reflexivity.
  - right. split; reflexivity.
Qed.

Lemma nansum_valid_cells (l : list float) (a a' : float) :
  same_number a a' ->
  same_number (fold_left add (map nan_to_zero l) a)
              (fold_left add (valid_cells l) a').
Proof.
  revert a a'. induction l as [|x l IH]; intros a a' H; [exact H|].
  cbn [map fold_left valid_cells filter].
  destruct (is_nan x) eqn:E; cbn [negb].
  - destruct x; try discriminate. apply IH, same_number_add_zero, H.
  - replace (nan_to_zero x) with x by (destruct x; (reflexivity || discriminate)).
    cbn [fold_left]. apply IH, same_number_add, H.
Qed.

Lemma nanmean_is_mean_of_valid (l : list float) :
  same_number (nanmean l) (mean_of_valid l).
Proof.
  unfold nanmean, mean_of_valid, nansum, count_valid, valid_cells.
  apply same_number_div, nansum_valid_cells. left. reflexivity.
Qed.

Lemma digits2_pos_iter (p k : positive) :
  digits2_pos (Pos.iter xO p k) = (digits2_pos p + k)%positive.
Proof.
  induction k as [|k IH] using Pos.peano_ind.
  - simpl. lia.
  - rewrite Pos.iter_succ. simpl. rewrite IH. lia.
Qed.

Lemma fexp_53 (e : Z) : -1074 <= e -> fexp prec emax (53 + e) = e.
Proof. intros H. unfold fexp, emin, prec, emax. lia. Qed.

Lemma binary_round_aux_exact (s : bool) (m : positive) (e : Z) :
  Z.pos (digits2_pos m) = 53 -> -1074 <= e <= 971 ->
  binary_round_aux prec emax s (Z.pos m) e loc_Exact = S754_finite s m e.
Proof.
  intros Hd He. unfold binary_round_aux, shr_fexp.
  cbn [Zdigits2 shr_record_of_loc]. rewrite Hd, (fexp_53 e) by lia.
  rewrite Z.sub_diag. cbn [shr shr_m loc_of_shr_record round_nearest_even Zdigits2 shr_record_of_loc].
  rewrite Hd, (fexp_53 e) by lia. rewrite Z.sub_diag. cbn [shr shr_m].
  replace (e <=? emax - prec) with true; [reflexivity|].
  symmetry. apply Z.leb_le. unfold emax, prec. lia.
Qed.

Lemma digits2_pos_lower (p : positive) :
  2 ^ (Z.pos (digits2_pos p) - 1) <= Z.pos p.
Proof.
  induction p as [p IH|p IH|]; cbn [digits2_pos].
  - rewrite Pos2Z.inj_succ.
    replace (Z.succ (Z.pos (digits2_pos p)) - 1)
      with (Z.succ (Z.pos (digits2_pos p) - 1)) by lia.
    rewrite Z.pow_succ_r by lia. lia.
  - rewrite Pos2Z.inj_succ.
    replace (Z.succ (Z.pos (digits2_pos p)) - 1)
      with (Z.succ (Z.pos (digits2_pos p) - 1)) by lia.
    rewrite Z.pow_succ_r by lia. lia.
  - simpl. lia.
Qed.

Lemma of_Z_pos_finite (p : positive) :
  Z.pos p < 2 ^ 53 ->
  exists m e, of_Z (Z.pos p) = S754_finite false m e.
Proof.
  intros Hp.
  assert (Hd : Z.pos (digits2_pos p) <= 53).
  { destruct (Z_le_gt_dec (Z.pos (digits2_pos p)) 53) as [H|H]; [exact H|].
    pose proof (digits2_pos_lower p) as Hl.
    assert (2 ^ 53 <= 2 ^ (Z.pos (digits2_pos p) - 1))
      by (apply Z.pow_le_mono_r; lia).
    lia. }
  unfold of_Z, binary_normalize, binary_round.
  assert (Hf : fexp prec emax (Z.pos (digits2_pos p) + 0)
               = Z.pos (digits2_pos p) - 53).
  { unfold fexp, emin, prec, emax. lia. }
  rewrite Hf. unfold shl_align.
  destruct (Z.pos (digits2_pos p) - 53 - 0) as [|q|q] eqn:E; try lia.
  - exists p, 0. apply binary_round_aux_exact; lia.
  - eexists. eexists. apply binary_round_aux_exact.
    + rewrite digits2_pos_iter. lia.
    + lia.
Qed.

Lemma add_not_nan (a x : float) :
  is_nan a = false -> is_finite x = true -> is_nan (add a x) = false.
Proof.
  intros Ha Hx.
  destruct a as [sa|sa| |sa ma ea]; try discriminate;
    destruct x as [sx|sx| |sx mx ex]; try discriminate;
    try reflexivity.
  - destruct sa, sx; reflexivity.
  - unfold add, SFadd. apply binary_normalize_not_nan.
Qed.

Lemma nan_to_zero_finite (c : float) :
  is_nan c = true \/ is_finite c = true -> is_finite (nan_to_zero c) = true.
Proof. destruct c; simpl; intros [H|H]; (reflexivity || discriminate). Qed.

Lemma fold_add_not_nan (l : list float) (a : float) :
  Forall (fun c => is_finite c = true) l -> is_nan a = false ->
  is_nan (fold_left add l a) = false.
Proof.
  revert a. induction l as [|x l IH]; intros a Hl Ha; [exact Ha|].
  inversion Hl as [|? ? Hx Hl']; subst. cbn [fold_left].
  apply IH; [exact Hl' | apply add_not_nan; assumption].
Qed.

Lemma nansum_not_nan (l : list float) :
  Forall (fun c => is_nan c = true \/ is_finite c = true) l ->
  is_nan (nansum l) = false.
Proof.
  intros H. unfold nansum. apply fold_add_not_nan; [|reflexivity].
  induction H as [|c l Hc _ IH]; simpl; constructor;
    [apply nan_to_zero_finite, Hc | exact IH].
Qed.

Lemma div_by_finite_not_nan (x : float) (s : bool) (m : positive) (e : Z) :
  is_nan x = false -> is_nan (div x (S754_finite s m e)) = false.
Proof.
  intros Hx. destruct x as [sx|sx| |sx mx ex]; try discriminate;
    try reflexivity.
  unfold div, SFdiv, SFdiv_core_binary.
  set (d := Z.min _ _). set (sh := (ex - e - d)%Z).
  set (m' := match sh with 0 => Z.pos mx | Z.pos _ => Z.shiftl (Z.pos mx) sh
             | Z.neg _ => 0 end).
  assert (Hm' : 0 <= m').
  { subst m'. destruct sh; [lia | apply Z.shiftl_nonneg; lia | lia]. }
  pose proof (Z.div_pos m' (Z.pos m) Hm' ltac:(lia)) as Hq.
  unfold Z.div in Hq.
  destruct (Z.div_eucl m' (Z.pos m)) as [q r].
  apply binary_round_aux_not_nan, Hq.
Qed.

(** With at least one valid cell, finite valid cells and fewer than 2^53
    of them, the mean is a number. *)
Lemma nanmean_not_nan (l : list float) :
  (exists c, In c l /\ is_nan c = false) ->
  Forall (fun c => is_nan c = true \/ is_finite c = true) l ->
  count_valid l < 2 ^ 53 ->
  is_nan (nanmean l) = false.
Proof.
  intros [c [Hin Hc]] Hfin Hcount. unfold nanmean.
  assert (Hpos : 0 < count_valid l).
  { unfold count_valid.
    assert (In c (filter (fun f => negb (is_nan f)) l))
      by (apply filter_In; rewrite Hc; auto).
    destruct (filter (fun f => negb (is_nan f)) l); [contradiction|].
    simpl List.length. lia. }
  destruct (count_valid l) as [|p|p] eqn:E; try lia.
  destruct (of_Z_pos_finite p Hcount) as [m [e ->]].
  apply div_by_finite_not_nan, nansum_not_nan, Hfin.
Qed.

(** ** The assembly succeeds on well-formed files *)








(** ** The sampled intercept *)

Lemma slice_at_map (f : matrix -> matrix) (t : list (list matrix))
    (i j : nat) (m0 m : matrix) :
  slice_at t i j = Some m0 -> slice_at (map (map f) t) i j = Some m ->
  m = f m0.
Proof.
  unfold slice_at. rewrite nth_error_map.
  destruct (nth_error t i) as [row|]; [|discriminate]. cbn [option_map].
  rewrite nth_error_map. intros ->. cbn [option_map]. congruence.
Qed.

(** C10: for every unit that the two models share, the V0 and V0_sd of a
    sample are the interpolation of the gap-filled intercept V0_filled of
    that unit, at the statistics mean and sd of simple kriging; the raw
    intercept V0 is not read.  Hence, in models assembled by [convert], at
    a query that reproduces a node where the raw intercept of a unit is
    no-data while the unit has valid (finite) cells elsewhere, the sampled
    V0 is not no-data: it is the mean of the valid cells of the unit. *)
Theorem V0_is_sampled_from_V0_filled :
  forall (xy : DataArray -> float) (x_crs crs : option string)
         (z : option float) (dgm : Dgm) (velmod : Velmod),
    sampler_ready dgm velmod = true ->
    (z = None \/ common_units dgm velmod <> []) ->
    exists r i jm js,
      sample_dgm_velmod xy x_crs z dgm velmod crs = Ok r
      /\ index_of "sk" (velmod_kriging_type velmod) = Some i
      /\ index_of "mean" (velmod_summary_statistic velmod) = Some jm
      /\ index_of "sd" (velmod_summary_statistic velmod) = Some js
      /\ forall u, In u (dgm_units dgm) -> In u (velmod_units velmod) ->
           exists vrow filled m ms,
             row_of v_unit (velmod_rows velmod) u = Some vrow
             /\ get_var "V0_filled" (v_vars vrow) = Ok filled
             /\ slice_at filled i jm = Some m
             /\ slice_at filled i js = Some ms
             /\ at_unit u (V0 r) = Some (xy (velmod_field velmod m))
             /\ at_unit u (V0_sd r) = Some (xy (velmod_field velmod ms))
             /\ forall velmoddata velmodds dgmds raw m0 rr cc line c0,
                  convert velmoddata velmodds dgmds = Ok (velmod, dgm) ->
                  get_var "V0" (v_vars vrow) = Ok raw ->
                  slice_at raw i jm = Some m0 ->
                  nth_error m0 rr = Some line ->
                  nth_error line cc = Some c0 ->
                  is_nan c0 = true ->
                  (exists c, In c (List.concat m0) /\ is_nan c = false) ->
                  Forall (fun c => is_nan c = true \/ is_finite c = true)
                         (List.concat m0) ->
                  count_valid (List.concat m0) < 2 ^ 53 ->
                  xy (velmod_field velmod m) = cell m rr cc ->
                  exists v,
                    at_unit u (V0 r) = Some v
                    /\ is_nan v = false
                    /\ same_number v (mean_of_valid (List.concat m0)).
Proof.
  intros xy x_crs crs z dgm velmod Hready Hz.
  destruct (sample_fields xy x_crs crs z dgm velmod Hready Hz)
    as (_ & _ & _ & _ & _ & r & _ & _ & _ & _ & _ & _ & Hrun & _).
  destruct (sample_over_rows xy dgm velmod Hready)
    as (vs & ds & i & jm & js & Hvs & Hds & Hi & Hjm & Hjs & Hsl & Hover).
  destruct (Hover x_crs z crs r Hrun) as (HV0 & HSD & _).
  exists r, i, jm, js. repeat (split; [assumption|]).
  intros u Hud Huv.
  assert (Hcommon : In u (common_units dgm velmod))
    by (apply intersect1d_In; auto).
  destruct (at_unit_rows v_unit v_ordering _ _ vs u Hvs Hcommon)
    as (vrow & Hrow & Hin & Hat).
  destruct (Hsl vrow Hin) as (filled & m & ms & Hf & Hm & Hms & Hs & Hs').
  assert (H0 : at_unit u (V0 r) = Some (xy (velmod_field velmod m))).
  { rewrite HV0, (Hat _ (fun row =>
               xy (velmod_field velmod (filled_slice i jm row)))), Hs.
    reflexivity. }
  exists vrow, filled, m, ms. repeat (split; [assumption|]).
  split.
  { rewrite HSD, (Hat _ (fun row =>
               xy (velmod_field velmod (filled_slice i js row)))), Hs'.
    reflexivity. }
  intros velmoddata velmodds dgmds raw m0 rr cc line c0
         Hconv Hraw Hm0 Hline Hc0 Hnan Hvalid Hfin Hcount Hxy.
  destruct (convert_inv _ _ _ _ _ Hconv) as [Ev _].
  destruct (convert_velmod_inv _ _ _ Ev) as [rows [_ HF]].
  destruct (row_of_In _ _ _ _ Hrow) as [Hvrow _].
  destruct (Forall2_In_r _ _ _ _ HF Hvrow)
    as [r0 [_ [_ [_ [v0 [Hv0 Hfilled]]]]]].
  rewrite Hraw in Hv0. injection Hv0 as <-.
  rewrite Hf in Hfilled. injection Hfilled as ->.
  pose proof (slice_at_map fill_by_mean raw i jm m0 m Hm0 Hm) as Em.
  exists (nanmean (List.concat m0)). split.
  - rewrite H0, Hxy, Em, (cell_fill_by_mean m0 rr cc line c0 Hline Hc0).
    unfold fillna. rewrite Hnan. reflexivity.
  - split; [apply nanmean_not_nan; assumption|].
    apply nanmean_is_mean_of_valid.
Qed.

(** ** The terminal entry at the query *)






(** ** Concrete instances on the small model *)


Lemma Vinst_equals_linear_law_witness :
  sampler_ready Fixture.dgm Fixture.velmod = true
  /\ common_units Fixture.dgm Fixture.velmod <> []
  /\ is_finite (of_Z (-150)) = true
  /\ exists r ds pre u t post vrow filled m i jm v,
       sample_dgm_velmod Fixture.centre None (Some (of_Z (-150)))
                         Fixture.dgm Fixture.velmod None = Ok r
       /\ rows_of d_unit (dgm_rows Fixture.dgm)
                  (common_units Fixture.dgm Fixture.velmod) ds
       /\ depth r
          = map (fun d => (d_unit d,
                           Fixture.centre
                             (dgm_field Fixture.dgm (tvd_field d))))
                (sortby d_ordering ds)
       /\ depth r = pre ++ (u, t) :: post
       /\ Forall (fun ut => ltb (snd ut) (of_Z (-150)) = false) pre
       /\ (ltb t (of_Z (-150)) = true
           \/ pre = []
              /\ Forall (fun ut => ltb (snd ut) (of_Z (-150)) = false) post)
       /\ unit_samples r = Some u
       /\ row_of v_unit (velmod_rows Fixture.velmod) u = Some vrow
       /\ get_var "V0_filled" (v_vars vrow) = Ok filled
       /\ index_of "sk" (velmod_kriging_type Fixture.velmod) = Some i
       /\ index_of "mean" (velmod_summary_statistic Fixture.velmod) = Some jm
       /\ slice_at filled i jm = Some m
       /\ at_unit u (V0 r)
          = Some (Fixture.centre (velmod_field Fixture.velmod m))
       /\ at_unit u (k r) = Some (v_k vrow)
       /\ Vinst r = Some v
       /\ (is_finite (Fixture.centre (velmod_field Fixture.velmod m)) = true ->
           is_finite (v_k vrow) = true ->
           eqb v (sub (Fixture.centre (velmod_field Fixture.velmod m))
                      (mul (v_k vrow) (of_Z (-150)))) = true
           /\ (sub (Fixture.centre (velmod_field Fixture.velmod m))
                   (mul (v_k vrow) (of_Z (-150)))
               <> S754_zero true ->
               v = sub (Fixture.centre (velmod_field Fixture.velmod m))
                       (mul (v_k vrow) (of_Z (-150))))).
Proof.
  split; [by_evaluation|]. split; [by_evaluation|]. split; [by_evaluation|].
  apply (Vinst_equals_linear_law Fixture.centre None None
           (of_Z (-150)) Fixture.dgm Fixture.velmod); by_evaluation.
Defined.

(** The law on the small model: at the centre and z = -150 the scan
    passes N (base -100) and selects NU (base -200), whose row in VELMOD
    has the filled intercept 1800 and the gradient 0.5; the velocity is
    1800 - 0.5 * (-150) = 1875. *)
Example linear_law_at_centre :
  exists r,
    sample_dgm_velmod Fixture.centre None (Some (of_Z (-150)))
                      Fixture.dgm Fixture.velmod None = Ok r
    /\ depth r = [("N", of_Z (-100)); ("NU", of_Z (-200)); ("DC", neg_inf)]%string
    /\ unit_samples r = Some "NU"%string
    /\ (exists vrow,
          row_of v_unit (velmod_rows Fixture.velmod) "NU" = Some vrow
          /\ Fixture.centre
               (velmod_field Fixture.velmod (filled_slice 0 0 vrow))
             = of_Z 1800
          /\ v_k vrow = dyadic 1 (-1))
    /\ Vinst r = Some (sub (of_Z 1800) (mul (dyadic 1 (-1)) (of_Z (-150))))
    /\ Vinst r = Some (of_Z 1875).
Proof.
  eexists. split; [by_evaluation|]. split; [by_evaluation|].
  split; [by_evaluation|]. split; [|split; by_evaluation].
  eexists. split; [by_evaluation|]. split; by_evaluation.
Qed.


(** The terminal entry on the small model, with the interpolation of the
    small model: at the centre of the cell the entry interpolates to minus
    infinity, at z = -250 no other unit has its base below z and the
    sampler returns DC; off the lattice the interpolation is no-data for
    every field of the DGM. *)
Example terminal_entry_at_centre :
  (exists row m r,
     row_of d_unit (dgm_rows Fixture.dgm) "DC" = Some row
     /\ get_var "tvd" (d_vars row) = Ok m
     /\ Fixture.centre (dgm_field Fixture.dgm m) = neg_inf
     /\ sample_dgm_velmod Fixture.centre None (Some (of_Z (-250)))
                          Fixture.dgm Fixture.velmod None = Ok r
     /\ unit_samples r = Some "DC"%string)
  /\ forall m', is_nan (Fixture.outside (dgm_field Fixture.dgm m')) = true.
Proof.
  split.
  - eexists. eexists. eexists. split; [by_evaluation|].
    split; [by_evaluation|]. split; [by_evaluation|].
    split; by_evaluation.
  - intros m'. reflexivity.
Qed.

(** Without DC in VELMOD the terminal entry is not among the common
    units: at z = -250 no unit of the sample has its base below z. *)
Example terminal_entry_needs_DC_in_VELMOD :
  convert Cases.velmoddata_no_DC Cases.velmodds_no_DC Fixture.dgmds
  = Ok (Cases.velmod_no_DC, Fixture.dgm)
  /\ sampler_ready Fixture.dgm Cases.velmod_no_DC = true
  /\ exists r,
       sample_dgm_velmod Fixture.centre None (Some (of_Z (-250)))
                         Fixture.dgm Cases.velmod_no_DC None = Ok r
       /\ depth r = [("N", of_Z (-100)); ("NU", of_Z (-200))]%string
       /\ Forall (fun ut => ltb (snd ut) (of_Z (-250)) = false) (depth r)
       /\ unit_samples r = Some "N"%string.
Proof.
  split; [by_evaluation|]. split; [by_evaluation|].
  eexists. split; [by_evaluation|]. split; [by_evaluation|].
  split; [|by_evaluation].
  cbn [depth]. repeat (apply Forall_cons; [by_evaluation|]). apply Forall_nil.
Qed.

(** With a second grid on a wider lattice than the first one, the
    terminal entry is no-data at the nodes that the first grid does not
    have, and so is its interpolation next to them. *)
Example terminal_entry_off_the_first_lattice :
  convert Fixture.velmoddata Fixture.velmodds
          [Fixture.dgm_N; Cases.dgm_NU_wide]
  = Ok (Fixture.velmod, Cases.dgm_wide)
  /\ dgm_x Cases.dgm_wide = [0; 1; 2]
  /\ (exists row m,
        row_of d_unit (dgm_rows Cases.dgm_wide) "DC" = Some row
        /\ get_var "tvd" (d_vars row) = Ok m
        /\ value_at (dgm_field Cases.dgm_wide m) 1 0 = neg_inf
        /\ value_at (dgm_field Cases.dgm_wide m) 2 0 = nan)
  /\ exists r,
       sample_dgm_velmod Cases.east None (Some (of_Z (-250)))
                         Cases.dgm_wide Fixture.velmod None = Ok r
       /\ depth r = [("N", nan); ("NU", of_Z (-200)); ("DC", nan)]%string
       /\ unit_samples r = Some "N"%string.
Proof.
  split; [by_evaluation|]. split; [by_evaluation|]. split.
  - eexists. eexists. split; [by_evaluation|]. split; [by_evaluation|].
    split; by_evaluation.
  - eexists. split; [by_evaluation|]. split; by_evaluation.
Qed.


(** The gap filling on the small model, with the unit RO that only the
    table of k values gives: the assembly returns the models, the
    intercept of RO has no valid cell and its filled intercept is no-data
    at every node, and the filled intercept of N holds the mean 1500 of
    its three valid nodes at the fourth. *)
Example gap_filling_on_the_small_model :
  convert Cases.velmoddata_RO Fixture.velmodds Fixture.dgmds
  = Ok (Cases.velmod_RO, Fixture.dgm)
  /\ (exists row,
        row_of v_unit (velmod_rows Cases.velmod_RO) "RO" = Some row
        /\ get_var "V0" (v_vars row) = Ok [[ [[nan; nan]; [nan; nan]];
                                             [[nan; nan]; [nan; nan]] ]]
        /\ get_var "V0_filled" (v_vars row)
           = Ok [[ [[nan; nan]; [nan; nan]]; [[nan; nan]; [nan; nan]] ]])
  /\ (exists row,
        row_of v_unit (velmod_rows Cases.velmod_RO) "N" = Some row
        /\ filled_slice 0 0 row
           = [[of_Z 1500; of_Z 1500]; [of_Z 1500; of_Z 1500]]
        /\ mean_of_valid [of_Z 1500; of_Z 1500; of_Z 1500; nan] = of_Z 1500).
Proof.
  split; [by_evaluation|]. split.
  - eexists. split; [by_evaluation|]. split; by_evaluation.
  - eexists. split; [by_evaluation|]. split; by_evaluation.
Qed.

Lemma V0_is_sampled_from_V0_filled_witness :
  sampler_ready Fixture.dgm Fixture.velmod = true
  /\ (@None float = None \/ common_units Fixture.dgm Fixture.velmod <> [])
  /\ exists r i jm js,
       sample_dgm_velmod Fixture.node11 None None
                         Fixture.dgm Fixture.velmod None = Ok r
       /\ index_of "sk" (velmod_kriging_type Fixture.velmod) = Some i
       /\ index_of "mean" (velmod_summary_statistic Fixture.velmod) = Some jm
       /\ index_of "sd" (velmod_summary_statistic Fixture.velmod) = Some js
       /\ forall u, In u (dgm_units Fixture.dgm) ->
                    In u (velmod_units Fixture.velmod) ->
            exists vrow filled m ms,
              row_of v_unit (velmod_rows Fixture.velmod) u = Some vrow
              /\ get_var "V0_filled" (v_vars vrow) = Ok filled
              /\ slice_at filled i jm = Some m
              /\ slice_at filled i js = Some ms
              /\ at_unit u (V0 r)
                 = Some (Fixture.node11 (velmod_field Fixture.velmod m))
              /\ at_unit u (V0_sd r)
                 = Some (Fixture.node11 (velmod_field Fixture.velmod ms))
              /\ forall velmoddata velmodds dgmds raw m0 rr cc line c0,
                   convert velmoddata velmodds dgmds
                   = Ok (Fixture.velmod, Fixture.dgm) ->
                   get_var "V0" (v_vars vrow) = Ok raw ->
                   slice_at raw i jm = Some m0 ->
                   nth_error m0 rr = Some line ->
                   nth_error line cc = Some c0 ->
                   is_nan c0 = true ->
                   (exists c, In c (List.concat m0) /\ is_nan c = false) ->
                   Forall (fun c => is_nan c = true \/ is_finite c = true)
                          (List.concat m0) ->
                   count_valid (List.concat m0) < 2 ^ 53 ->
                   Fixture.node11 (velmod_field Fixture.velmod m)
                   = cell m rr cc ->
                   exists v,
                     at_unit u (V0 r) = Some v
                     /\ is_nan v = false
                     /\ same_number v (mean_of_valid (List.concat m0)).
Proof.
  split; [by_evaluation|]. split; [left; reflexivity|].
  apply (V0_is_sampled_from_V0_filled Fixture.node11 None None None
           Fixture.dgm Fixture.velmod);
    [by_evaluation | left; reflexivity].
Defined.

(** The sampled intercept on the small model: the raw intercept of N is
    no-data at the node x = 1, y = 1 and valid at the three other nodes;
    a query at that node reproduces the filled node, and the sampled V0
    of N is 1500, the mean of the three valid nodes. *)
Example sampled_intercept_at_gap :
  exists r vrow raw m0 m,
    convert Fixture.velmoddata Fixture.velmodds Fixture.dgmds
    = Ok (Fixture.velmod, Fixture.dgm)
    /\ sample_dgm_velmod Fixture.node11 None None
                         Fixture.dgm Fixture.velmod None = Ok r
    /\ row_of v_unit (velmod_rows Fixture.velmod) "N" = Some vrow
    /\ get_var "V0" (v_vars vrow) = Ok raw
    /\ slice_at raw 0 0 = Some m0
    /\ m0 = [[of_Z 1500; of_Z 1500]; [of_Z 1500; nan]]
    /\ filled_slice 0 0 vrow = m
    /\ Fixture.node11 (velmod_field Fixture.velmod m) = cell m 1 1
    /\ at_unit "N" (V0 r) = Some (mean_of_valid (List.concat m0))
    /\ mean_of_valid (List.concat m0) = of_Z 1500.
Proof.
  do 5 eexists. split; [by_evaluation|]. split; [by_evaluation|].
  split; [by_evaluation|]. split; [by_evaluation|].
  split; [by_evaluation|]. split; [by_evaluation|].
  split; [reflexivity|]. split; [by_evaluation|]. split; by_evaluation.
Qed.
